(** * minishellai: a shallow embedding of [minishellai.py]

    The development follows the Python module function by function.
    Python objects that the program handles (parsed JSON and YAML
    documents, messages, configuration mappings) are values of the
    inductive type [value]; text is a [string] whose characters stand for
    code points below 256; the process state that the program reads and
    writes (files, the one list object it mutates, the output streams, the
    log and the record of backend calls) is the record [world], threaded
    through a small state-and-exception monad. *)

From Stdlib Require Import ZArith String Ascii List Bool Lia.
From stdpp Require Import base option list strings gmap.

#[local] Set Warnings "-register-all".
Local Open Scope string_scope.
Local Open Scope Z_scope.

(** ** Python values *)

Module Py.

(** Objects as [json.load] and [yaml.safe_load] produce them. Floating
    point numbers are left out of the model. A dictionary keeps its
    insertion order; its keys are strings. *)
Inductive value : Type :=
| VNone
| VBool (b : bool)
| VInt (z : Z)
| VStr (s : string)
| VList (l : list value)
| VDict (d : list (string * value)).

(** [bool(v)]: the truth value Python gives an object. *)
Definition truthy (v : value) : bool :=
  match v with
  | VNone => false
  | VBool b => b
  | VInt z => negb (z =? 0)
  | VStr s => match s with EmptyString => false | String _ _ => true end
  | VList l => match l with [] => false | _ => true end
  | VDict d => match d with [] => false | _ => true end
  end.

(** Lookup in a dictionary's item list. *)
Fixpoint assoc (k : string) (d : list (string * value)) : option value :=
  match d with
  | [] => None
  | (k', v) :: d' => if String.eqb k k' then Some v else assoc k d'
  end.

(** [d[k] = v] on a dictionary: an existing key keeps its position. *)
Fixpoint dict_set (k : string) (v : value) (d : list (string * value))
  : list (string * value) :=
  match d with
  | [] => [(k, v)]
  | (k', v') :: d' =>
      if String.eqb k k' then (k', v) :: d' else (k', v') :: dict_set k v d'
  end.

(** [dict(pairs)]. *)
Definition dict_of_pairs (l : list (string * value)) : list (string * value) :=
  fold_left (fun d kv => dict_set (fst kv) (snd kv) d) l [].

(** The representation invariant of dictionaries: no key occurs twice,
    at any depth. *)
Fixpoint distinct (l : list string) : bool :=
  match l with
  | [] => true
  | k :: l' => negb (existsb (String.eqb k) l') && distinct l'
  end.

Fixpoint wf_value (v : value) : bool :=
  match v with
  | VList l => forallb wf_value l
  | VDict d => distinct (map fst d) && forallb (fun kv => wf_value (snd kv)) d
  | _ => true
  end.

(** The nesting depth of lists and dictionaries. *)
Fixpoint depth (v : value) : nat :=
  match v with
  | VList l => S (fold_right (fun x n => Nat.max (depth x) n) O l)
  | VDict d => S (fold_right (fun kv n => Nat.max (depth (snd kv)) n) O d)
  | _ => O
  end.

End Py.
Export Py.

(** ** Python string operations *)

Module Str.

Definition chr (n : N) : ascii := ascii_of_N n.
Definition ord (c : ascii) : N := N_of_ascii c.

(** [c.isspace()] for a code point below 256. *)
Definition isspace (c : ascii) : bool :=
  let n := ord c in
  ((9 <=? n) && (n <=? 13) || (28 <=? n) && (n <=? 32)
   || (n =? 133) || (n =? 160))%N.

Fixpoint lstrip (s : string) : string :=
  match s with
  | String c s' => if isspace c then lstrip s' else s
  | EmptyString => EmptyString
  end.

Fixpoint rstrip (s : string) : string :=
  match s with
  | String c s' =>
      match rstrip s' with
      | EmptyString => if isspace c then EmptyString else String c EmptyString
      | r => String c r
      end
  | EmptyString => EmptyString
  end.

(** [s.strip()] *)
Definition strip (s : string) : string := rstrip (lstrip s).

(** [s.startswith(p)] *)
Fixpoint startswith (p s : string) : bool :=
  match p, s with
  | EmptyString, _ => true
  | String a p', String b s' => Ascii.eqb a b && startswith p' s'
  | String _ _, EmptyString => false
  end.

(** [sub in s] *)
Fixpoint contains (sub s : string) : bool :=
  startswith sub s ||
  match s with
  | String _ s' => contains sub s'
  | EmptyString => false
  end.

(** The scan behind [split] for a separator that is not empty: the text
    up to the first occurrence and the pieces after it. [skip] counts the
    characters of a matched separator still to pass over. *)
Fixpoint split_scan (sep : string) (skip : nat) (s : string) : string * list string :=
  match s with
  | EmptyString => (EmptyString, [])
  | String c s' =>
      match skip with
      | S k => split_scan sep k s'
      | O =>
          if startswith sep s
          then (EmptyString,
                let '(a, l) := split_scan sep (Nat.pred (String.length sep)) s' in a :: l)
          else let '(a, l) := split_scan sep O s' in (String c a, l)
      end
  end.

(** [s.split(sep)]; [None] stands for the [ValueError] Python raises on
    an empty separator. *)
Definition split (sep s : string) : option (list string) :=
  match sep with
  | EmptyString => None
  | _ => let '(a, l) := split_scan sep O s in Some (a :: l)
  end.

(** [s.replace(old, new)] *)
Fixpoint replace_scan (old new : string) (skip : nat) (s : string) : string :=
  match s with
  | EmptyString => EmptyString
  | String c s' =>
      match skip with
      | S k => replace_scan old new k s'
      | O =>
          if startswith old s
          then new +:+ replace_scan old new (Nat.pred (String.length old)) s'
          else String c (replace_scan old new O s')
      end
  end.

Fixpoint interleave (new s : string) : string :=
  match s with
  | EmptyString => new
  | String c s' => new +:+ String c (interleave new s')
  end.

Definition replace (old new s : string) : string :=
  match old with
  | EmptyString => interleave new s
  | _ => replace_scan old new O s
  end.

(** [sep.join(l)] *)
Fixpoint join (sep : string) (l : list string) : string :=
  match l with
  | [] => EmptyString
  | [x] => x
  | x :: l' => x +:+ sep +:+ join sep l'
  end.

(** [s[n:]] for a count [n]. *)
Fixpoint drop (n : nat) (s : string) : string :=
  match n, s with
  | S k, String _ s' => drop k s'
  | _, _ => s
  end.

(** The characters of a string, as iterating over it yields them. *)
Fixpoint chars (s : string) : list string :=
  match s with
  | EmptyString => []
  | String c s' => String c EmptyString :: chars s'
  end.

End Str.

(** ** The JSON codec

    [dumps] writes what [json.dumps] writes with its default settings
    (separators [", "] and [": "], every character outside the printable
    ASCII range escaped). [loads] reads a document the way
    [json.loads] does; a document that holds a number with a fraction or
    an exponent, [NaN], an infinity, or an escape for a code point above
    255 lies outside the model and is reported as [OutOfModel]. *)

Module Json.

Import Str.

Definition dquote : ascii := chr 34.
Definition bslash : ascii := chr 92.

(** *** Writing *)

Definition digit (n : N) : ascii := chr (48 + n).

Fixpoint digits_of (fuel : nat) (n : N) (tail : string) : string :=
  match fuel with
  | O => String (digit n) tail
  | S f =>
      if (n <? 10)%N then String (digit n) tail
      else digits_of f (n / 10)%N (String (digit (n mod 10)%N) tail)
  end.

Definition dumps_nat (n : N) (tail : string) : string :=
  digits_of (N.to_nat n) n tail.

Definition dumps_int (z : Z) (tail : string) : string :=
  if z <? 0 then String "-" (dumps_nat (Z.to_N (- z)) tail)
  else dumps_nat (Z.to_N z) tail.

Definition hex_digit (n : N) : ascii :=
  if (n <? 10)%N then chr (48 + n) else chr (87 + n).

(** One character of a string, as [ensure_ascii] encodes it. *)
Definition escape_char (c : ascii) : string :=
  let n := ord c in
  let esc (e : string) := String bslash e in
  if (n =? 34)%N then esc (String dquote EmptyString)
  else if (n =? 92)%N then esc (String bslash EmptyString)
  else if (n =? 10)%N then esc "n"
  else if (n =? 13)%N then esc "r"
  else if (n =? 9)%N then esc "t"
  else if (n =? 8)%N then esc "b"
  else if (n =? 12)%N then esc "f"
  else if ((32 <=? n) && (n <=? 126))%N then String c EmptyString
  else esc (String "u" (String "0" (String "0"
         (String (hex_digit (n / 16)%N) (String (hex_digit (n mod 16)%N) EmptyString))))).

Fixpoint escape (s : string) (tail : string) : string :=
  match s with
  | EmptyString => tail
  | String c s' => escape_char c +:+ escape s' tail
  end.

Definition dumps_str (s : string) (tail : string) : string :=
  String dquote (escape s (String dquote tail)).

Section Items.

Context {A : Type} (item : A -> string -> string) (open close : ascii).

(** The items after the first one, each behind [", "], and the closing
    bracket. *)
Fixpoint dumps_more (l : list A) (tail : string) : string :=
  match l with
  | [] => String close tail
  | y :: l' => String "," (String " " (item y (dumps_more l' tail)))
  end.

Definition dumps_items (l : list A) (tail : string) : string :=
  String open
    (match l with
     | [] => String close tail
     | x :: l' => item x (dumps_more l' tail)
     end).

End Items.

Definition dumps_member (val : value -> string -> string) (kv : string * value)
    (tail : string) : string :=
  let '(k, x) := kv in dumps_str k (String ":" (String " " (val x tail))).

(** [dumps_to v tail] is the text of [v] followed by [tail]. *)
Fixpoint dumps_to (v : value) (tail : string) : string :=
  match v with
  | VNone => "null" +:+ tail
  | VBool true => "true" +:+ tail
  | VBool false => "false" +:+ tail
  | VInt z => dumps_int z tail
  | VStr s => dumps_str s tail
  | VList l => dumps_items dumps_to (chr 91) (chr 93) l tail
  | VDict d => dumps_items (dumps_member dumps_to) (chr 123) (chr 125) d tail
  end.

(** [json.dumps(v)] *)
Definition dumps (v : value) : string := dumps_to v EmptyString.

(** *** Reading *)

Inductive pres (A : Type) : Type :=
| POk (a : A) (rest : string)
| PErr
| POut.
Arguments POk {A} a rest.
Arguments PErr {A}.
Arguments POut {A}.

Definition pmap {A B} (f : A -> B) (r : pres A) : pres B :=
  match r with
  | POk a rest => POk (f a) rest
  | PErr => PErr
  | POut => POut
  end.

Definition is_ws (c : ascii) : bool :=
  let n := ord c in ((n =? 32) || (n =? 9) || (n =? 10) || (n =? 13))%N.

Fixpoint skip_ws (s : string) : string :=
  match s with
  | String c s' => if is_ws c then skip_ws s' else s
  | EmptyString => EmptyString
  end.

Definition is_digit (c : ascii) : bool :=
  let n := ord c in ((48 <=? n) && (n <=? 57))%N.

Fixpoint scan_digits (acc : N) (s : string) : N * string :=
  match s with
  | String c s' =>
      if is_digit c then scan_digits (10 * acc + (ord c - 48))%N s' else (acc, s)
  | EmptyString => (acc, EmptyString)
  end.

(** The integer part of a number: [0] or a digit run with no leading
    zero. *)
Definition scan_nat (s : string) : pres N :=
  match s with
  | String c s' =>
      if (ord c =? 48)%N then POk 0%N s'
      else if is_digit c then let '(n, r) := scan_digits 0%N s in POk n r
      else PErr
  | EmptyString => PErr
  end.

(** What the first character of a text tells. *)
Definition head_is (p : ascii -> bool) (s : string) : bool :=
  match s with
  | String c _ => p c
  | EmptyString => false
  end.

(** The characters that open a fraction or an exponent. *)
Definition float_mark (c : ascii) : bool :=
  let n := ord c in ((n =? 46) || (n =? 101) || (n =? 69))%N.

(** After the integer part, a fraction [.d] or an exponent [e d], [e+d],
    [e-d] makes the number a float. *)
Definition float_tail (s : string) : bool :=
  match s with
  | String c r =>
      if (ord c =? 46)%N then head_is is_digit r
      else if float_mark c then
        match r with
        | String c' r' =>
            if ((ord c' =? 43) || (ord c' =? 45))%N then head_is is_digit r'
            else is_digit c'
        | EmptyString => false
        end
      else false
  | EmptyString => false
  end.

Definition scan_number (neg : bool) (s : string) : pres value :=
  match scan_nat s with
  | POk n r =>
      if float_tail r then POut
      else POk (VInt (if neg then - Z.of_N n else Z.of_N n)) r
  | PErr => PErr
  | POut => POut
  end.

Definition hex_val (c : ascii) : option N :=
  let n := ord c in
  if ((48 <=? n) && (n <=? 57))%N then Some (n - 48)%N
  else if ((97 <=? n) && (n <=? 102))%N then Some (n - 87)%N
  else if ((65 <=? n) && (n <=? 70))%N then Some (n - 55)%N
  else None.

Definition hex4 (a b c d : ascii) : option N :=
  match hex_val a, hex_val b, hex_val c, hex_val d with
  | Some x, Some y, Some z, Some w => Some (((x * 16 + y) * 16 + z) * 16 + w)%N
  | _, _, _, _ => None
  end.

(** The character a two-character escape stands for. *)
Definition simple_escape (e : ascii) : option ascii :=
  let n := ord e in
  if (n =? 34)%N then Some dquote
  else if (n =? 92)%N then Some bslash
  else if (n =? 47)%N then Some (chr 47)
  else if (n =? 98)%N then Some (chr 8)
  else if (n =? 102)%N then Some (chr 12)
  else if (n =? 110)%N then Some (chr 10)
  else if (n =? 114)%N then Some (chr 13)
  else if (n =? 116)%N then Some (chr 9)
  else None.

(** The body of a string, after its opening quote. *)
Fixpoint scan_string (s : string) : pres string :=
  match s with
  | EmptyString => PErr
  | String c r =>
      let n := ord c in
      if (n =? 34)%N then POk EmptyString r
      else if (n =? 92)%N then
        match r with
        | EmptyString => PErr
        | String e r1 =>
            match simple_escape e with
            | Some ch => pmap (String ch) (scan_string r1)
            | None =>
                if (ord e =? 117)%N then
                  match r1 with
                  | String h1 (String h2 (String h3 (String h4 r2))) =>
                      match hex4 h1 h2 h3 h4 with
                      | Some u =>
                          if (u <? 256)%N then pmap (String (chr u)) (scan_string r2)
                          else POut
                      | None => PErr
                      end
                  | _ => PErr
                  end
                else PErr
            end
        end
      else if (n <? 32)%N then PErr
      else pmap (String c) (scan_string r)
  end.

(** The items of an array or an object after its opening bracket, up to
    and including the closing one. *)
Fixpoint scan_items {A} (item : string -> pres A) (close : ascii) (n : nat) (s : string)
  : pres (list A) :=
  match n with
  | O => POut
  | S n' =>
      match item s with
      | POk a r =>
          match skip_ws r with
          | String c r' =>
              if (ord c =? 44)%N then pmap (cons a) (scan_items item close n' (skip_ws r'))
              else if Ascii.eqb c close then POk [a] r'
              else PErr
          | EmptyString => PErr
          end
      | PErr => PErr
      | POut => POut
      end
  end.

(** One member of an object: a key, a colon, a value. *)
Definition scan_member (val : string -> pres value) (s : string) : pres (string * value) :=
  match s with
  | String c r =>
      if (ord c =? 34)%N then
        match scan_string r with
        | POk k r1 =>
            match skip_ws r1 with
            | String c' r2 =>
                if (ord c' =? 58)%N then pmap (pair k) (val (skip_ws r2)) else PErr
            | EmptyString => PErr
            end
        | PErr => PErr
        | POut => POut
        end
      else PErr
  | EmptyString => PErr
  end.

Definition scan_literal (w : string) (v : value) (s : string) : pres value :=
  if startswith w s then POk v (drop (String.length w) s) else PErr.

Definition scan_nonfinite (w : string) (s : string) : pres value :=
  if startswith w s then POut else PErr.

(** One value at the head of [s]; [fuel] bounds the nesting depth. *)
Fixpoint scan_value (fuel : nat) (s : string) : pres value :=
  match fuel with
  | O => POut
  | S f =>
      match s with
      | EmptyString => PErr
      | String c r =>
          let n := ord c in
          if (n =? 34)%N then pmap VStr (scan_string r)
          else if (n =? 123)%N then
            match skip_ws r with
            | String c' r' =>
                if (ord c' =? 125)%N then POk (VDict []) r'
                else pmap (fun l => VDict (dict_of_pairs l))
                       (scan_items (scan_member (scan_value f)) (chr 125)
                          (String.length r) (skip_ws r))
            | EmptyString => PErr
            end
          else if (n =? 91)%N then
            match skip_ws r with
            | String c' r' =>
                if (ord c' =? 93)%N then POk (VList []) r'
                else pmap VList
                       (scan_items (scan_value f) (chr 93) (String.length r) (skip_ws r))
            | EmptyString => PErr
            end
          else if (n =? 110)%N then scan_literal "null" VNone s
          else if (n =? 116)%N then scan_literal "true" (VBool true) s
          else if (n =? 102)%N then scan_literal "false" (VBool false) s
          else if (n =? 78)%N then scan_nonfinite "NaN" s
          else if (n =? 73)%N then scan_nonfinite "Infinity" s
          else if (n =? 45)%N then
            match scan_nonfinite "Infinity" r with
            | POut => POut
            | _ => scan_number true r
            end
          else scan_number false s
      end
  end.

Inductive loaded : Type :=
| Parsed (v : value)
| DecodeError
| OutOfModel.

(** [json.loads(s)] *)
Definition loads (s : string) : loaded :=
  match scan_value (S (String.length s)) (skip_ws s) with
  | POk v r =>
      match skip_ws r with
      | EmptyString => Parsed v
      | String _ _ => DecodeError
      end
  | PErr => DecodeError
  | POut => OutOfModel
  end.

(** *** Predicates for the round trip *)

Definition nonzero_digit (c : ascii) : bool := is_digit c && negb (ord c =? 48)%N.

(** A text that may follow a number: it does not go on with a digit, a
    fraction or an exponent. *)
Definition delim (s : string) : bool :=
  match s with
  | String c _ => negb (is_digit c) && negb (float_mark c)
  | EmptyString => true
  end.

(** The first character of a written value: no white space and no
    closing bracket. *)
Definition valstart (c : ascii) : bool :=
  negb (is_ws c) && negb (ord c =? 93)%N && negb (ord c =? 125)%N.

(** The deepest item of a list, for a depth [dep] of items. *)
Definition deepest {A} (dep : A -> nat) (l : list A) : nat :=
  fold_right (fun x n => Nat.max (dep x) n) O l.

(** The text of an item is longer than the item is deep. *)
Definition longer {A} (item : A -> string -> string) (dep : A -> nat) (y : A) : Prop :=
  forall t, (String.length t + dep y < String.length (item y t))%nat.

(** An item is read back from its text, whatever delimiter follows. *)
Definition reads_back {A} (item_d : A -> string -> string) (item_s : string -> pres A)
    (y : A) : Prop :=
  forall t, delim t = true -> item_s (item_d y t) = POk y t.

End Json.

(** ** The process: state, exceptions and the primitives the module calls *)

Module Sys.

Import Str.

(** The exception classes that can reach the module's [except] clauses or
    end the process. [exit(n)] raises [SystemExit n]. *)
Inductive exn : Type :=
| SystemExit (code : Z)
| AttributeError
| TypeError
| ValueError
| IndexError
| OSError
| JSONDecodeError
| YAMLError
| RequestException.

(** How a call ends. [Unmodelled] marks behaviour the model does not
    follow: a path given as an integer (a file descriptor in Python) and a
    document that [Json.loads] reports as out of the model. *)
Inductive result (A : Type) : Type :=
| Ok (a : A)
| Raise (e : exn)
| Unmodelled.
Arguments Ok {A} a.
Arguments Raise {A} e.
Arguments Unmodelled {A}.

Inductive level : Type := INFO | WARNING | ERROR.

(** The pieces of a formatted message: literal text, an interpolated
    object, an interpolated exception. *)
Inductive frag : Type :=
| Lit (s : string)
| Obj (v : value)
| Exc (e : exn).

(** A reference to a list object. *)
Definition loc : Type := nat.

Record world : Type := World {
  files : gmap string string;      (* the regular files: path to text *)
  can_write : string -> bool;      (* whether [open(path, 'w')] succeeds *)
  heap : list (list value);        (* the list objects, by reference *)
  stdout : list value;             (* the objects given to [print], in order *)
  stderr : list string;            (* the lines printed to [sys.stderr] *)
  log : list (level * list frag);  (* the records given to [logging] *)
  posts : list (string * string)   (* the requests sent: URL and body *)
}.

(** What the process is started with and the services it calls. *)
Inductive response : Type :=
| Response (status : Z) (body : string).

Record env : Type := Env {
  argv0 : string;
  stdin : option string;                     (* [None]: nothing to read *)
  shellai_config : option string;            (* the variable SHELLAI_CONFIG *)
  yaml_safe_load : string -> result value;   (* PyYAML on a file's text *)
  http_post : string -> string -> option response;
                                             (* [None]: the transport fails *)
  os_system : string -> gmap string string -> gmap string string
                                             (* a command's effect on files *)
}.

Definition M (A : Type) : Type := world -> result A * world.

Definition ret {A} (a : A) : M A := fun w => (Ok a, w).

Definition bind {A B} (m : M A) (k : A -> M B) : M B :=
  fun w =>
    match m w with
    | (Ok a, w') => k a w'
    | (Raise e, w') => (Raise e, w')
    | (Unmodelled, w') => (Unmodelled, w')
    end.

Definition raise {A} (e : exn) : M A := fun w => (Raise e, w).

Definition unmodelled {A} : M A := fun w => (Unmodelled, w).

Definition lift {A} (r : result A) : M A := fun w => (r, w).

(** [try: body except cls as e: handler e] *)
Definition try_except {A} (body : M A) (cls : exn -> bool) (handler : exn -> M A) : M A :=
  fun w =>
    match body w with
    | (Raise e, w') => if cls e then handler e w' else (Raise e, w')
    | r => r
    end.

(** [except json.JSONDecodeError] *)
Definition is_JSONDecodeError (e : exn) : bool :=
  match e with JSONDecodeError => true | _ => false end.

(** [except requests.exceptions.RequestException] *)
Definition is_RequestException (e : exn) : bool :=
  match e with RequestException => true | _ => false end.

Definition exit {A} (code : Z) : M A := raise (SystemExit code).

(** The status the process ends with. *)
Definition exit_status {A} (r : result A) : option Z :=
  match r with
  | Ok _ => Some 0
  | Raise (SystemExit c) => Some c
  | Raise _ => Some 1
  | Unmodelled => None
  end.

Definition logging (l : level) (msg : list frag) : M unit :=
  fun w => (Ok tt, World (files w) (can_write w) (heap w) (stdout w) (stderr w)
                         (log w ++ [(l, msg)]) (posts w)).

(** [logging.debug]: the root logger is set to INFO, the record is dropped. *)
Definition logging_debug (msg : list frag) : M unit := ret tt.

Definition print (v : value) : M unit :=
  fun w => (Ok tt, World (files w) (can_write w) (heap w) (stdout w ++ [v]) (stderr w)
                         (log w) (posts w)).

Definition print_stderr (s : string) : M unit :=
  fun w => (Ok tt, World (files w) (can_write w) (heap w) (stdout w) (stderr w ++ [s])
                         (log w) (posts w)).

Definition set_files (f : gmap string string) (w : world) : world :=
  World f (can_write w) (heap w) (stdout w) (stderr w) (log w) (posts w).

Definition set_heap (h : list (list value)) (w : world) : world :=
  World (files w) (can_write w) h (stdout w) (stderr w) (log w) (posts w).

(** The text of the file at a path; the empty path names no file. *)
Definition lookup_file (w : world) (s : string) : option string :=
  match s with
  | EmptyString => None
  | String _ _ => files w !! s
  end.

(** Whether a path can be opened for writing; the empty path cannot. *)
Definition writable (w : world) (s : string) : bool :=
  match s with
  | EmptyString => false
  | String _ _ => can_write w s
  end.

(** [os.path.exists(p)] *)
Definition os_path_exists (p : value) : M bool :=
  match p with
  | VStr s => fun w => (Ok (match lookup_file w s with Some _ => true | None => false end), w)
  | VInt _ | VBool _ => unmodelled
  | _ => raise TypeError
  end.

(** [open(p, 'r').read()] *)
Definition read_text (p : value) : M string :=
  match p with
  | VStr s => fun w => match lookup_file w s with
                       | Some text => (Ok text, w)
                       | None => (Raise OSError, w)
                       end
  | VInt _ | VBool _ => unmodelled
  | _ => raise TypeError
  end.

(** [open(p, 'w')]: the file is created or emptied. *)
Definition open_w (p : value) : M string :=
  match p with
  | VStr s => fun w => if writable w s
                       then (Ok s, set_files (<[s := EmptyString]> (files w)) w)
                       else (Raise OSError, w)
  | VInt _ | VBool _ => unmodelled
  | _ => raise TypeError
  end.

(** [f.write(text)] on a file just opened for writing. *)
Definition write_text (s : string) (text : string) : M unit :=
  fun w => (Ok tt, set_files (<[s := text]> (files w)) w).

(** [os.remove(p)] *)
Definition os_remove (p : value) : M unit :=
  match p with
  | VStr s => fun w => match lookup_file w s with
                       | Some _ => (Ok tt, set_files (delete s (files w)) w)
                       | None => (Raise OSError, w)
                       end
  | VInt _ | VBool _ => unmodelled
  | _ => raise TypeError
  end.

(** [d.get(k, default)]; an object that is no dictionary has no [get]. *)
Definition lookup_default (items : list (string * value)) (k : string) (default : value)
  : value :=
  match assoc k items with
  | Some v => v
  | None => default
  end.

Definition dict_get (d : value) (k : string) (default : value) : M value :=
  match d with
  | VDict items => ret (lookup_default items k default)
  | _ => raise AttributeError
  end.

(** [l[:n]] on a list or the characters of a string. *)
Definition slice_to {A} (l : list A) (n : Z) : list A :=
  if 0 <=? n then firstn (Z.to_nat n) l
  else firstn (Z.to_nat (Z.of_nat (length l) + n)) l.

Fixpoint string_firstn (n : nat) (s : string) : string :=
  match n, s with
  | S k, String c s' => String c (string_firstn k s')
  | _, _ => EmptyString
  end.

Definition string_slice_to (s : string) (n : Z) : string :=
  if 0 <=? n then string_firstn (Z.to_nat n) s
  else string_firstn (Z.to_nat (Z.of_nat (String.length s) + n)) s.

(** The stop index of a slice: [None] for an absent bound. *)
Definition as_index (v : value) : result (option Z) :=
  match v with
  | VNone => Ok None
  | VInt z => Ok (Some z)
  | VBool b => Ok (Some (if b then 1 else 0))
  | _ => Raise TypeError
  end.

(** [x[:stop]]; only lists and strings are sliced (a dictionary raises
    [KeyError] instead since Python 3.12, as uncaught as [TypeError]). *)
Definition getitem_slice_to (x stop : value) : M value :=
  match x with
  | VList l =>
      match as_index stop with
      | Ok None => ret (VList l)
      | Ok (Some n) => ret (VList (slice_to l n))
      | Raise e => raise e
      | Unmodelled => unmodelled
      end
  | VStr s =>
      match as_index stop with
      | Ok None => ret (VStr s)
      | Ok (Some n) => ret (VStr (string_slice_to s n))
      | Raise e => raise e
      | Unmodelled => unmodelled
      end
  | _ => raise TypeError
  end.

(** The elements [*x] unpacks. *)
Definition unpack (x : value) : M (list value) :=
  match x with
  | VList l => ret l
  | VStr s => ret (map VStr (chars s))
  | VDict d => ret (map (fun kv => VStr (fst kv)) d)
  | _ => raise TypeError
  end.

(** A new list object. *)
Definition new_list (l : list value) : M loc :=
  fun w => (Ok (length (heap w)), set_heap (heap w ++ [l]) w).

Definition deref (r : loc) : M (list value) :=
  fun w => match heap w !! r with
           | Some l => (Ok l, w)
           | None => (Unmodelled, w)
           end.

(** [r.append(x)] *)
Definition list_append (r : loc) (x : value) : M unit :=
  fun w => match heap w !! r with
           | Some l => (Ok tt, set_heap (<[r := (l ++ [x])%list]> (heap w)) w)
           | None => (Unmodelled, w)
           end.

(** [json.loads] as the program sees it. *)
Definition json_loads (cls : exn) (text : string) : M value :=
  match Json.loads text with
  | Json.Parsed v => ret v
  | Json.DecodeError => raise cls
  | Json.OutOfModel => unmodelled
  end.

(** [s.split()] with no separator: the runs between white space.
    [in_word] tells that the head of the result continues a run already
    begun. *)
Fixpoint split_ws (in_word : bool) (s : string) : list string :=
  match s with
  | EmptyString => if in_word then [EmptyString] else []
  | String c s' =>
      if isspace c
      then (if in_word then EmptyString :: split_ws false s' else split_ws false s')
      else match split_ws true s' with
           | a :: l => String c a :: l
           | [] => [String c EmptyString]
           end
  end.

(** [text.split(sep)] for the object [sep]. *)
Definition str_split (text : string) (sep : value) : M (list string) :=
  match sep with
  | VStr s => match split s text with
              | Some l => ret l
              | None => raise ValueError
              end
  | VNone => ret (split_ws false text)
  | _ => raise TypeError
  end.

(** [l[-1]] *)
Definition getitem_last (l : list string) : M string :=
  match last l with
  | Some x => ret x
  | None => raise IndexError
  end.

End Sys.

(** ** The module [minishellai.py] *)

Module Minishellai.

Import Str Sys.

Notation "'let*' x ':=' m 'in' k" := (bind m (fun x => k))
  (at level 10, x pattern, m at level 100, k at level 200).
Notation "m ';;' k" := (bind m (fun _ => k))
  (at level 100, k at level 200, right associativity).

Definition newline : string := String (chr 10) EmptyString.

Definition default_history_file : value := VStr "/tmp/minishellai_history.json".
Definition default_output_file : value := VStr "/tmp/minishellai_output.txt".
Definition default_endpoint : value := VStr "http://0.0.0.0:8080/api/v1/query/".

(** The message dictionary [{"role": role, "content": content}]. *)
Definition message (role : string) (content : value) : value :=
  VDict [("role", VStr role); ("content", content)].

Section WithEnv.

Variable E : env.

Definition usage : string :=
  "Usage: " +:+ argv0 E +:+ " <'record'|query-like-string>".

(** [os.getenv('SHELLAI_CONFIG', 'config.yaml')] *)
Definition config_path : string :=
  match shellai_config E with
  | Some p => p
  | None => "config.yaml"
  end.

Definition read_stdin : M (option string) :=
  match stdin E with
  | Some data => ret (Some (strip data))
  | None => ret None
  end.

Definition read_yaml_config (config_file : string) : M value :=
  let* found := os_path_exists (VStr config_file) in
  if negb found then
    print_stderr ("Config file " +:+ config_file +:+
                  " does not exist (use env 'SHELLAI_CONFIG' to change destination).") ;;
    ret (VDict [])
  else
    let* text := read_text (VStr config_file) in
    logging INFO [Lit "Reading config file "; Lit config_file] ;;
    lift (yaml_safe_load E text).

Definition read_history (config : value) : M value :=
  let* enabled := dict_get config "enabled" (VBool false) in
  if negb (truthy enabled) then ret (VList [])
  else
    let* filepath := dict_get config "filepath" default_history_file in
    let* missing :=
      (if negb (truthy filepath) then ret true
       else let* found := os_path_exists filepath in ret (negb found)) in
    if missing then
      logging WARNING [Lit "History file "; Obj filepath; Lit " does not exist."] ;;
      logging WARNING [Lit "File will be created with first response."] ;;
      ret (VList [])
    else
      let* max_size := dict_get config "max_size" (VInt 100) in
      let* loaded :=
        try_except
          (let* text := read_text filepath in
           let* history := json_loads JSONDecodeError text in
           ret (Some history))
          is_JSONDecodeError
          (fun e =>
             logging ERROR [Lit "Failed to read history file "; Obj filepath;
                            Lit ": "; Exc e] ;;
             ret None) in
      match loaded with
      | None => ret (VList [])
      | Some history =>
          logging INFO [Lit "Taking last maximum of "; Obj max_size;
                        Lit " entries from history."] ;;
          getitem_slice_to history max_size
      end.

Definition write_history (config : value) (history : loc) (response : value) : M unit :=
  let* enabled := dict_get config "enabled" (VBool false) in
  if negb (truthy enabled) then ret tt
  else
    let* filepath := dict_get config "filepath" default_history_file in
    list_append history (message "assistant" response) ;;
    try_except
      (let* f := open_w filepath in
       let* items := deref history in
       write_text f (Json.dumps (VList items)))
      is_JSONDecodeError
      (fun e =>
         logging ERROR [Lit "Failed to write history file "; Obj filepath;
                        Lit ": "; Exc e]).

(** The payload dictionary: its ["msg"] entry refers to a list object. *)
Record payload : Type := Payload {
  msg : loc;
  metadata : value
}.

Definition get_payload (query : string) (history : value) : M payload :=
  let* items := unpack history in
  let* r := new_list (items ++ [message "user" (VStr query)])%list in
  ret (Payload r (VDict [])).

(** [json.dumps(payload)] *)
Definition dumps_payload (p : payload) : M string :=
  let* items := deref (msg p) in
  ret (Json.dumps (VDict [("msg", VList items); ("metadata", metadata p)])).

Definition start_script_session (shellai_tmp_file : value) : M unit :=
  let* script_command :=
    match shellai_tmp_file with
    | VStr f => ret (join " " ["script"; "-f"; f])
    | _ => raise TypeError
    end in
  (fun w => (Ok tt, set_files (os_system E script_command (files w)) w)) ;;
  let* found := os_path_exists shellai_tmp_file in
  if found then
    logging INFO [Lit "Removing "; Obj shellai_tmp_file] ;;
    os_remove shellai_tmp_file
  else ret tt.

Definition handle_caret (query : string) (config : value) : M string :=
  if negb (contains "^" query) then ret query
  else
    let* output_capture_settings := dict_get config "output_capture_settings" (VDict []) in
    let* captured_output_file :=
      dict_get output_capture_settings "captured_output_file" default_output_file in
    let* found := os_path_exists captured_output_file in
    (if negb found then
       logging ERROR [Lit "Output file "; Obj captured_output_file;
                      Lit " does not exist, change location of file in config to use '^'."] ;;
       exit 1
     else ret tt) ;;
    let* prompt_separator := dict_get output_capture_settings "prompt_separator" (VStr "$") in
    let* text := read_text captured_output_file in
    let* pieces := str_split text prompt_separator in
    let* piece := getitem_last pieces in
    let output := strip piece in
    let query := replace "^" EmptyString query in
    ret ("Context data: " +:+ output +:+ newline +:+ "Question: " +:+ query).

(** [requests.post(url, headers=..., data=body, timeout=30)]: the call is
    recorded; an object that is no string is no URL. *)
Definition requests_post (url : value) (body : string) : M response :=
  match url with
  | VStr u =>
      fun w =>
        let w' := World (files w) (can_write w) (heap w) (stdout w) (stderr w) (log w)
                        (posts w ++ [(u, body)]) in
        match http_post E u body with
        | Some r => (Ok r, w')
        | None => (Raise RequestException, w')
        end
  | _ => raise RequestException
  end.

(** [response.raise_for_status()] *)
Definition raise_for_status (r : response) : M unit :=
  match r with
  | Response status _ =>
      if (400 <=? status) && (status <? 600) then raise RequestException else ret tt
  end.

(** [response.json()]: a body that is no JSON document raises the
    [JSONDecodeError] of [requests], a [RequestException]. *)
Definition response_json (r : response) : M value :=
  match r with
  | Response _ body => json_loads RequestException body
  end.

Definition handle_query (query : string) (config : value) : M unit :=
  let* query := handle_caret query config in
  logging INFO [Lit "Query:"; Lit newline; Lit query] ;;
  let* backend_service := dict_get config "backend_service" (VDict []) in
  let* query_endpoint := dict_get backend_service "query_endpoint" default_endpoint in
  try_except
    (let* history_conf := dict_get config "history" (VDict []) in
     let* history := read_history history_conf in
     let* payload := get_payload query history in
     logging INFO [Lit "Waiting for response from AI..."] ;;
     let* body := dumps_payload payload in
     let* response := requests_post query_endpoint body in
     raise_for_status response ;;
     let* completion := response_json response in
     let* response_data := dict_get completion "data" VNone in
     write_history history_conf (msg payload) response_data ;;
     print response_data)
    is_RequestException
    (fun e =>
       logging ERROR [Lit "Failed to get response from AI: "; Exc e] ;;
       exit 1).

(** The body run under [if __name__ == "__main__"], for [args = sys.argv[1:]]. *)
Definition main (args : list string) : M unit :=
  let* input_data := read_stdin in
  let* query :=
    match input_data with
    | Some data =>
        if truthy (VStr data) then logging_debug [Lit "stdin detected"] ;; ret (Some (strip data))
        else ret None
    | None => ret None
    end in
  (match args, query with
   | [], None => print_stderr usage ;; exit 1
   | _, _ => ret tt
   end) ;;
  let* config := read_yaml_config config_path in
  (if negb (truthy config)
   then logging WARNING [Lit "Config file not found. Script will continue with default values."]
   else ret tt) ;;
  let* output_capture_settings := dict_get config "output_capture_settings" (VDict []) in
  let* enforce_script_session :=
    dict_get output_capture_settings "enforce_script_session" (VBool false) in
  let* captured_output_file :=
    dict_get output_capture_settings "captured_output_file" default_output_file in
  let args_given := match args with [] => false | _ :: _ => true end in
  let first_arg := hd EmptyString args in
  let* refuse :=
    (if truthy enforce_script_session && args_given && negb (String.eqb first_arg "record")
     then let* found := os_path_exists captured_output_file in ret (negb found)
     else ret false) in
  (if refuse then
     print_stderr ("Please call `" +:+ argv0 E +:+ " record` first to initialize script session.") ;;
     exit 1
   else ret tt) ;;
  if args_given && String.eqb first_arg "record" then
    start_script_session captured_output_file
  else
    let arg_query := join EmptyString args in
    let* query :=
      (match arg_query with
       | String _ _ =>
           match query with
           | Some q => ret (Some (q +:+ newline +:+ arg_query))
           | None => ret (Some arg_query)
           end
       | EmptyString =>
           match query with
           | None => print_stderr usage ;; exit 1
           | Some _ => ret query
           end
       end) in
    match query with
    | Some q => handle_query q config
    | None => raise TypeError
    end.

End WithEnv.

End Minishellai.

(** ** Properties of configurations and payloads, and the scenarios
    the development evaluates *)

Module Props.

Import Str Sys Minishellai.

(** History is enabled in the mapping [d]: [d.get('enabled', False)] is
    true. *)
Definition history_enabled (d : list (string * value)) : bool :=
  truthy (lookup_default d "enabled" (VBool false)).

(** The role of a message. *)
Definition role_of (m : value) : option value :=
  match m with
  | VDict items => assoc "role" items
  | _ => None
  end.

Definition has_role (role : string) (m : value) : bool :=
  match role_of m with
  | Some (VStr r) => String.eqb r role
  | _ => false
  end.

(** The roles of [l] alternate; the first one is "user" when
    [user_next] holds and "assistant" otherwise. *)
Fixpoint alternates (user_next : bool) (l : list value) : bool :=
  match l with
  | [] => true
  | m :: l' =>
      has_role (if user_next then "user" else "assistant") m
      && alternates (negb user_next) l'
  end.

(** The roles alternate and "user" is first. *)
Definition alternating (l : list value) : bool := alternates true l.

(** The messages of a request body as sent to the backend. *)
Definition sent_messages (body : string) : option (list value) :=
  match Json.loads body with
  | Json.Parsed (VDict items) =>
      match assoc "msg" items with
      | Some (VList l) => Some l
      | _ => None
      end
  | _ => None
  end.

(** The messages logged at level ERROR. *)
Definition logged_errors (w : world) : list (list frag) :=
  map snd (List.filter (fun r => match fst r with ERROR => true | _ => false end) (log w)).

(** The invocation carries a query: arguments or text on standard input. *)
Definition query_given (E : env) (args : list string) : bool :=
  match args with
  | _ :: _ => true
  | [] => match stdin E with
          | Some data => truthy (VStr (strip data))
          | None => false
          end
  end.

End Props.

Module Scenario.

Import Str Sys Minishellai.

(** A backend that answers every request with [{"data": "hi"}]. *)
Definition answer_hi : string :=
  Json.dumps (VDict [("data", VStr "hi")]).

Definition backend_hi (url body : string) : option response :=
  Some (Response 200 answer_hi).

(** The configuration that enforces a recording session, and its text. *)
Definition enforcing_config : value :=
  VDict [("output_capture_settings", VDict [("enforce_script_session", VBool true)])].

Definition enforcing_text : string :=
  "output_capture_settings:" +:+ newline +:+
  "  enforce_script_session: true" +:+ newline.

(** PyYAML on the two documents the scenarios use: the empty document
    loads as [None]. *)
Definition yaml_of (text : string) : result value :=
  match text with
  | EmptyString => Ok VNone
  | String _ _ => if String.eqb text enforcing_text then Ok enforcing_config else Unmodelled
  end.

(** The process started with [input] on standard input, SHELLAI_CONFIG
    unset, and a [script] command that leaves the files as they are. *)
Definition env_with (input : option string) : env :=
  Env "minishellai" input None yaml_of backend_hi (fun _ f => f).

(** A process at its start, with the files [f]; no file can be created
    under [/missing/], a directory that does not exist. *)
Definition creatable (path : string) : bool := negb (startswith "/missing/" path).

Definition world_with (f : gmap string string) : world :=
  World f creatable [] [] [] [] [].

Definition fresh_world : world := world_with ∅.

Definition history_conf (max_size : Z) : list (string * value) :=
  [("enabled", VBool true); ("max_size", VInt max_size)].

Definition config_with_history (max_size : Z) : value :=
  VDict [("history", VDict (history_conf max_size))].

(** History kept in a file that cannot be created. *)
Definition lost_history_conf : list (string * value) :=
  [("enabled", VBool true); ("filepath", VStr "/missing/history.json")].

Definition config_with_lost_history : value :=
  VDict [("history", VDict lost_history_conf)].

(** The history file after three exchanges of one message each way. *)
Definition three_messages : list value :=
  [message "user" (VStr "a"); message "assistant" (VStr "b"); message "user" (VStr "c")].

Definition stored_world : world :=
  world_with {[ "/tmp/minishellai_history.json" := Json.dumps (VList three_messages) ]}.

(** One list object is live: a payload's messages before the reply. *)
Definition pending_world : world :=
  World ∅ creatable [[message "user" (VStr "q")]] [] [] [] [].

(** The configuration file enforces a recording session; no captured
    output exists. *)
Definition enforcing_world : world := world_with {[ "config.yaml" := enforcing_text ]}.

(** The configuration file is empty. *)
Definition empty_config_world : world :=
  world_with {[ "config.yaml" := EmptyString ]}.

(** The captured output of two commands. *)
Definition captured_text : string :=
  "$ ls" +:+ newline +:+ "file1" +:+ newline +:+ "file2" +:+ newline +:+
  "$ pwd" +:+ newline +:+ "/home" +:+ newline.

Definition captured_world : world :=
  world_with {[ "/tmp/minishellai_output.txt" := captured_text ]}.

End Scenario.

(** ** What a call leaves unchanged, and the scenarios of the later parts *)

Module Frame.

Import Str Sys Minishellai.

(** The files, the list objects, the standard output and the requests
    sent are the same in [w'] as in [w]: at most the log and the standard
    error differ. *)
Definition same_store (w w' : world) : Prop :=
  files w' = files w /\ can_write w' = can_write w /\ heap w' = heap w
  /\ stdout w' = stdout w /\ posts w' = posts w.

(** The files and the standard output are the same. *)
Definition same_output (w w' : world) : Prop :=
  files w' = files w /\ can_write w' = can_write w /\ stdout w' = stdout w.

(** Every run of [m] relates the world it leaves to the one it starts
    from. *)
Definition keeps {A} (R : world -> world -> Prop) (m : M A) : Prop :=
  forall w, R w (snd (m w)).

(** No run of [m] returns. *)
Definition fails {A} (m : M A) : Prop :=
  forall w a, fst (m w) <> Ok a.

(** The backend gives no usable answer: the transport fails, the status
    is an error, or the body is no JSON document. *)
Definition no_answer (E : env) : Prop :=
  forall url body,
    match http_post E url body with
    | None => True
    | Some (Response status text) =>
        (400 <=? status) && (status <? 600) = true \/ Json.loads text = Json.DecodeError
    end.

End Frame.

Module Cases.

Import Str Sys Minishellai Scenario.

(** A JSON document that is [null], [true], [false] or a number. *)
Definition scalar (v : value) : bool :=
  match v with
  | VNone | VBool _ | VInt _ => true
  | _ => false
  end.

(** A JSON document that is an object. *)
Definition is_dict (v : value) : bool :=
  match v with
  | VDict _ => true
  | _ => false
  end.

(** A history file that holds no JSON document. *)
Definition corrupt_world : world :=
  world_with {[ "/tmp/minishellai_history.json" := "not json" ]}.

(** A history file that holds a number. *)
Definition number_world : world :=
  world_with {[ "/tmp/minishellai_history.json" := "42" ]}.

(** History enabled with every other setting left to its default. *)
Definition enabled_conf : list (string * value) := [("enabled", VBool true)].

(** The process whose backend cannot be reached. *)
Definition env_down : env :=
  Env "minishellai" None None yaml_of (fun _ _ => None) (fun _ f => f).

(** A captured output in which the prompt ["$"] does not occur. *)
Definition plain_capture_world : world :=
  world_with {[ "/tmp/minishellai_output.txt" := "plain output " ]}.

(** A configuration whose prompt separator is the empty string. *)
Definition empty_separator_conf : list (string * value) :=
  [("output_capture_settings", VDict [("prompt_separator", VStr EmptyString)])].

(** The process whose backend answers every request with status 200
    and the body [answer]. *)
Definition env_answering (answer : string) : env :=
  Env "minishellai" None None yaml_of (fun _ _ => Some (Response 200 answer)) (fun _ f => f).

(** The process whose YAML loader gives [v] for every text. *)
Definition env_loading (v : value) : env :=
  Env "minishellai" None None (fun _ => Ok v) backend_hi (fun _ f => f).

(** The process whose YAML loader rejects every text. *)
Definition env_bad_yaml : env :=
  Env "minishellai" None None (fun _ => Raise YAMLError) backend_hi (fun _ f => f).

(** The history file after one exchange. *)
Definition two_messages : list value :=
  [message "user" (VStr "a"); message "assistant" (VStr "b")].

Definition exchanged_world : world :=
  world_with {[ "/tmp/minishellai_history.json" := Json.dumps (VList two_messages) ]}.

End Cases.

(** * Facts about the JSON codec *)

Module JsonFacts.

Import Str Json.

(** Induction that reaches the elements of lists and dictionaries. *)
Lemma value_ind' (P : value -> Prop)
    (HNone : P VNone)
    (HBool : forall b, P (VBool b))
    (HInt : forall z, P (VInt z))
    (HStr : forall s, P (VStr s))
    (HList : forall l, Forall P l -> P (VList l))
    (HDict : forall d, Forall (fun kv => P (snd kv)) d -> P (VDict d)) :
  forall v, P v.
Proof.
  fix IH 1. intros [ | b | z | s | l | d ].
  - exact HNone.
  - apply HBool.
  - apply HInt.
  - apply HStr.
  - apply HList. induction l as [ | x l IHl ]; constructor; [ apply IH | exact IHl ].
  - apply HDict. induction d as [ | [k x] d IHd ]; constructor; [ apply IH | exact IHd ].
Qed.

Lemma ord_chr (n : N) : (n < 256)%N -> ord (chr n) = n.
Proof. apply N_ascii_embedding. Qed.

Lemma scan_escape_char (c : ascii) (rest : string) :
  scan_string (escape_char c +:+ rest) = pmap (String c) (scan_string rest).
Proof.
  destruct c as [[] [] [] [] [] [] [] []]; reflexivity.
Qed.

Lemma scan_escape (s tail : string) :
  scan_string (escape s (String dquote tail)) = POk s tail.
Proof.
  induction s as [ | c s IH ]; cbn [escape].
  - reflexivity.
  - rewrite scan_escape_char, IH. reflexivity.
Qed.

Lemma digit_is_digit (d : N) : (d < 10)%N -> is_digit (digit d) = true.
Proof.
  intros H. unfold is_digit, digit. rewrite ord_chr by lia.
  apply andb_true_iff. split; apply N.leb_le; lia.
Qed.

Lemma ord_digit (d : N) : (d < 10)%N -> ord (digit d) = (48 + d)%N.
Proof. intros H. unfold digit. apply ord_chr. lia. Qed.

Lemma scan_digits_of (fuel : nat) : forall (n : N) (tail : string),
  (N.to_nat n <= fuel)%nat ->
  scan_digits 0 (digits_of fuel n tail) = scan_digits n tail.
Proof.
  induction fuel as [ | f IH ]; intros n tail Hn; cbn [digits_of].
  - assert (n = 0%N) as -> by lia. reflexivity.
  - destruct (N.ltb_spec n 10) as [Hlt | Hge].
    + cbn [scan_digits]. rewrite digit_is_digit, ord_digit by exact Hlt.
      f_equal. lia.
    + rewrite IH.
      * assert (n mod 10 < 10)%N as Hm by (apply N.mod_lt; lia).
        cbn [scan_digits]. rewrite digit_is_digit, ord_digit by exact Hm.
        f_equal. pose proof (N.div_mod n 10 ltac:(lia)) as Hdm.
        remember (n / 10)%N as q. remember (n mod 10)%N as r. lia.
      * assert (n / 10 < n)%N by (apply N.div_lt; lia). lia.
Qed.

Lemma digits_of_head (fuel : nat) : forall (n : N) (tail : string),
  (N.to_nat n <= fuel)%nat -> (0 < n)%N ->
  head_is nonzero_digit (digits_of fuel n tail) = true.
Proof.
  induction fuel as [ | f IH ]; intros n tail Hn Hpos; cbn [digits_of].
  - lia.
  - destruct (N.ltb_spec n 10) as [Hlt | Hge].
    + cbn. unfold nonzero_digit. rewrite digit_is_digit, ord_digit by exact Hlt.
      cbn. apply negb_true_iff, N.eqb_neq. lia.
    + apply IH.
      * assert (n / 10 < n)%N by (apply N.div_lt; lia). lia.
      * apply N.div_str_pos. lia.
Qed.

Lemma scan_digits_delim (n : N) (tail : string) :
  delim tail = true -> scan_digits n tail = (n, tail).
Proof.
  destruct tail as [ | c t ]; cbn; [ reflexivity | ].
  intros H. apply andb_true_iff in H as [H _]. apply negb_true_iff in H.
  rewrite H. reflexivity.
Qed.

Lemma float_tail_delim (tail : string) : delim tail = true -> float_tail tail = false.
Proof.
  destruct tail as [ | c t ]; [ reflexivity | ].
  unfold delim. intros H. apply andb_true_iff in H as [_ H].
  apply negb_true_iff in H. unfold float_tail. rewrite H.
  unfold float_mark in H. apply orb_false_elim in H as [H _].
  apply orb_false_elim in H as [H _]. rewrite H. reflexivity.
Qed.

Lemma scan_nat_dumps (n : N) (tail : string) :
  delim tail = true -> scan_nat (dumps_nat n tail) = POk n tail.
Proof.
  intros Hd. unfold dumps_nat. destruct (N.eq_dec n 0%N) as [-> | Hn].
  - reflexivity.
  - pose proof (digits_of_head (N.to_nat n) n tail (le_n _) ltac:(lia)) as Hh.
    pose proof (scan_digits_of (N.to_nat n) n tail (le_n _)) as Hs.
    destruct (digits_of (N.to_nat n) n tail) as [ | c t ]; [ discriminate | ].
    cbn in Hh. unfold nonzero_digit in Hh. apply andb_true_iff in Hh as [Hdig Hnz].
    apply negb_true_iff in Hnz. unfold scan_nat. rewrite Hnz, Hdig, Hs.
    rewrite scan_digits_delim by exact Hd. reflexivity.
Qed.

Lemma dumps_nat_head (n : N) (tail : string) :
  head_is is_digit (dumps_nat n tail) = true.
Proof.
  unfold dumps_nat. destruct (N.eq_dec n 0%N) as [-> | Hn]; [ reflexivity | ].
  pose proof (digits_of_head (N.to_nat n) n tail (le_n _) ltac:(lia)) as Hh.
  destruct (digits_of (N.to_nat n) n tail) as [ | c t ]; [ discriminate | ].
  cbn in *. unfold nonzero_digit in Hh. apply andb_true_iff in Hh as [Hh _]. exact Hh.
Qed.

Lemma scan_number_dumps (neg : bool) (n : N) (tail : string) :
  delim tail = true ->
  scan_number neg (dumps_nat n tail)
  = POk (VInt (if neg then - Z.of_N n else Z.of_N n)) tail.
Proof.
  intros Hd. unfold scan_number. rewrite scan_nat_dumps by exact Hd.
  rewrite float_tail_delim by exact Hd. reflexivity.
Qed.

(** A digit is none of the characters that open another kind of value. *)
Lemma scan_value_digit (f : nat) (s : string) :
  head_is is_digit s = true -> scan_value (S f) s = scan_number false s.
Proof.
  destruct s as [ | c r ]; [ discriminate | ].
  cbn [head_is]. unfold is_digit. intros H.
  apply andb_true_iff in H as [H1 H2]. apply N.leb_le in H1. apply N.leb_le in H2.
  cbn [scan_value].
  repeat match goal with
  | |- context [ (?a =? ?b)%N ] => destruct (N.eqb_spec a b) as [ Heq | _ ]; [ lia | ]
  end.
  reflexivity.
Qed.

Lemma scan_value_int (f : nat) (z : Z) (tail : string) :
  delim tail = true -> scan_value (S f) (dumps_int z tail) = POk (VInt z) tail.
Proof.
  intros Hd. unfold dumps_int. destruct (Z.ltb_spec z 0) as [Hneg | Hpos].
  - pose proof (dumps_nat_head (Z.to_N (- z)) tail) as Hh.
    pose proof (scan_number_dumps true (Z.to_N (- z)) tail Hd) as Hs.
    cbn. unfold scan_nonfinite.
    destruct (dumps_nat (Z.to_N (- z)) tail) as [ | c t ] eqn:Ed; [ discriminate | ].
    cbn in Hh.
    assert (startswith "Infinity" (String c t) = false) as ->.
    { change (startswith "Infinity" (String c t))
        with (Ascii.eqb "I" c && startswith "nfinity" t).
      destruct (Ascii.eqb_spec "I" c) as [ <- | _ ]; [ discriminate | reflexivity ]. }
    rewrite Hs. do 2 f_equal. lia.
  - rewrite scan_value_digit by apply dumps_nat_head.
    rewrite scan_number_dumps by exact Hd. do 2 f_equal. lia.
Qed.

(** *** The first character of a written value *)

Lemma digit_valstart (c : ascii) : is_digit c = true -> valstart c = true.
Proof.
  unfold is_digit, valstart, is_ws. intros H.
  apply andb_true_iff in H as [H1 H2]. apply N.leb_le in H1. apply N.leb_le in H2.
  repeat match goal with
  | |- context [ (?a =? ?b)%N ] => destruct (N.eqb_spec a b) as [ Heq | _ ]; [ lia | ]
  end.
  reflexivity.
Qed.

Lemma head_is_impl (p q : ascii -> bool) (s : string) :
  (forall c, p c = true -> q c = true) -> head_is p s = true -> head_is q s = true.
Proof. destruct s; cbn; auto. Qed.

Lemma dumps_to_head (v : value) (tail : string) :
  head_is valstart (dumps_to v tail) = true.
Proof.
  destruct v as [ | [] | z | s | l | d ]; try reflexivity.
  cbn [dumps_to]. unfold dumps_int. destruct (z <? 0); [ reflexivity | ].
  apply (head_is_impl is_digit); [ apply digit_valstart | apply dumps_nat_head ].
Qed.

Lemma skip_ws_head (s : string) : head_is valstart s = true -> skip_ws s = s.
Proof.
  destruct s as [ | c r ]; [ reflexivity | ].
  cbn. unfold valstart. intros H.
  apply andb_true_iff in H as [H _]. apply andb_true_iff in H as [H _].
  apply negb_true_iff in H. rewrite H. reflexivity.
Qed.

Lemma skip_ws_dumps_to (v : value) (tail : string) :
  skip_ws (dumps_to v tail) = dumps_to v tail.
Proof. apply skip_ws_head, dumps_to_head. Qed.

(** *** Lengths: a written value is longer than it is deep *)

Lemma length_digits_of (fuel : nat) : forall (n : N) (tail : string),
  (String.length tail < String.length (digits_of fuel n tail))%nat.
Proof.
  induction fuel as [ | f IH ]; intros n tail; cbn [digits_of].
  - cbn. lia.
  - destruct (n <? 10)%N; [ cbn; lia | ].
    specialize (IH (n / 10)%N (String (digit (n mod 10)%N) tail)). cbn in IH. lia.
Qed.

Lemma length_append (a b : string) :
  String.length (a +:+ b) = (String.length a + String.length b)%nat.
Proof. induction a as [ | c a IH ]; simpl; [ reflexivity | f_equal; exact IH ]. Qed.

Lemma length_escape (s tail : string) :
  (String.length tail <= String.length (escape s tail))%nat.
Proof.
  induction s as [ | c s IH ]; cbn [escape]; [ lia | ].
  rewrite length_append. lia.
Qed.

Lemma length_dumps_str (s tail : string) :
  (String.length tail < String.length (dumps_str s tail))%nat.
Proof.
  unfold dumps_str. pose proof (length_escape s (String dquote tail)) as H.
  cbn in *. lia.
Qed.

Section ItemLengths.

Context {A : Type} (item : A -> string -> string) (close : ascii) (dep : A -> nat).

Lemma length_dumps_more (l : list A) (tail : string) :
  Forall (longer item dep) l ->
  (String.length tail + deepest dep l + length l
   < String.length (dumps_more item close l tail))%nat.
Proof.
  induction 1 as [ | y l Hy Hl IH ]; cbn [dumps_more deepest fold_right length String.length].
  - lia.
  - specialize (Hy (dumps_more item close l tail)). fold (deepest dep l). lia.
Qed.

Lemma length_dumps_first (x : A) (l : list A) (tail : string) :
  Forall (longer item dep) (x :: l) ->
  (String.length tail + deepest dep (x :: l) + length (x :: l)
   < String.length (item x (dumps_more item close l tail)))%nat.
Proof.
  intros H. apply Forall_cons_1 in H as [Hx Hl].
  pose proof (length_dumps_more l tail Hl).
  specialize (Hx (dumps_more item close l tail)).
  cbn [deepest fold_right length]. fold (deepest dep l). lia.
Qed.

End ItemLengths.

Lemma length_dumps_to (v : value) : forall tail,
  (String.length tail + depth v < String.length (dumps_to v tail))%nat.
Proof.
  induction v as [ | b | z | s | l IH | d IH ] using value_ind'; intros tail.
  - cbn [dumps_to]. rewrite length_append. cbn. lia.
  - destruct b; cbn [dumps_to]; rewrite length_append; cbn; lia.
  - cbn [dumps_to depth]. unfold dumps_int.
    destruct (z <? 0).
    + pose proof (length_digits_of (N.to_nat (Z.to_N (- z))) (Z.to_N (- z)) tail).
      unfold dumps_nat. cbn [String.length]. lia.
    + pose proof (length_digits_of (N.to_nat (Z.to_N z)) (Z.to_N z) tail).
      unfold dumps_nat. lia.
  - cbn [dumps_to depth]. pose proof (length_dumps_str s tail). lia.
  - cbn [dumps_to depth]. unfold dumps_items. destruct l as [ | x l ].
    + cbn. lia.
    + pose proof (length_dumps_first dumps_to (chr 93) depth x l tail IH) as H.
      unfold deepest in H. cbn [String.length]. cbn [length] in H. lia.
  - cbn [dumps_to depth]. unfold dumps_items. destruct d as [ | kv d ].
    + cbn. lia.
    + assert (Forall (longer (dumps_member dumps_to) (fun kv => depth (snd kv))) (kv :: d)) as Hl.
      { eapply Forall_impl; [ exact IH | ]. intros [k y] Hy t. cbn in *.
        pose proof (length_dumps_str k (String ":" (String " " (dumps_to y t)))) as H1.
        specialize (Hy t). cbn in H1. lia. }
      pose proof (length_dumps_first _ (chr 125) _ kv d tail Hl) as H.
      unfold deepest in H. cbn [String.length]. cbn [length] in H. lia.
Qed.

(** *** Reading back the items of a list or a dictionary *)

Section ItemScan.

Context {A : Type} (item_d : A -> string -> string) (item_s : string -> pres A)
        (close : ascii).

Hypothesis close_not_ws : is_ws close = false.
Hypothesis close_not_comma : (ord close =? 44)%N = false.
Hypothesis close_delim : forall t, delim (String close t) = true.
Hypothesis item_head : forall y t, skip_ws (item_d y t) = item_d y t.

Lemma delim_dumps_more (l : list A) (tail : string) :
  delim (dumps_more item_d close l tail) = true.
Proof. destruct l; [ apply close_delim | reflexivity ]. Qed.

Lemma scan_items_dumps (l : list A) : forall (x : A) (n : nat) (tail : string),
  Forall (reads_back item_d item_s) (x :: l) ->
  (length l < n)%nat ->
  scan_items item_s close n (item_d x (dumps_more item_d close l tail))
  = POk (x :: l) tail.
Proof.
  induction l as [ | y l IH ]; intros x n tail Hall Hn;
    apply Forall_cons_1 in Hall as [Hx Hl];
    (destruct n as [ | n ]; [ lia | ]); cbn [scan_items];
    rewrite Hx by apply delim_dumps_more; cbn [dumps_more skip_ws].
  - rewrite close_not_ws, close_not_comma, Ascii.eqb_refl. reflexivity.
  - change (is_ws ",") with false. change (ord "," =? 44)%N with true. cbv iota.
    cbn [skip_ws]. change (is_ws " ") with true. cbv iota.
    rewrite item_head, IH; [ reflexivity | exact Hl | cbn [length] in Hn; lia ].
Qed.

End ItemScan.

(** *** Rebuilding a dictionary from its items *)

Lemma existsb_app_false (k : string) (a b : list string) :
  existsb (String.eqb k) (a ++ b) = false ->
  existsb (String.eqb k) a = false /\ existsb (String.eqb k) b = false.
Proof. rewrite existsb_app. apply orb_false_elim. Qed.

Lemma dict_set_fresh (k : string) (v : value) (acc rest : list (string * value)) :
  distinct (map fst (acc ++ (k, v) :: rest)) = true ->
  dict_set k v acc = (acc ++ [(k, v)])%list.
Proof.
  induction acc as [ | [k' v'] acc IH ]; cbn [dict_set app map fst distinct]; intros H.
  - reflexivity.
  - apply andb_true_iff in H as [Hk Hd]. apply negb_true_iff in Hk.
    rewrite map_app in Hk. apply existsb_app_false in Hk as [_ Hk].
    cbn in Hk. apply orb_false_elim in Hk as [Hk _].
    rewrite String.eqb_sym, Hk, IH by exact Hd. reflexivity.
Qed.

Lemma fold_dict_set (l : list (string * value)) : forall acc,
  distinct (map fst (acc ++ l)) = true ->
  fold_left (fun d kv => dict_set (fst kv) (snd kv) d) l acc = (acc ++ l)%list.
Proof.
  induction l as [ | [k v] l IH ]; intros acc H; cbn [fold_left fst snd].
  - rewrite app_nil_r. reflexivity.
  - rewrite (dict_set_fresh k v acc l H), IH.
    + rewrite <- app_assoc. reflexivity.
    + rewrite <- app_assoc. exact H.
Qed.

Lemma dict_of_pairs_distinct (d : list (string * value)) :
  distinct (map fst d) = true -> dict_of_pairs d = d.
Proof. intros H. unfold dict_of_pairs. apply (fold_dict_set d []). exact H. Qed.

(** *** Reading back a written value *)

Lemma scan_value_list (f : nat) (r : string) :
  scan_value (S f) (String (chr 91) r)
  = match skip_ws r with
    | String c' r' =>
        if (ord c' =? 93)%N then POk (VList []) r'
        else pmap VList (scan_items (scan_value f) (chr 93) (String.length r) (skip_ws r))
    | EmptyString => PErr
    end.
Proof. reflexivity. Qed.

Lemma scan_value_dict (f : nat) (r : string) :
  scan_value (S f) (String (chr 123) r)
  = match skip_ws r with
    | String c' r' =>
        if (ord c' =? 125)%N then POk (VDict []) r'
        else pmap (fun l => VDict (dict_of_pairs l))
               (scan_items (scan_member (scan_value f)) (chr 125)
                  (String.length r) (skip_ws r))
    | EmptyString => PErr
    end.
Proof. reflexivity. Qed.

Lemma scan_value_str (f : nat) (r : string) :
  scan_value (S f) (String dquote r) = pmap VStr (scan_string r).
Proof. reflexivity. Qed.

Lemma scan_member_dumps (val : string -> pres value) (kv : string * value) (t : string) :
  val (dumps_to (snd kv) t) = POk (snd kv) t ->
  scan_member val (dumps_member dumps_to kv t) = POk kv t.
Proof.
  destruct kv as [k x]. cbn [snd]. intros H.
  unfold dumps_member, dumps_str, scan_member.
  change (ord dquote =? 34)%N with true. cbv iota.
  rewrite scan_escape. cbn [skip_ws].
  change (is_ws ":") with false. cbv iota.
  change (ord ":" =? 58)%N with true. cbv iota.
  cbn [skip_ws]. change (is_ws " ") with true. cbv iota.
  rewrite skip_ws_dumps_to, H. reflexivity.
Qed.

Lemma deepest_bound {A} (dep : A -> nat) (l : list A) (f : nat) :
  (deepest dep l < f)%nat -> Forall (fun y => (dep y < f)%nat) l.
Proof.
  induction l as [ | y l IH ]; cbn [deepest fold_right]; intros H; constructor.
  - lia.
  - apply IH. unfold deepest. lia.
Qed.

Lemma scan_dumps_to (v : value) : forall (fuel : nat) (tail : string),
  wf_value v = true -> (depth v < fuel)%nat -> delim tail = true ->
  scan_value fuel (dumps_to v tail) = POk v tail.
Proof.
  induction v as [ | b | z | s | l IH | d IH ] using value_ind';
    intros fuel tail Hwf Hfuel Hd; (destruct fuel as [ | f ]; [ lia | ]).
  - reflexivity.
  - destruct b; reflexivity.
  - apply scan_value_int. exact Hd.
  - cbn [dumps_to]. unfold dumps_str. rewrite scan_value_str, scan_escape. reflexivity.
  - cbn [dumps_to]. unfold dumps_items. rewrite scan_value_list.
    destruct l as [ | x l ]; [ reflexivity | ].
    rewrite skip_ws_dumps_to.
    pose proof (dumps_to_head x (dumps_more dumps_to (chr 93) l tail)) as Hh.
    assert (Forall (longer dumps_to depth) (x :: l)) as Hlen
      by (apply Forall_forall; intros y _ t; apply length_dumps_to).
    destruct (dumps_to x (dumps_more dumps_to (chr 93) l tail)) as [ | c r ] eqn:Er;
      [ discriminate | ].
    cbn [head_is] in Hh. unfold valstart in Hh.
    apply andb_true_iff in Hh as [Hh _]. apply andb_true_iff in Hh as [_ Hh].
    apply negb_true_iff in Hh. rewrite Hh, <- Er.
    rewrite (scan_items_dumps dumps_to (scan_value f) (chr 93)); try reflexivity.
    + intros y t. apply skip_ws_dumps_to.
    + cbn [depth] in Hfuel. fold (deepest depth (x :: l)) in Hfuel.
      pose proof (deepest_bound depth (x :: l) f ltac:(lia)) as Hdeep.
      cbn [wf_value] in Hwf. rewrite forallb_forall in Hwf.
      rewrite Forall_forall in IH, Hdeep. apply Forall_forall. intros y Hy t Ht.
      apply IH; [ exact Hy | apply Hwf, list_elem_of_In, Hy | apply Hdeep, Hy | exact Ht ].
    + pose proof (length_dumps_first dumps_to (chr 93) depth x l tail Hlen) as Hn.
      cbn [length] in Hn. lia.
  - cbn [dumps_to]. unfold dumps_items. rewrite scan_value_dict.
    destruct d as [ | kv d ]; [ reflexivity | ].
    cbn [wf_value] in Hwf. apply andb_true_iff in Hwf as [Hkeys Hwf].
    assert (forall y t, skip_ws (dumps_member dumps_to y t) = dumps_member dumps_to y t)
      as Hskip by (intros [k y] t; reflexivity).
    rewrite Hskip.
    assert (Forall (longer (dumps_member dumps_to) (fun kv => depth (snd kv))) (kv :: d))
      as Hlen.
    { apply Forall_forall. intros [k y] _ t. cbn [snd].
      pose proof (length_dumps_str k (String ":" (String " " (dumps_to y t)))) as H1.
      pose proof (length_dumps_to y t). unfold dumps_member.
      cbn [String.length] in H1. lia. }
    destruct (dumps_member dumps_to kv (dumps_more (dumps_member dumps_to) (chr 125) d tail))
      as [ | c r ] eqn:Er.
    { destruct kv; discriminate. }
    assert ((ord c =? 125)%N = false) as ->.
    { destruct kv as [k y]. unfold dumps_member, dumps_str in Er.
      injection Er as <- _. reflexivity. }
    rewrite <- Er.
    rewrite (scan_items_dumps (dumps_member dumps_to) (scan_member (scan_value f)) (chr 125));
      try reflexivity.
    + cbn [pmap]. rewrite dict_of_pairs_distinct by exact Hkeys. reflexivity.
    + exact Hskip.
    + cbn [depth] in Hfuel. fold (deepest (fun kv => depth (snd kv)) (kv :: d)) in Hfuel.
      pose proof (deepest_bound (fun kv => depth (snd kv)) (kv :: d) f ltac:(lia)) as Hdeep.
      rewrite forallb_forall in Hwf.
      rewrite Forall_forall in IH, Hdeep. apply Forall_forall. intros y Hy t Ht.
      apply scan_member_dumps.
      apply IH; [ exact Hy | apply Hwf, list_elem_of_In, Hy | apply Hdeep, Hy | exact Ht ].
    + pose proof (length_dumps_first _ (chr 125) _ kv d tail Hlen) as Hn.
      cbn [length] in Hn. lia.
Qed.

(** Every well-formed value is read back from its text. *)
Theorem loads_dumps (v : value) : wf_value v = true -> loads (dumps v) = Parsed v.
Proof.
  intros Hwf. unfold loads, dumps. rewrite skip_ws_dumps_to.
  rewrite scan_dumps_to; [ reflexivity | exact Hwf | | reflexivity ].
  pose proof (length_dumps_to v EmptyString). cbn in *. lia.
Qed.

End JsonFacts.

(** * The file primitives *)

Module SysFacts.

Import Sys.

Lemma lookup_file_ext (w w' : world) (s : string) :
  files w' = files w -> lookup_file w' s = lookup_file w s.
Proof. intros H. destruct s; [ reflexivity | ]. cbn. rewrite H. reflexivity. Qed.

Lemma writable_ext (w w' : world) (s : string) :
  can_write w' = can_write w -> writable w' s = writable w s.
Proof. intros H. destruct s; [ reflexivity | ]. cbn. rewrite H. reflexivity. Qed.

Lemma lookup_file_written (w : world) (f : gmap string string) (s text : string) :
  writable w s = true -> lookup_file (set_files (<[s := text]> f) w) s = Some text.
Proof. destruct s; [ discriminate | ]. intros _. cbn. apply lookup_insert_eq. Qed.

Lemma lookup_file_deleted (w : world) (s : string) :
  lookup_file (set_files (delete s (files w)) w) s = None.
Proof. destruct s; [ reflexivity | ]. cbn. apply lookup_delete_eq. Qed.

End SysFacts.

(** * The history store *)

Module HistoryFacts.

Import Str Sys Minishellai Props.

Lemma slice_to_nonneg {A} (l : list A) (n : Z) :
  0 <= n -> slice_to l n = firstn (Z.to_nat n) l.
Proof. intros H. unfold slice_to. destruct (Z.leb_spec 0 n); [ reflexivity | lia ]. Qed.

(** Reading a stored list: the slice [history[:max_size]] of what the file
    holds, with a record of the read in the log. *)
Lemma read_history_stored
    (d : list (string * value)) (w : world) (path text : string)
    (l : list value) (max_size : Z) :
  history_enabled d = true ->
  lookup_default d "filepath" default_history_file = VStr path ->
  lookup_default d "max_size" (VInt 100) = VInt max_size ->
  lookup_file w path = Some text ->
  Json.loads text = Json.Parsed (VList l) ->
  fst (read_history (VDict d) w) = Ok (VList (slice_to l max_size)).
Proof.
  intros Hen Hpath Hmax Hfile Hjson.
  assert (truthy (VStr path) = true) as Hne by (destruct path; [ discriminate | reflexivity ]).
  unfold read_history, bind, dict_get, ret. unfold history_enabled in Hen.
  rewrite Hen, Hpath, Hmax, Hne. cbn [negb]. unfold os_path_exists. cbv beta iota.
  rewrite Hfile. cbn [negb]. cbv beta iota.
  unfold try_except, read_text. cbv beta iota. rewrite Hfile.
  unfold json_loads. rewrite Hjson. reflexivity.
Qed.

(** What [write_history] leaves behind when the file can be written. *)
Lemma write_history_written
    (d : list (string * value)) (w : world) (path : string)
    (r : loc) (h : list value) (response : value) :
  history_enabled d = true ->
  lookup_default d "filepath" default_history_file = VStr path ->
  writable w path = true ->
  heap w !! r = Some h ->
  let items := (h ++ [message "assistant" response])%list in
  write_history (VDict d) r response w
  = (Ok tt,
     set_files (<[path := Json.dumps (VList items)]> (<[path := EmptyString]> (files w)))
       (set_heap (<[r := items]> (heap w)) w)).
Proof.
  intros Hen Hpath Hcan Hheap items.
  unfold write_history, bind, dict_get, ret. unfold history_enabled in Hen.
  rewrite Hen, Hpath. cbn. unfold list_append. rewrite Hheap.
  unfold try_except, open_w. cbv beta iota.
  rewrite (SysFacts.writable_ext w) by reflexivity. rewrite Hcan.
  unfold deref. cbn. rewrite list_lookup_insert_eq by (eapply lookup_lt_Some; exact Hheap).
  reflexivity.
Qed.

(** The earliest [n] entries are not the latest [n] when the list is
    longer and its entries differ from one another. *)
Lemma earliest_not_latest {A} (l : list A) (n : nat) :
  (0 < n < length l)%nat -> NoDup l ->
  firstn n l <> skipn (length l - n) l.
Proof.
  intros Hn Hnd Heq.
  assert (firstn n l !! O = skipn (length l - n) l !! O) as Hhead by (rewrite Heq; reflexivity).
  rewrite lookup_take_lt, lookup_drop, Nat.add_0_r in Hhead by lia.
  destruct (l !! O) as [x | ] eqn:H0.
  - symmetry in Hhead. pose proof (NoDup_lookup l _ _ x Hnd H0 Hhead). lia.
  - apply lookup_ge_None in H0. lia.
Qed.

(** C1. With history enabled and a history file whose stored list has
    more than [max_size] entries, [read_history] returns the first
    [max_size] entries of the stored list, the earliest ones: exactly
    [max_size] of them, in the stored order, and not the most recent
    [max_size] (which differ from them as soon as [max_size] is positive
    and no entry is stored twice). *)
Theorem read_history_left_truncation
    (d : list (string * value)) (w : world) (path text : string)
    (l : list value) (max_size : Z) :
  history_enabled d = true ->
  lookup_default d "filepath" default_history_file = VStr path ->
  lookup_default d "max_size" (VInt 100) = VInt max_size ->
  lookup_file w path = Some text ->
  Json.loads text = Json.Parsed (VList l) ->
  0 <= max_size < Z.of_nat (length l) ->
  fst (read_history (VDict d) w) = Ok (VList (firstn (Z.to_nat max_size) l))
  /\ length (firstn (Z.to_nat max_size) l) = Z.to_nat max_size
  /\ (0 < max_size -> NoDup l ->
      firstn (Z.to_nat max_size) l <> skipn (length l - Z.to_nat max_size) l).
Proof.
  intros Hen Hpath Hmax Hfile Hjson Hsize. split; [ | split ].
  - rewrite (read_history_stored d w path text l max_size) by assumption.
    rewrite slice_to_nonneg by lia. reflexivity.
  - rewrite length_take. lia.
  - intros Hpos Hnd. apply earliest_not_latest; [ lia | exact Hnd ].
Qed.

Lemma read_history_left_truncation_witness :
  fst (read_history (VDict (Scenario.history_conf 2)) Scenario.stored_world)
  = Ok (VList [message "user" (VStr "a"); message "assistant" (VStr "b")])
  /\ length (firstn (Z.to_nat 2) Scenario.three_messages) = Z.to_nat 2
  /\ (0 < 2 -> NoDup Scenario.three_messages ->
      firstn (Z.to_nat 2) Scenario.three_messages
      <> skipn (length Scenario.three_messages - Z.to_nat 2) Scenario.three_messages).
Proof.
  apply (read_history_left_truncation (Scenario.history_conf 2) Scenario.stored_world
           "/tmp/minishellai_history.json"
           (Json.dumps (VList Scenario.three_messages)) Scenario.three_messages 2).
  - reflexivity.
  - reflexivity.
  - reflexivity.
  - reflexivity.
  - vm_compute. reflexivity.
  - simpl. lia.
Defined.

(** C2. With history enabled, a writable history file and a list of
    well-formed values, [write_history] followed by [read_history] yields
    the list with the entry [{role: "assistant", content: response}]
    appended, cut to its first [max_size] entries. *)
Theorem write_then_read_history
    (d : list (string * value)) (w : world) (path : string)
    (r : loc) (h : list value) (response : string) (max_size : Z) :
  history_enabled d = true ->
  lookup_default d "filepath" default_history_file = VStr path ->
  writable w path = true ->
  lookup_default d "max_size" (VInt 100) = VInt max_size ->
  0 <= max_size ->
  heap w !! r = Some h ->
  forallb wf_value h = true ->
  fst (write_history (VDict d) r (VStr response) w) = Ok tt
  /\ fst (read_history (VDict d) (snd (write_history (VDict d) r (VStr response) w)))
     = Ok (VList (firstn (Z.to_nat max_size)
                    (h ++ [message "assistant" (VStr response)]))).
Proof.
  intros Hen Hpath Hcan Hmax Hsize Hheap Hwf.
  rewrite (write_history_written d w path r h (VStr response)) by assumption.
  split; [ reflexivity | ]. cbn [snd].
  rewrite (read_history_stored d _ path
             (Json.dumps (VList (h ++ [message "assistant" (VStr response)])))
             (h ++ [message "assistant" (VStr response)]) max_size); try assumption.
  - rewrite slice_to_nonneg by lia. reflexivity.
  - apply SysFacts.lookup_file_written. exact Hcan.
  - apply JsonFacts.loads_dumps. cbn [wf_value]. rewrite forallb_app, Hwf. reflexivity.
Qed.

Lemma write_then_read_history_witness :
  fst (write_history (VDict (Scenario.history_conf 100)) O (VStr "ok")
         Scenario.pending_world) = Ok tt
  /\ fst (read_history (VDict (Scenario.history_conf 100))
            (snd (write_history (VDict (Scenario.history_conf 100)) O (VStr "ok")
                    Scenario.pending_world)))
     = Ok (VList [message "user" (VStr "q"); message "assistant" (VStr "ok")]).
Proof.
  apply (write_then_read_history (Scenario.history_conf 100) Scenario.pending_world
           "/tmp/minishellai_history.json" O [message "user" (VStr "q")] "ok" 100).
  - reflexivity.
  - reflexivity.
  - reflexivity.
  - reflexivity.
  - lia.
  - reflexivity.
  - reflexivity.
Defined.

(** C8. With [enabled] false or absent, [read_history] returns the empty
    list and [write_history] returns without any effect: the files, the
    list it is given and the rest of the process state are as before. *)
Theorem history_disabled_is_inert (d : list (string * value)) (w : world) :
  assoc "enabled" d = None \/ assoc "enabled" d = Some (VBool false) ->
  read_history (VDict d) w = (Ok (VList []), w)
  /\ forall (r : loc) (response : value),
       write_history (VDict d) r response w = (Ok tt, w).
Proof.
  intros Hen.
  assert (truthy (lookup_default d "enabled" (VBool false)) = false) as Hoff
    by (unfold lookup_default; destruct Hen as [-> | ->]; reflexivity).
  split; [ | intros r response ];
    unfold read_history, write_history, bind, dict_get, ret; rewrite Hoff; reflexivity.
Qed.

Lemma history_disabled_is_inert_witness :
  read_history (VDict [("enabled", VBool false)]) Scenario.stored_world
  = (Ok (VList []), Scenario.stored_world)
  /\ forall (r : loc) (response : value),
       write_history (VDict [("enabled", VBool false)]) r response Scenario.stored_world
       = (Ok tt, Scenario.stored_world).
Proof.
  apply (history_disabled_is_inert [("enabled", VBool false)] Scenario.stored_world).
  right. reflexivity.
Defined.

Lemma try_except_heap (body : M unit) (cls : exn -> bool) (handler : exn -> M unit)
    (w : world) (hp : list (list value)) :
  heap (snd (body w)) = hp ->
  (forall e w', heap (snd (handler e w')) = heap w') ->
  heap (snd (try_except body cls handler w)) = hp.
Proof.
  intros Hb Hh. unfold try_except. destruct (body w) as [[u | e | ] w']; cbn in *;
    try exact Hb.
  destruct (cls e); [ rewrite Hh | ]; exact Hb.
Qed.

(** C9. With history enabled, [write_history] appends
    [{role: "assistant", content: response}] to the list object it is
    given: after the call the caller's list holds the new entry, whether
    or not the file was written. *)
Theorem write_history_appends_in_place
    (d : list (string * value)) (w : world) (r : loc) (h : list value) (response : value) :
  history_enabled d = true ->
  heap w !! r = Some h ->
  heap (snd (write_history (VDict d) r response w)) !! r
  = Some (h ++ [message "assistant" response])%list.
Proof.
  intros Hen Hheap.
  unfold write_history, bind, dict_get, ret. unfold history_enabled in Hen.
  rewrite Hen. cbn. unfold list_append. rewrite Hheap.
  rewrite (try_except_heap _ _ _ _
             (<[r := (h ++ [message "assistant" response])%list]> (heap w))).
  - apply list_lookup_insert_eq. eapply lookup_lt_Some. exact Hheap.
  - destruct (lookup_default d "filepath" default_history_file) as [ | b | z | s | l | d' ];
      try reflexivity.
    unfold open_w. cbv beta iota. rewrite (SysFacts.writable_ext w) by reflexivity.
    destruct (writable w s); [ | reflexivity ].
    unfold deref. cbn.
    rewrite list_lookup_insert_eq by (eapply lookup_lt_Some; exact Hheap). reflexivity.
  - reflexivity.
Qed.

Lemma write_history_appends_in_place_witness :
  heap (snd (write_history (VDict Scenario.lost_history_conf) O (VStr "ok")
               Scenario.pending_world)) !! O
  = Some [message "user" (VStr "q"); message "assistant" (VStr "ok")].
Proof.
  apply (write_history_appends_in_place Scenario.lost_history_conf
           Scenario.pending_world O [message "user" (VStr "q")] (VStr "ok")).
  - reflexivity.
  - reflexivity.
Defined.

End HistoryFacts.

(** * The context injector *)

Module CaretFacts.

Import Str Sys Minishellai Props.

(** Every marker is removed from the query. *)
Lemma no_marker_left (query : string) :
  contains "^" (replace "^" EmptyString query) = false.
Proof.
  unfold replace. induction query as [ | c q IH ]; [ reflexivity | ].
  cbn [replace_scan String.length Nat.pred].
  change (startswith "^" (String c q)) with (Ascii.eqb "^" c && true).
  destruct (Ascii.eqb "^" c) eqn:Hc; cbn [andb].
  - exact IH.
  - cbn [contains]. rewrite IH.
    change (startswith "^" (String c (replace_scan "^" EmptyString 0 q)))
      with (Ascii.eqb "^" c && true).
    rewrite Hc. reflexivity.
Qed.

(** The rewritten query, when the captured-output file exists and the
    separator is a string that is not empty. *)
Lemma handle_caret_found
    (query : string) (d o : list (string * value)) (w : world)
    (path sep text : string) (pieces : list string) (piece : string) :
  contains "^" query = true ->
  lookup_default d "output_capture_settings" (VDict []) = VDict o ->
  lookup_default o "captured_output_file" default_output_file = VStr path ->
  lookup_default o "prompt_separator" (VStr "$") = VStr sep ->
  lookup_file w path = Some text ->
  split sep text = Some pieces ->
  last pieces = Some piece ->
  handle_caret query (VDict d) w
  = (Ok ("Context data: " +:+ strip piece +:+ newline
         +:+ "Question: " +:+ replace "^" EmptyString query), w).
Proof.
  intros Hq Hocs Hfile Hsep Htext Hsplit Hlast.
  unfold handle_caret, bind, dict_get, ret. rewrite Hq. cbn [negb].
  rewrite Hocs, Hfile, Hsep. unfold os_path_exists, read_text. cbv beta iota.
  rewrite Htext. cbn [negb]. cbv beta iota. rewrite Htext.
  unfold str_split. rewrite Hsplit. unfold ret, getitem_last. rewrite Hlast. reflexivity.
Qed.

(** C6. With a captured-output file that holds the output of [ls] and
    [pwd] behind the prompt ["$"], [handle_caret] turns
    ["tell me about ^"] into the last segment of the file, stripped, as
    context, followed by the query without its markers. *)
Theorem handle_caret_last_segment
    (d o : list (string * value)) (w : world) (path : string) :
  lookup_default d "output_capture_settings" (VDict []) = VDict o ->
  lookup_default o "captured_output_file" default_output_file = VStr path ->
  lookup_default o "prompt_separator" (VStr "$") = VStr "$" ->
  lookup_file w path = Some Scenario.captured_text ->
  handle_caret "tell me about ^" (VDict d) w
  = (Ok ("Context data: pwd" +:+ newline +:+ "/home" +:+ newline
         +:+ "Question: tell me about "), w).
Proof.
  intros Hocs Hfile Hsep Htext.
  unfold handle_caret, bind, dict_get, ret.
  change (contains "^" "tell me about ^") with true. cbn [negb].
  rewrite Hocs, Hfile, Hsep. unfold os_path_exists, read_text. cbv beta iota.
  rewrite Htext. cbn [negb]. cbv beta iota. rewrite Htext. reflexivity.
Qed.

Lemma handle_caret_last_segment_witness :
  handle_caret "tell me about ^" (VDict []) Scenario.captured_world
  = (Ok ("Context data: pwd" +:+ newline +:+ "/home" +:+ newline
         +:+ "Question: tell me about "), Scenario.captured_world).
Proof.
  apply (handle_caret_last_segment [] [] Scenario.captured_world
           "/tmp/minishellai_output.txt").
  - reflexivity.
  - reflexivity.
  - reflexivity.
  - reflexivity.
Defined.

(** C7. For a query that holds the marker [^], when the configured
    captured-output file does not exist, [handle_caret] logs an error and
    ends the process with status 1; it returns no query, and
    [handle_query], which calls it first, ends the same way before any
    backend call. *)
Theorem handle_caret_missing_file
    (query : string) (d o : list (string * value)) (w : world) (path : string) :
  contains "^" query = true ->
  lookup_default d "output_capture_settings" (VDict []) = VDict o ->
  lookup_default o "captured_output_file" default_output_file = VStr path ->
  lookup_file w path = None ->
  fst (handle_caret query (VDict d) w) = Raise (SystemExit 1)
  /\ exit_status (fst (handle_caret query (VDict d) w)) = Some 1
  /\ forall E : env,
       fst (handle_query E query (VDict d) w) = Raise (SystemExit 1)
       /\ posts (snd (handle_query E query (VDict d) w)) = posts w.
Proof.
  intros Hq Hocs Hfile Hnone.
  assert (handle_caret query (VDict d) w
          = (Raise (SystemExit 1),
             snd (logging ERROR
                    [Lit "Output file "; Obj (VStr path);
                     Lit " does not exist, change location of file in config to use '^'."]
                    w))) as Hc.
  { unfold handle_caret, bind, dict_get, ret. rewrite Hq. cbn [negb].
    rewrite Hocs, Hfile. unfold os_path_exists. cbv beta iota. rewrite Hnone. reflexivity. }
  repeat split.
  - rewrite Hc. reflexivity.
  - rewrite Hc. reflexivity.
  - unfold handle_query, bind. rewrite Hc. reflexivity.
  - unfold handle_query, bind. rewrite Hc. reflexivity.
Qed.

Lemma handle_caret_missing_file_witness :
  fst (handle_caret "tell me about ^" (VDict []) Scenario.fresh_world)
  = Raise (SystemExit 1)
  /\ exit_status (fst (handle_caret "tell me about ^" (VDict []) Scenario.fresh_world))
     = Some 1
  /\ forall E : env,
       fst (handle_query E "tell me about ^" (VDict []) Scenario.fresh_world)
       = Raise (SystemExit 1)
       /\ posts (snd (handle_query E "tell me about ^" (VDict []) Scenario.fresh_world))
          = posts Scenario.fresh_world.
Proof.
  apply (handle_caret_missing_file "tell me about ^" [] [] Scenario.fresh_world
           "/tmp/minishellai_output.txt").
  - reflexivity.
  - reflexivity.
  - reflexivity.
  - reflexivity.
Defined.

End CaretFacts.

(** * The orchestrator and the dispatch *)

Module QueryFacts.

Import Str Sys Minishellai Props.

(** The role a message appended to [l] must have for the alternation to
    go on. *)
Lemma alternates_snoc (l : list value) : forall (u : bool) (m : value),
  alternates u (l ++ [m])
  = alternates u l
    && has_role (if Bool.eqb u (Nat.even (length l)) then "user" else "assistant") m.
Proof.
  induction l as [ | x l IH ]; intros u m; cbn [alternates app length].
  - destruct u; cbn; rewrite andb_true_r; reflexivity.
  - rewrite IH, Nat.even_succ, <- Nat.negb_even, andb_assoc.
    destruct u, (Nat.even (length l)); reflexivity.
Qed.

(** A history that alternates and ends with a reply gives a payload that
    alternates. *)
Lemma get_payload_alternating (query : string) (l : list value) (w : world) :
  alternating l = true -> Nat.even (length l) = true ->
  exists p w',
    get_payload query (VList l) w = (Ok p, w')
    /\ heap w' !! msg p = Some (l ++ [message "user" (VStr query)])%list
    /\ alternating (l ++ [message "user" (VStr query)]) = true.
Proof.
  intros Hl Heven. eexists _, _. split; [ reflexivity | ]. split.
  - cbn. rewrite lookup_app_r by reflexivity. rewrite Nat.sub_diag. reflexivity.
  - unfold alternating in *. rewrite alternates_snoc, Heven, Hl. reflexivity.
Qed.

(** A history of odd length never does: the new message follows a message
    that is itself a query, or the history does not alternate. *)
Lemma odd_history_breaks_alternation (query : string) (l : list value) :
  Nat.odd (length l) = true ->
  alternating (l ++ [message "user" (VStr query)]) = false.
Proof.
  intros Hodd. unfold alternating. rewrite alternates_snoc.
  rewrite <- Nat.negb_odd, Hodd. cbn. apply andb_false_r.
Qed.

(** So does every stored history cut by an odd [max_size]. *)
Lemma odd_max_size_breaks_alternation (query : string) (l : list value) (max_size : Z) :
  0 <= max_size < Z.of_nat (length l) ->
  Z.odd max_size = true ->
  alternating (slice_to l max_size ++ [message "user" (VStr query)]) = false.
Proof.
  intros Hsize Hodd. apply odd_history_breaks_alternation.
  rewrite HistoryFacts.slice_to_nonneg by lia. rewrite length_take.
  replace (Nat.min (Z.to_nat max_size) (length l)) with (Z.to_nat max_size) by lia.
  rewrite <- (Z2Nat.id max_size) in Hodd by lia.
  rewrite <- Hodd. clear. generalize (Z.to_nat max_size) as n. intros n.
  rewrite <- Nat.negb_even, <- Z.negb_even. f_equal.
  induction n as [ | n IH ]; [ reflexivity | ].
  rewrite Nat.even_succ, Nat2Z.inj_succ, Z.even_succ, <- Nat.negb_even, <- Z.negb_even, IH.
  reflexivity.
Qed.

(** C3, evaluated. With [max_size] 1, the second of two queries in a row
    is sent with the roles "user", "user": the history read back is cut
    after the first query, and the new query follows it. *)
Theorem second_payload_repeats_user :
  let E := Scenario.env_with None in
  let config := Scenario.config_with_history 1 in
  let w1 := snd (handle_query E "first" config Scenario.fresh_world) in
  let w2 := snd (handle_query E "second" config w1) in
  map (fun p => sent_messages (snd p)) (posts w2)
  = [Some [message "user" (VStr "first")];
     Some [message "user" (VStr "first"); message "user" (VStr "second")]]
  /\ alternating [message "user" (VStr "first"); message "user" (VStr "second")] = false.
Proof. vm_compute. split; reflexivity. Qed.

(** Symbolic evaluation that leaves lookups and the codec folded. *)
Ltac run :=
  cbn -[lookup_default truthy Json.dumps Json.loads lookup_file writable contains
        String.append Z.leb Z.ltb read_history write_history].

(** Reading when the history file is not there: the empty list, with two
    warnings. *)
Lemma read_history_missing
    (hc : list (string * value)) (w : world) (path : string) :
  history_enabled hc = true ->
  lookup_default hc "filepath" default_history_file = VStr path ->
  lookup_file w path = None ->
  read_history (VDict hc) w
  = (Ok (VList []),
     World (files w) (can_write w) (heap w) (stdout w) (stderr w)
       (log w ++ [(WARNING, [Lit "History file "; Obj (VStr path); Lit " does not exist."])]
              ++ [(WARNING, [Lit "File will be created with first response."])])
       (posts w)).
Proof.
  intros Hen Hpath Hnone.
  unfold read_history, bind, dict_get, ret. unfold history_enabled in Hen.
  rewrite Hen, Hpath. cbn [negb]. unfold os_path_exists.
  destruct path as [ | ch p ].
  - cbn. rewrite <- app_assoc. reflexivity.
  - cbn in Hnone. cbn. rewrite Hnone. cbn. rewrite <- app_assoc. reflexivity.
Qed.

(** Writing when the file cannot be opened: the entry is appended, the
    [OSError] of [open] leaves the function, nothing is logged. *)
Lemma write_history_unwritable
    (hc : list (string * value)) (w : world) (path : string)
    (r : loc) (h : list value) (response : value) :
  history_enabled hc = true ->
  lookup_default hc "filepath" default_history_file = VStr path ->
  writable w path = false ->
  heap w !! r = Some h ->
  write_history (VDict hc) r response w
  = (Raise OSError,
     set_heap (<[r := (h ++ [message "assistant" response])%list]> (heap w)) w).
Proof.
  intros Hen Hpath Hro Hheap.
  unfold write_history, bind, dict_get, ret. unfold history_enabled in Hen.
  rewrite Hen, Hpath. cbn. unfold list_append. rewrite Hheap.
  unfold try_except, open_w. cbv beta iota.
  rewrite (SysFacts.writable_ext w) by reflexivity. rewrite Hro. reflexivity.
Qed.

(** Whenever the backend answers and the history file, not yet there,
    cannot be created, [handle_query] ends with the [OSError] of the
    write: the answer is not printed and the failure is not logged. *)
Lemma handle_query_write_failure
    (E : env) (w : world) (query : string) (d b hc c : list (string * value))
    (url path : string) (status : Z) (answer : string) :
  contains "^" query = false ->
  lookup_default d "backend_service" (VDict []) = VDict b ->
  lookup_default b "query_endpoint" default_endpoint = VStr url ->
  lookup_default d "history" (VDict []) = VDict hc ->
  history_enabled hc = true ->
  lookup_default hc "filepath" default_history_file = VStr path ->
  lookup_file w path = None ->
  writable w path = false ->
  (forall body, http_post E url body = Some (Response status answer)) ->
  (400 <=? status) && (status <? 600) = false ->
  Json.loads answer = Json.Parsed (VDict c) ->
  fst (handle_query E query (VDict d) w) = Raise OSError
  /\ stdout (snd (handle_query E query (VDict d) w)) = stdout w
  /\ logged_errors (snd (handle_query E query (VDict d) w)) = logged_errors w
  /\ length (posts (snd (handle_query E query (VDict d) w))) = S (length (posts w)).
Proof.
  intros Hq Hbs Hurl Hh Hen Hpath Hnone Hro Hpost Hstatus Hjson.
  assert (handle_query E query (VDict d) w
          = (Raise OSError,
             World (files w) (can_write w)
               (heap w ++ [[message "user" (VStr query);
                            message "assistant" (lookup_default c "data" VNone)]])
               (stdout w) (stderr w)
               (log w ++ [(INFO, [Lit "Query:"; Lit newline; Lit query])]
                      ++ [(WARNING, [Lit "History file "; Obj (VStr path);
                                     Lit " does not exist."])]
                      ++ [(WARNING, [Lit "File will be created with first response."])]
                      ++ [(INFO, [Lit "Waiting for response from AI..."])])
               (posts w ++ [(url, Json.dumps
                                    (VDict [("msg", VList [message "user" (VStr query)]);
                                            ("metadata", VDict [])]))]))) as Hrun.
  { unfold handle_query, handle_caret, bind, dict_get, ret. rewrite Hq. run.
    rewrite Hbs. run. rewrite Hurl. run.
    unfold try_except. rewrite Hh. run.
    rewrite (read_history_missing hc _ path Hen Hpath)
      by (rewrite (SysFacts.lookup_file_ext w) by reflexivity; exact Hnone).
    run. unfold dumps_payload, deref, bind, ret. run.
    rewrite lookup_app_r by reflexivity. rewrite Nat.sub_diag. run.
    rewrite Hpost. run. unfold raise_for_status. rewrite Hstatus. run.
    unfold response_json, json_loads. rewrite Hjson. run.
    rewrite (write_history_unwritable hc _ path (length (heap w))
               [message "user" (VStr query)] _ Hen Hpath).
    - run. rewrite insert_app_r_alt by reflexivity. rewrite Nat.sub_diag. run.
      repeat rewrite <- app_assoc. reflexivity.
    - rewrite (SysFacts.writable_ext w) by reflexivity. exact Hro.
    - run. rewrite lookup_app_r by reflexivity. rewrite Nat.sub_diag. reflexivity. }
  rewrite Hrun. cbn [fst snd stdout posts]. repeat split.
  - unfold logged_errors. cbn [log]. rewrite !List.filter_app. cbn.
    rewrite !app_nil_r. reflexivity.
  - rewrite length_app. cbn. lia.
Qed.

(** C4, evaluated. The backend answers, the history file cannot be
    created: [handle_query] ends with [OSError], nothing is printed and no
    error is logged. *)
Theorem failed_write_loses_response :
  let E := Scenario.env_with None in
  let run := handle_query E "q" Scenario.config_with_lost_history Scenario.fresh_world in
  fst run = Raise OSError
  /\ length (posts (snd run)) = 1%nat
  /\ stdout (snd run) = []
  /\ logged_errors (snd run) = [].
Proof. vm_compute. repeat split; reflexivity. Qed.

(** The run of [main] up to the session guard, when the guard refuses. *)
Lemma main_refused
    (E : env) (w : world) (a : string) (rest : list string) (text : string)
    (d o : list (string * value)) (path : string) :
  String.eqb a "record" = false ->
  lookup_file w (config_path E) = Some text ->
  yaml_safe_load E text = Ok (VDict d) ->
  lookup_default d "output_capture_settings" (VDict []) = VDict o ->
  truthy (lookup_default o "enforce_script_session" (VBool false)) = true ->
  lookup_default o "captured_output_file" default_output_file = VStr path ->
  lookup_file w path = None ->
  main E (a :: rest) w
  = (Raise (SystemExit 1),
     World (files w) (can_write w) (heap w) (stdout w)
       (stderr w ++ ["Please call `" +:+ argv0 E
                     +:+ " record` first to initialize script session."])
       (log w ++ [(INFO, [Lit "Reading config file "; Lit (config_path E)])])
       (posts w)).
Proof.
  intros Ha Hconf Hyaml Hocs Henf Hfile Hnone.
  assert (truthy (VDict d) = true) as Hd'.
  { destruct d; [ | reflexivity ]. cbn in Hocs. injection Hocs as <-. discriminate. }
  unfold main, read_stdin, read_yaml_config, bind, ret, lift, dict_get.
  destruct (stdin E) as [data | ]; [ destruct (truthy (VStr (strip data))) eqn:Hd | ];
    cbn -[truthy lookup_default String.eqb strip config_path lookup_file]; rewrite ?Hd;
    cbn -[truthy lookup_default String.eqb strip config_path lookup_file].
  all: unfold os_path_exists, read_text; cbv beta; rewrite Hconf.
  all: cbn -[truthy lookup_default String.eqb strip config_path lookup_file].
  all: rewrite Hconf, Hyaml, Hd'.
  all: cbn -[truthy lookup_default String.eqb strip config_path lookup_file].
  all: rewrite Hocs; unfold ret; rewrite Henf, Hfile, Ha.
  all: cbn -[truthy lookup_default String.eqb strip config_path lookup_file].
  all: rewrite (SysFacts.lookup_file_ext w (World _ _ _ _ _ _ _)) by reflexivity.
  all: rewrite Hnone; reflexivity.
Qed.

(** With no argument the session guard is skipped, whatever the
    configuration says: a query piped on standard input reaches
    [handle_query]. *)
Lemma main_piped_skips_guard
    (E : env) (w : world) (data text : string) (d o : list (string * value)) :
  stdin E = Some data ->
  truthy (VStr (strip data)) = true ->
  lookup_file w (config_path E) = Some text ->
  yaml_safe_load E text = Ok (VDict d) ->
  lookup_default d "output_capture_settings" (VDict []) = VDict o ->
  exists w',
    main E [] w = handle_query E (strip (strip data)) (VDict d) w'
    /\ files w' = files w /\ posts w' = posts w /\ stderr w' = stderr w.
Proof.
  intros Hin Hd Hconf Hyaml Hocs.
  unfold main, read_stdin, read_yaml_config, bind, ret, lift, dict_get.
  rewrite Hin.
  cbn -[truthy lookup_default String.eqb strip config_path lookup_file handle_query].
  rewrite Hd.
  cbn -[truthy lookup_default String.eqb strip config_path lookup_file handle_query].
  unfold os_path_exists, read_text. cbv beta. rewrite Hconf.
  cbn -[truthy lookup_default String.eqb strip config_path lookup_file handle_query].
  rewrite Hconf, Hyaml.
  destruct (truthy (VDict d));
    cbn -[truthy lookup_default String.eqb strip config_path lookup_file handle_query];
    rewrite Hocs; unfold ret;
    rewrite andb_false_r;
    cbn -[truthy lookup_default String.eqb strip config_path lookup_file handle_query];
    eexists; (split; [ reflexivity | repeat split ]).
Qed.

(** C5, evaluated. A query piped on standard input, no argument, an
    enforced session and no captured-output file: the guard does not
    fire, the backend is called and its answer printed. *)
Theorem piped_query_passes_session_guard :
  let E := Scenario.env_with (Some "hello") in
  let run := main E [] Scenario.enforcing_world in
  lookup_file Scenario.enforcing_world "/tmp/minishellai_output.txt" = None
  /\ fst run = Ok tt
  /\ map (fun p => sent_messages (snd p)) (posts (snd run))
     = [Some [message "user" (VStr "hello")]]
  /\ stdout (snd run) = [VStr "hi"]
  /\ stderr (snd run) = [].
Proof. vm_compute. repeat split; reflexivity. Qed.

(** The run of [main] on a configuration file that holds an empty
    document. *)
Lemma main_empty_document (E : env) (w : world) (args : list string) (text : string) :
  query_given E args = true ->
  lookup_file w (config_path E) = Some text ->
  yaml_safe_load E text = Ok VNone ->
  main E args w
  = (Raise AttributeError,
     World (files w) (can_write w) (heap w) (stdout w) (stderr w)
       (log w ++ [(INFO, [Lit "Reading config file "; Lit (config_path E)])]
              ++ [(WARNING,
                   [Lit "Config file not found. Script will continue with default values."])])
       (posts w)).
Proof.
  intros Hq Hconf Hyaml.
  unfold main, read_stdin, read_yaml_config, bind, ret, lift, dict_get.
  unfold query_given in Hq.
  destruct (stdin E) as [data | ]; [ destruct (truthy (VStr (strip data))) eqn:Hd | ];
    destruct args as [ | a rest ]; try discriminate;
    cbn -[truthy lookup_default String.eqb strip config_path lookup_file]; rewrite ?Hd;
    cbn -[truthy lookup_default String.eqb strip config_path lookup_file].
  all: unfold os_path_exists, read_text; cbv beta; rewrite Hconf.
  all: cbn -[truthy lookup_default String.eqb strip config_path lookup_file].
  all: rewrite Hconf, Hyaml.
  all: cbn -[lookup_default String.eqb strip config_path lookup_file].
  all: rewrite <- app_assoc; reflexivity.
Qed.

(** C10. When the configuration file exists and parses to an empty
    document, [read_yaml_config] returns [None], and [main] ends with an
    unhandled [AttributeError] at its first access to the configuration,
    with no backend call; had the file been absent, [read_yaml_config]
    would have returned the empty mapping, on which every access yields
    its default. *)
Theorem empty_config_document_fails
    (E : env) (w : world) (args : list string) (text : string) :
  query_given E args = true ->
  lookup_file w (config_path E) = Some text ->
  yaml_safe_load E text = Ok VNone ->
  fst (read_yaml_config E (config_path E) w) = Ok VNone
  /\ fst (main E args w) = Raise AttributeError
  /\ exit_status (fst (main E args w)) = Some 1
  /\ posts (snd (main E args w)) = posts w
  /\ fst (read_yaml_config E (config_path E)
            (set_files (delete (config_path E) (files w)) w)) = Ok (VDict []).
Proof.
  intros Hq Hconf Hyaml.
  rewrite (main_empty_document E w args text Hq Hconf Hyaml).
  repeat split.
  - unfold read_yaml_config, bind, os_path_exists, read_text, lift. cbv beta.
    rewrite Hconf. cbn. rewrite Hconf, Hyaml. reflexivity.
  - unfold read_yaml_config, bind, os_path_exists. cbv beta.
    rewrite SysFacts.lookup_file_deleted. reflexivity.
Qed.

Lemma empty_config_document_fails_witness :
  let E := Scenario.env_with None in
  fst (read_yaml_config E (config_path E) Scenario.empty_config_world) = Ok VNone
  /\ fst (main E ["hello"] Scenario.empty_config_world) = Raise AttributeError
  /\ exit_status (fst (main E ["hello"] Scenario.empty_config_world)) = Some 1
  /\ posts (snd (main E ["hello"] Scenario.empty_config_world)) = posts Scenario.empty_config_world
  /\ fst (read_yaml_config E (config_path E)
            (set_files (delete (config_path E) (files Scenario.empty_config_world))
               Scenario.empty_config_world)) = Ok (VDict []).
Proof.
  apply (empty_config_document_fails (Scenario.env_with None)
           Scenario.empty_config_world ["hello"] EmptyString).
  - reflexivity.
  - reflexivity.
  - reflexivity.
Defined.

(** With no configuration file, [main] goes on with the empty mapping:
    an invocation with arguments reaches [handle_query] with it. *)
Lemma main_absent_config
    (E : env) (w : world) (a : string) (rest : list string) :
  stdin E = None ->
  String.eqb a "record" = false ->
  a <> EmptyString ->
  lookup_file w (config_path E) = None ->
  exists w', main E (a :: rest) w = handle_query E (join EmptyString (a :: rest)) (VDict []) w'.
Proof.
  intros Hin Ha Hne Hconf.
  unfold main, read_stdin, read_yaml_config, bind, ret, lift, dict_get.
  rewrite Hin.
  cbn -[truthy lookup_default String.eqb strip config_path handle_query join lookup_file].
  unfold os_path_exists. cbv beta. rewrite Hconf.
  cbn -[String.eqb strip config_path handle_query join lookup_file]. rewrite Ha.
  cbn -[String.eqb strip config_path handle_query join lookup_file].
  destruct (join EmptyString (a :: rest)) as [ | c q ] eqn:Hj.
  - destruct a; [ congruence | ]. destruct rest; discriminate.
  - eexists. reflexivity.
Qed.

End QueryFacts.

(** * What the functions leave unchanged *)

Module FrameFacts.

Import Str Sys Minishellai Props Frame.

Lemma same_store_refl (w : world) : same_store w w.
Proof. repeat split. Qed.

Lemma same_store_trans (w1 w2 w3 : world) :
  same_store w1 w2 -> same_store w2 w3 -> same_store w1 w3.
Proof.
  unfold same_store. intros (? & ? & ? & ? & ?) (? & ? & ? & ? & ?).
  repeat split; congruence.
Qed.

Lemma same_output_refl (w : world) : same_output w w.
Proof. repeat split. Qed.

Lemma same_output_trans (w1 w2 w3 : world) :
  same_output w1 w2 -> same_output w2 w3 -> same_output w1 w3.
Proof.
  unfold same_output. intros (? & ? & ?) (? & ? & ?). repeat split; congruence.
Qed.

Lemma same_store_output (w w' : world) : same_store w w' -> same_output w w'.
Proof. unfold same_store, same_output. intros (? & ? & ? & ? & ?). auto. Qed.

Section Keeps.

Variable R : world -> world -> Prop.
Hypothesis R_refl : forall w, R w w.
Hypothesis R_trans : forall w1 w2 w3, R w1 w2 -> R w2 w3 -> R w1 w3.

Lemma keeps_ret {A} (a : A) : keeps R (ret a).
Proof. intros w. apply R_refl. Qed.

Lemma keeps_raise {A} (e : exn) : keeps R (@raise A e).
Proof. intros w. apply R_refl. Qed.

Lemma keeps_unmodelled {A} : keeps R (@unmodelled A).
Proof. intros w. apply R_refl. Qed.

Lemma keeps_lift {A} (r : result A) : keeps R (lift r).
Proof. intros w. apply R_refl. Qed.

Lemma keeps_bind {A B} (m : M A) (k : A -> M B) :
  keeps R m -> (forall a, keeps R (k a)) -> keeps R (bind m k).
Proof.
  intros Hm Hk w. unfold bind. specialize (Hm w).
  destruct (m w) as [[a | e | ] w1]; cbn in *; try exact Hm.
  eapply R_trans; [ exact Hm | apply Hk ].
Qed.

Lemma keeps_try_except {A} (body : M A) (cls : exn -> bool) (handler : exn -> M A) :
  keeps R body -> (forall e, keeps R (handler e)) -> keeps R (try_except body cls handler).
Proof.
  intros Hb Hh w. unfold try_except. specialize (Hb w).
  destruct (body w) as [[a | e | ] w1]; cbn in *; try exact Hb.
  destruct (cls e); [ | exact Hb ].
  eapply R_trans; [ exact Hb | apply Hh ].
Qed.

Lemma keeps_dict_get (d : value) (k : string) (default : value) :
  keeps R (dict_get d k default).
Proof. destruct d; intros w; apply R_refl. Qed.

Lemma keeps_os_path_exists (p : value) : keeps R (os_path_exists p).
Proof. destruct p; intros w; apply R_refl. Qed.

Lemma keeps_read_text (p : value) : keeps R (read_text p).
Proof.
  destruct p; intros w; try apply R_refl.
  cbn. destruct (lookup_file w s); apply R_refl.
Qed.

Lemma keeps_json_loads (cls : exn) (text : string) : keeps R (json_loads cls text).
Proof. unfold json_loads. destruct (Json.loads text); intros w; apply R_refl. Qed.

Lemma keeps_getitem_slice_to (x stop : value) : keeps R (getitem_slice_to x stop).
Proof.
  unfold getitem_slice_to.
  destruct x; try (intros w; apply R_refl);
    destruct (as_index stop) as [[n | ] | e | ]; intros w; apply R_refl.
Qed.

Lemma keeps_str_split (text : string) (sep : value) : keeps R (str_split text sep).
Proof.
  destruct sep; try (intros w; apply R_refl).
  cbn. destruct (split s text); intros w; apply R_refl.
Qed.

Lemma keeps_getitem_last (l : list string) : keeps R (getitem_last l).
Proof. unfold getitem_last. destruct (last l); intros w; apply R_refl. Qed.

Lemma keeps_unpack (x : value) : keeps R (unpack x).
Proof. destruct x; intros w; apply R_refl. Qed.

Lemma keeps_deref (r : loc) : keeps R (deref r).
Proof. intros w. unfold deref. destruct (heap w !! r); apply R_refl. Qed.

Lemma keeps_raise_for_status (r : response) : keeps R (raise_for_status r).
Proof.
  destruct r as [status text]. cbn.
  destruct ((400 <=? status) && (status <? 600)); intros w; apply R_refl.
Qed.

End Keeps.

Lemma keeps_weaken {A} (R R' : world -> world -> Prop) (m : M A) :
  (forall w w', R w w' -> R' w w') -> keeps R m -> keeps R' m.
Proof. intros H Hm w. apply H, Hm. Qed.

Lemma keeps_logging (l : level) (msg : list frag) : keeps same_store (logging l msg).
Proof. intros w. repeat split. Qed.

Lemma keeps_print_stderr (s : string) : keeps same_store (print_stderr s).
Proof. intros w. repeat split. Qed.


(** A step that returns hands its value and its world to what follows,
    also under a [try]. *)
Lemma bind_ok {A B} (m : M A) (k : A -> M B) (w w' : world) (a : A) :
  m w = (Ok a, w') -> bind m k w = k a w'.
Proof. intros H. unfold bind. rewrite H. reflexivity. Qed.

Lemma try_bind_ok {A B} (m : M A) (k : A -> M B) (cls : exn -> bool) (handler : exn -> M B)
    (w w' : world) (a : A) :
  m w = (Ok a, w') ->
  try_except (bind m k) cls handler w = try_except (k a) cls handler w'.
Proof. intros H. unfold try_except, bind. rewrite H. reflexivity. Qed.

(** The functions that only read and log keep every relation that
    logging and printing to the standard error keep. *)
Section KeepsReaders.

Variable R : world -> world -> Prop.
Hypothesis R_refl : forall w, R w w.
Hypothesis R_trans : forall w1 w2 w3, R w1 w2 -> R w2 w3 -> R w1 w3.
Hypothesis R_logging : forall l msg, keeps R (logging l msg).
Hypothesis R_stderr : forall s, keeps R (print_stderr s).

Ltac step tac := apply keeps_bind; [ exact R_trans | tac | intros ? ].

Lemma keeps_read_history (config : value) : keeps R (read_history config).
Proof.
  unfold read_history.
  step ltac:(apply keeps_dict_get; auto).
  destruct (negb (truthy _)); [ apply keeps_ret; auto | ].
  step ltac:(apply keeps_dict_get; auto).
  step idtac.
  { destruct (negb (truthy _)); [ apply keeps_ret; auto | ].
    step ltac:(apply keeps_os_path_exists; auto). apply keeps_ret; auto. }
  match goal with b : bool |- _ => destruct b end.
  { step ltac:(apply R_logging). step ltac:(apply R_logging). apply keeps_ret; auto. }
  step ltac:(apply keeps_dict_get; auto).
  step idtac.
  { apply keeps_try_except; [ auto | | intros e ].
    - step ltac:(apply keeps_read_text; auto).
      step ltac:(apply keeps_json_loads; auto). apply keeps_ret; auto.
    - step ltac:(apply R_logging). apply keeps_ret; auto. }
  match goal with o : option value |- _ => destruct o end; [ | apply keeps_ret; auto ].
  step ltac:(apply R_logging). apply keeps_getitem_slice_to; auto.
Qed.

Lemma keeps_handle_caret (query : string) (config : value) :
  keeps R (handle_caret query config).
Proof.
  unfold handle_caret. destruct (negb (contains "^" query)); [ apply keeps_ret; auto | ].
  step ltac:(apply keeps_dict_get; auto).
  step ltac:(apply keeps_dict_get; auto).
  step ltac:(apply keeps_os_path_exists; auto).
  step idtac.
  { destruct (negb _); [ | apply keeps_ret; auto ].
    step ltac:(apply R_logging). apply keeps_raise; auto. }
  step ltac:(apply keeps_dict_get; auto).
  step ltac:(apply keeps_read_text; auto).
  step ltac:(apply keeps_str_split; auto).
  step ltac:(apply keeps_getitem_last; auto).
  apply keeps_ret; auto.
Qed.

Lemma keeps_read_yaml_config (E : env) (config_file : string) :
  keeps R (read_yaml_config E config_file).
Proof.
  unfold read_yaml_config.
  step ltac:(apply keeps_os_path_exists; auto).
  destruct (negb _).
  - step ltac:(apply R_stderr). apply keeps_ret; auto.
  - step ltac:(apply keeps_read_text; auto). step ltac:(apply R_logging).
    apply keeps_lift; auto.
Qed.

End KeepsReaders.

(** What [read_history] returns depends on the files alone. *)
Lemma read_history_ext (config : value) (w w0 : world) :
  files w0 = files w -> fst (read_history config w0) = fst (read_history config w).
Proof.
  intros Hf.
  assert (forall s, lookup_file w0 s = lookup_file w s) as Hl
    by (intros s; apply SysFacts.lookup_file_ext; exact Hf).
  unfold read_history, bind, dict_get, ret, raise.
  destruct config as [ | ? | ? | ? | ? | d ]; try reflexivity.
  destruct (negb (truthy (lookup_default d "enabled" (VBool false)))); [ reflexivity | ].
  generalize (lookup_default d "filepath" default_history_file) as filepath.
  generalize (lookup_default d "max_size" (VInt 100)) as max_size.
  intros max_size filepath.
  destruct (negb (truthy filepath)) eqn:Hfp; [ reflexivity | ].
  destruct filepath as [ | ? | ? | path | ? | ? ]; try reflexivity.
  unfold os_path_exists, read_text, try_except, json_loads, logging, getitem_slice_to, ret,
    raise, unmodelled.
  cbv beta iota. rewrite !Hl.
  destruct (lookup_file w path) as [text | ] eqn:Ht; cbn [negb]; [ | reflexivity ].
  cbv beta iota.
  rewrite ?Hl, ?Ht.
  destruct (Json.loads text) as [ v | | ]; try reflexivity.
  cbv beta iota.
  destruct v; try reflexivity; destruct (as_index max_size) as [ [ n | ] | e | ]; reflexivity.
Qed.
Lemma keeps_logging_output (l : level) (msg : list frag) : keeps same_output (logging l msg).
Proof. intros w. repeat split. Qed.

Lemma keeps_print_stderr_output (s : string) : keeps same_output (print_stderr s).
Proof. intros w. repeat split. Qed.

Lemma keeps_new_list (l : list value) : keeps same_output (new_list l).
Proof. intros w. repeat split. Qed.

Lemma fails_raise {A} (e : exn) : fails (@raise A e).
Proof. intros w a. discriminate. Qed.

Lemma fails_bind_l {A B} (m : M A) (k : A -> M B) : fails m -> fails (bind m k).
Proof.
  intros Hm w b. unfold bind. specialize (Hm w).
  destruct (m w) as [[a | e | ] w1]; cbn in *; try discriminate.
  exfalso. apply (Hm a). reflexivity.
Qed.

Lemma fails_bind_r {A B} (m : M A) (k : A -> M B) :
  (forall a, fails (k a)) -> fails (bind m k).
Proof.
  intros Hk w b. unfold bind.
  destruct (m w) as [[a | e | ] w1]; cbn; try discriminate. apply Hk.
Qed.

Lemma fails_try_except {A} (body : M A) (cls : exn -> bool) (handler : exn -> M A) :
  fails body -> (forall e, fails (handler e)) -> fails (try_except body cls handler).
Proof.
  intros Hb Hh w a. unfold try_except. specialize (Hb w).
  destruct (body w) as [[a' | e | ] w1]; cbn in *; try discriminate.
  - exfalso. apply (Hb a'). reflexivity.
  - destruct (cls e); [ apply Hh | discriminate ].
Qed.

(** A step that never returns hides what would follow it. *)
Lemma keeps_bind_fails {A B} (R : world -> world -> Prop) (m : M A) (k : A -> M B) :
  keeps R m -> fails m -> keeps R (bind m k).
Proof.
  intros Hm Hf w. unfold bind. specialize (Hm w). specialize (Hf w).
  destruct (m w) as [[a | e | ] w1]; cbn in *; try exact Hm.
  exfalso. apply (Hf a). reflexivity.
Qed.

End FrameFacts.

(** * More on the string operations *)

Module StrMore.

Import Str.

Lemma rstrip_rstrip (s : string) : rstrip (rstrip s) = rstrip s.
Proof.
  induction s as [ | c s IH ]; [ reflexivity | ].
  cbn [rstrip]. destruct (rstrip s) as [ | a r ] eqn:Hr.
  - destruct (isspace c) eqn:Hc; [ reflexivity | ]. cbn [rstrip]. rewrite Hc. reflexivity.
  - cbn [rstrip]. cbn [rstrip] in IH. rewrite IH. reflexivity.
Qed.

Lemma lstrip_rstrip_lstrip (s : string) : lstrip (rstrip (lstrip s)) = rstrip (lstrip s).
Proof.
  induction s as [ | c s IH ]; [ reflexivity | ].
  cbn [lstrip]. destruct (isspace c) eqn:Hc; [ exact IH | ].
  cbn [rstrip]. destruct (rstrip s) as [ | a r ]; rewrite ?Hc; cbn [lstrip]; rewrite Hc; reflexivity.
Qed.

Lemma strip_strip (s : string) : strip (strip s) = strip s.
Proof. unfold strip. rewrite lstrip_rstrip_lstrip. apply rstrip_rstrip. Qed.

Lemma join_empty (a : string) (rest : list string) :
  join EmptyString (a :: rest) = EmptyString -> a = EmptyString.
Proof. destruct a; [ reflexivity | ]. destruct rest; discriminate. Qed.

(** A separator that does not occur splits nothing. *)
Lemma split_scan_absent (sep : string) (s : string) :
  contains sep s = false -> split_scan sep O s = (s, []).
Proof.
  induction s as [ | c s IH ]; [ reflexivity | ].
  cbn [contains split_scan]. intros H. apply orb_false_elim in H as [Hhere Hlater].
  rewrite Hhere, (IH Hlater). reflexivity.
Qed.

(** Passing over [k] characters and then scanning is scanning what is
    left after them. *)
Lemma split_scan_skip (sep : string) (s : string) : forall k : nat,
  split_scan sep k s = split_scan sep O (drop k s).
Proof.
  induction s as [ | c s IH ]; intros [ | k ]; try reflexivity.
  cbn [split_scan drop]. apply IH.
Qed.

Lemma length_drop (k : nat) : forall s : string,
  (String.length (drop k s) <= String.length s)%nat.
Proof.
  induction k as [ | k IH ]; intros [ | c s ]; cbn [drop String.length]; try lia.
  specialize (IH s). lia.
Qed.

(** A scan that finds no further piece has found no separator. *)
Lemma split_scan_single (sep : string) (s a : string) :
  sep <> EmptyString ->
  split_scan sep O s = (a, []) -> a = s /\ contains sep s = false.
Proof.
  intros Hsep. revert a. induction s as [ | c s IH ]; intros a H.
  - cbn in H. injection H as <-. split; [ reflexivity | ].
    destruct sep; [ congruence | reflexivity ].
  - cbn [split_scan] in H. cbn [contains].
    destruct (startswith sep (String c s)) eqn:Hm.
    + destruct (split_scan sep (Nat.pred (String.length sep)) s). discriminate.
    + destruct (split_scan sep O s) as [a' l'] eqn:Hs. injection H as <- ->.
      destruct (IH a' eq_refl) as [-> Hc]. rewrite Hc. split; reflexivity.
Qed.

(** The last piece of a split holds no separator. *)
Lemma split_scan_last (sep : string) :
  sep <> EmptyString ->
  forall (n : nat) (s a : string) (l : list string),
    (String.length s <= n)%nat ->
    split_scan sep O s = (a, l) ->
    exists piece, last (a :: l) = Some piece /\ contains sep piece = false.
Proof.
  intros Hsep. induction n as [ | n IH ]; intros s a l Hn H.
  - destruct s; [ | cbn in Hn; lia ]. cbn in H. injection H as <- <-.
    exists EmptyString. split; [ reflexivity | ]. destruct sep; [ congruence | reflexivity ].
  - destruct s as [ | c s ].
    + cbn in H. injection H as <- <-.
      exists EmptyString. split; [ reflexivity | ]. destruct sep; [ congruence | reflexivity ].
    + cbn [split_scan] in H. cbn [String.length] in Hn.
      destruct (startswith sep (String c s)) eqn:Hm.
      * rewrite split_scan_skip in H.
        destruct (split_scan sep O (drop (Nat.pred (String.length sep)) s)) as [a' l'] eqn:Hs.
        injection H as <- <-.
        apply (IH _ a' l') in Hs;
          [ | pose proof (length_drop (Nat.pred (String.length sep)) s); lia ].
        exact Hs.
      * destruct (split_scan sep O s) as [a' l'] eqn:Hs. injection H as <- <-.
        destruct l' as [ | x l' ].
        -- destruct (split_scan_single sep s a' Hsep Hs) as [-> Hc].
           exists (String c s). split; [ reflexivity | ].
           cbn [contains]. rewrite Hm, Hc. reflexivity.
        -- apply (IH _ a' (x :: l')) in Hs; [ | lia ]. exact Hs.
Qed.

Lemma split_last (sep text : string) (pieces : list string) :
  split sep text = Some pieces ->
  exists piece, last pieces = Some piece /\ contains sep piece = false.
Proof.
  unfold split. destruct sep as [ | c sep ]; [ discriminate | ].
  destruct (split_scan (String c sep) O text) as [a l] eqn:Hs.
  intros H. injection H as <-.
  apply (split_scan_last (String c sep) ltac:(discriminate) (String.length text) text a l);
    [ lia | exact Hs ].
Qed.

(** Stripping brings no separator in. *)
Lemma contains_lstrip (sep s : string) :
  contains sep s = false -> contains sep (lstrip s) = false.
Proof.
  induction s as [ | c s IH ]; [ trivial | ].
  intros H. cbn [lstrip]. destruct (isspace c); [ | exact H ].
  cbn [contains] in H. apply orb_false_elim in H as [_ H]. apply IH, H.
Qed.

Lemma startswith_rstrip (s : string) : forall sep : string,
  startswith sep (rstrip s) = true -> startswith sep s = true.
Proof.
  induction s as [ | c s IH ]; intros [ | a sep ]; try reflexivity; try (intros H; exact H).
  cbn [rstrip]. destruct (rstrip s) as [ | b r ] eqn:Hr.
  - destruct (isspace c); [ discriminate | ].
    cbn [startswith]. intros H. apply andb_prop in H as [Hac Hnil]. rewrite Hac.
    apply IH. exact Hnil.
  - cbn [startswith]. intros H. apply andb_prop in H as [Hac Hrest]. rewrite Hac.
    apply IH. exact Hrest.
Qed.

Lemma contains_rstrip (sep s : string) :
  contains sep s = false -> contains sep (rstrip s) = false.
Proof.
  induction s as [ | c s IH ]; [ trivial | ].
  intros H. cbn [contains] in H. apply orb_false_elim in H as [Hhere Hlater].
  destruct (contains sep (rstrip (String c s))) eqn:Hc; [ | reflexivity ].
  assert (startswith sep (rstrip (String c s)) = false) as Hhere'.
  { destruct (startswith sep (rstrip (String c s))) eqn:Hst; [ | reflexivity ].
    apply startswith_rstrip in Hst. congruence. }
  specialize (IH Hlater).
  cbn [rstrip] in Hc, Hhere'. destruct (rstrip s) as [ | b r ] eqn:Hr.
  - destruct (isspace c).
    + cbn [contains] in Hc. rewrite Hhere' in Hc. discriminate.
    + cbn [contains] in Hc, IH. rewrite Hhere' in Hc. cbn [orb] in Hc. congruence.
  - cbn [contains] in Hc, IH. rewrite Hhere' in Hc. cbn [orb] in Hc. congruence.
Qed.

Lemma contains_strip (sep s : string) :
  contains sep s = false -> contains sep (strip s) = false.
Proof. intros H. apply contains_rstrip, contains_lstrip, H. Qed.

End StrMore.

(** * More on the history store *)

Module HistoryMore.

Import Str Sys Minishellai Props Frame FrameFacts.

(** X1. Whatever the configuration and the state of the files,
    [read_history] changes nothing but the log: no file, no list object,
    no output and no request differs after the call. *)
Theorem read_history_only_logs (config : value) : keeps same_store (read_history config).
Proof.
  apply keeps_read_history.
  - apply same_store_refl.
  - apply same_store_trans.
  - apply keeps_logging.
Qed.

(** X2. A history file that holds no JSON document is not fatal:
    [read_history] returns the empty list and logs one error. *)
Theorem read_history_corrupt_file
    (d : list (string * value)) (w : world) (path text : string) :
  history_enabled d = true ->
  lookup_default d "filepath" default_history_file = VStr path ->
  lookup_file w path = Some text ->
  Json.loads text = Json.DecodeError ->
  fst (read_history (VDict d) w) = Ok (VList [])
  /\ logged_errors (snd (read_history (VDict d) w))
     = (logged_errors w ++ [[Lit "Failed to read history file "; Obj (VStr path);
                             Lit ": "; Exc JSONDecodeError]])%list.
Proof.
  intros Hen Hpath Hfile Hjson.
  assert (truthy (VStr path) = true) as Hne by (destruct path; [ discriminate | reflexivity ]).
  assert (read_history (VDict d) w
          = (Ok (VList []),
             snd (logging ERROR [Lit "Failed to read history file "; Obj (VStr path);
                                 Lit ": "; Exc JSONDecodeError] w))) as Hrun.
  { unfold read_history, bind, dict_get, ret. unfold history_enabled in Hen.
    rewrite Hen, Hpath, Hne. cbn [negb]. unfold os_path_exists. cbv beta iota.
    rewrite Hfile. cbn [negb]. cbv beta iota.
    unfold try_except, read_text. cbv beta iota. rewrite Hfile.
    unfold json_loads. rewrite Hjson. reflexivity. }
  rewrite Hrun. split; [ reflexivity | ].
  unfold logged_errors. cbn [snd logging log]. rewrite List.filter_app, map_app. reflexivity.
Qed.

Lemma read_history_corrupt_file_witness :
  fst (read_history (VDict Cases.enabled_conf) Cases.corrupt_world) = Ok (VList [])
  /\ logged_errors (snd (read_history (VDict Cases.enabled_conf) Cases.corrupt_world))
     = (logged_errors Cases.corrupt_world
        ++ [[Lit "Failed to read history file "; Obj (VStr "/tmp/minishellai_history.json");
             Lit ": "; Exc JSONDecodeError]])%list.
Proof.
  apply (read_history_corrupt_file Cases.enabled_conf Cases.corrupt_world
           "/tmp/minishellai_history.json" "not json").
  - reflexivity.
  - reflexivity.
  - reflexivity.
  - vm_compute. reflexivity.
Defined.

(** X3. A history file that holds [null], [true], [false] or a number
    makes [read_history] raise [TypeError] at the slice; no clause
    catches it. *)
Theorem read_history_not_a_list
    (d : list (string * value)) (w : world) (path text : string) (v : value) :
  history_enabled d = true ->
  lookup_default d "filepath" default_history_file = VStr path ->
  lookup_file w path = Some text ->
  Json.loads text = Json.Parsed v ->
  Cases.scalar v = true ->
  fst (read_history (VDict d) w) = Raise TypeError.
Proof.
  intros Hen Hpath Hfile Hjson Hv.
  assert (truthy (VStr path) = true) as Hne by (destruct path; [ discriminate | reflexivity ]).
  unfold read_history, bind, dict_get, ret. unfold history_enabled in Hen.
  rewrite Hen, Hpath, Hne. cbn [negb]. unfold os_path_exists. cbv beta iota.
  rewrite Hfile. cbn [negb]. cbv beta iota.
  unfold try_except, read_text. cbv beta iota. rewrite Hfile.
  unfold json_loads. rewrite Hjson.
  destruct v; try discriminate; reflexivity.
Qed.

Lemma read_history_not_a_list_witness :
  fst (read_history (VDict Cases.enabled_conf) Cases.number_world) = Raise TypeError.
Proof.
  apply (read_history_not_a_list Cases.enabled_conf Cases.number_world
           "/tmp/minishellai_history.json" "42" (VInt 42)).
  - reflexivity.
  - reflexivity.
  - reflexivity.
  - vm_compute. reflexivity.
  - reflexivity.
Defined.

(** X4. A stored list with at most [max_size] entries is returned whole. *)
Theorem read_history_short_list_whole
    (d : list (string * value)) (w : world) (path text : string)
    (l : list value) (max_size : Z) :
  history_enabled d = true ->
  lookup_default d "filepath" default_history_file = VStr path ->
  lookup_default d "max_size" (VInt 100) = VInt max_size ->
  lookup_file w path = Some text ->
  Json.loads text = Json.Parsed (VList l) ->
  Z.of_nat (length l) <= max_size ->
  fst (read_history (VDict d) w) = Ok (VList l).
Proof.
  intros Hen Hpath Hmax Hfile Hjson Hsize.
  rewrite (HistoryFacts.read_history_stored d w path text l max_size) by assumption.
  rewrite HistoryFacts.slice_to_nonneg by lia. rewrite firstn_all2 by lia. reflexivity.
Qed.

Lemma read_history_short_list_whole_witness :
  fst (read_history (VDict Cases.enabled_conf) Scenario.stored_world)
  = Ok (VList Scenario.three_messages).
Proof.
  apply (read_history_short_list_whole Cases.enabled_conf Scenario.stored_world
           "/tmp/minishellai_history.json"
           (Json.dumps (VList Scenario.three_messages)) Scenario.three_messages 100).
  - reflexivity.
  - reflexivity.
  - reflexivity.
  - reflexivity.
  - vm_compute. reflexivity.
  - simpl. lia.
Defined.

(** X5. A negative [max_size] does not empty the history: the slice
    [history[:max_size]] drops the last [-max_size] entries and keeps the
    ones before them. *)
Theorem read_history_negative_max_size
    (d : list (string * value)) (w : world) (path text : string)
    (l : list value) (max_size : Z) :
  history_enabled d = true ->
  lookup_default d "filepath" default_history_file = VStr path ->
  lookup_default d "max_size" (VInt 100) = VInt max_size ->
  lookup_file w path = Some text ->
  Json.loads text = Json.Parsed (VList l) ->
  max_size < 0 ->
  fst (read_history (VDict d) w)
  = Ok (VList (firstn (length l - Z.to_nat (- max_size)) l)).
Proof.
  intros Hen Hpath Hmax Hfile Hjson Hneg.
  rewrite (HistoryFacts.read_history_stored d w path text l max_size) by assumption.
  unfold slice_to. destruct (Z.leb_spec 0 max_size); [ lia | ].
  do 3 f_equal. lia.
Qed.

Lemma read_history_negative_max_size_witness :
  fst (read_history (VDict (Scenario.history_conf (-1))) Scenario.stored_world)
  = Ok (VList (firstn (length Scenario.three_messages - Z.to_nat (- -1))
                 Scenario.three_messages)).
Proof.
  apply (read_history_negative_max_size (Scenario.history_conf (-1)) Scenario.stored_world
           "/tmp/minishellai_history.json"
           (Json.dumps (VList Scenario.three_messages)) Scenario.three_messages (-1)).
  - reflexivity.
  - reflexivity.
  - reflexivity.
  - reflexivity.
  - vm_compute. reflexivity.
  - lia.
Defined.

(** X6. With no file at the configured path, [read_history] returns the
    empty list, logs two warnings and creates nothing. *)
Theorem read_history_absent_file
    (d : list (string * value)) (w : world) (path : string) :
  history_enabled d = true ->
  lookup_default d "filepath" default_history_file = VStr path ->
  lookup_file w path = None ->
  fst (read_history (VDict d) w) = Ok (VList [])
  /\ files (snd (read_history (VDict d) w)) = files w
  /\ log (snd (read_history (VDict d) w))
     = (log w ++ [(WARNING, [Lit "History file "; Obj (VStr path); Lit " does not exist."])]
             ++ [(WARNING, [Lit "File will be created with first response."])])%list.
Proof.
  intros Hen Hpath Hnone.
  rewrite (QueryFacts.read_history_missing d w path Hen Hpath Hnone).
  repeat split.
Qed.

Lemma read_history_absent_file_witness :
  fst (read_history (VDict Cases.enabled_conf) Scenario.fresh_world) = Ok (VList [])
  /\ files (snd (read_history (VDict Cases.enabled_conf) Scenario.fresh_world))
     = files Scenario.fresh_world
  /\ log (snd (read_history (VDict Cases.enabled_conf) Scenario.fresh_world))
     = (log Scenario.fresh_world
        ++ [(WARNING, [Lit "History file "; Obj (VStr "/tmp/minishellai_history.json");
                       Lit " does not exist."])]
        ++ [(WARNING, [Lit "File will be created with first response."])])%list.
Proof.
  apply (read_history_absent_file Cases.enabled_conf Scenario.fresh_world
           "/tmp/minishellai_history.json").
  - reflexivity.
  - reflexivity.
  - reflexivity.
Defined.

(** X7. A successful [write_history] rewrites the history file in full,
    whatever it held, and touches no other file, no output and no log. *)
Theorem write_history_rewrites_its_file
    (d : list (string * value)) (w : world) (path : string)
    (r : loc) (h : list value) (response : value) :
  history_enabled d = true ->
  lookup_default d "filepath" default_history_file = VStr path ->
  writable w path = true ->
  heap w !! r = Some h ->
  let w' := snd (write_history (VDict d) r response w) in
  lookup_file w' path = Some (Json.dumps (VList (h ++ [message "assistant" response])))
  /\ (forall p, p <> path -> files w' !! p = files w !! p)
  /\ stdout w' = stdout w /\ log w' = log w /\ posts w' = posts w.
Proof.
  intros Hen Hpath Hcan Hheap w'. subst w'.
  rewrite (HistoryFacts.write_history_written d w path r h response) by assumption.
  cbn [snd]. repeat split.
  - apply SysFacts.lookup_file_written. exact Hcan.
  - intros p Hp. cbn. rewrite !lookup_insert_ne by congruence. reflexivity.
Qed.

Lemma write_history_rewrites_its_file_witness :
  let w' := snd (write_history (VDict Cases.enabled_conf) O (VStr "ok")
                   Scenario.pending_world) in
  lookup_file w' "/tmp/minishellai_history.json"
  = Some (Json.dumps (VList ([message "user" (VStr "q")]
                             ++ [message "assistant" (VStr "ok")])))
  /\ (forall p, p <> "/tmp/minishellai_history.json" ->
      files w' !! p = files Scenario.pending_world !! p)
  /\ stdout w' = stdout Scenario.pending_world
  /\ log w' = log Scenario.pending_world
  /\ posts w' = posts Scenario.pending_world.
Proof.
  apply (write_history_rewrites_its_file Cases.enabled_conf Scenario.pending_world
           "/tmp/minishellai_history.json" O [message "user" (VStr "q")] (VStr "ok")).
  - reflexivity.
  - reflexivity.
  - reflexivity.
  - reflexivity.
Defined.

End HistoryMore.

(** * More on the payload and the context injector *)

Module PayloadMore.

Import Str Sys Minishellai Props Frame FrameFacts.

(** X8. [get_payload] builds a new list object: the reference it returns
    was not live before, the object holds the history followed by the
    user message, and every list object that existed is unchanged. *)
Theorem get_payload_fresh_list (query : string) (l : list value) (w : world) :
  exists p w',
    get_payload query (VList l) w = (Ok p, w')
    /\ heap w !! msg p = None
    /\ heap w' !! msg p = Some (l ++ [message "user" (VStr query)])%list
    /\ (forall r h, heap w !! r = Some h -> heap w' !! r = Some h)
    /\ metadata p = VDict [].
Proof.
  eexists _, _. split; [ reflexivity | ]. cbn. repeat split.
  - apply lookup_ge_None. lia.
  - rewrite lookup_app_r by reflexivity. rewrite Nat.sub_diag. reflexivity.
  - intros r h Hr. apply lookup_app_l_Some. exact Hr.
Qed.

(** X9. The body sent to the backend is a JSON document whose ["msg"]
    entry reads back as the history followed by the user message. *)
Theorem payload_body_reads_back (query : string) (l : list value) (w : world) :
  forallb wf_value l = true ->
  exists p w' body w'',
    get_payload query (VList l) w = (Ok p, w')
    /\ dumps_payload p w' = (Ok body, w'')
    /\ sent_messages body = Some (l ++ [message "user" (VStr query)])%list.
Proof.
  intros Hwf.
  exists (Payload (length (heap w)) (VDict [])),
         (set_heap (heap w ++ [l ++ [message "user" (VStr query)]])%list w),
         (Json.dumps (VDict [("msg", VList (l ++ [message "user" (VStr query)]));
                             ("metadata", VDict [])])),
         (set_heap (heap w ++ [l ++ [message "user" (VStr query)]])%list w).
  split; [ reflexivity | ]. split.
  - unfold dumps_payload, deref, bind, ret. cbn.
    rewrite lookup_app_r by reflexivity. rewrite Nat.sub_diag. reflexivity.
  - unfold sent_messages. rewrite JsonFacts.loads_dumps; [ reflexivity | ].
    cbn [wf_value map fst snd distinct existsb forallb]. rewrite forallb_app, Hwf. reflexivity.
Qed.

Lemma payload_body_reads_back_witness :
  exists p w' body w'',
    get_payload "next" (VList Scenario.three_messages) Scenario.fresh_world = (Ok p, w')
    /\ dumps_payload p w' = (Ok body, w'')
    /\ sent_messages body
       = Some (Scenario.three_messages ++ [message "user" (VStr "next")])%list.
Proof.
  apply (payload_body_reads_back "next" Scenario.three_messages Scenario.fresh_world).
  reflexivity.
Defined.

End PayloadMore.

Module CaretMore.

Import Str Sys Minishellai Props Frame FrameFacts StrMore.

(** A step that keeps the world ends in the world it started from. *)
Ltac same_world K H :=
  let E := fresh in
  pose proof K as E; rewrite H in E; cbn [snd] in E;
  match type of E with _ = ?x => subst x end.

(** X10. Whenever [handle_caret] returns, it has changed nothing, and
    what it returns is either the query itself, when no marker is in it,
    or a text made of ["Context data: "], some context, a line break,
    ["Question: "] and the query with its markers replaced, in which no
    marker is left. *)
Theorem handle_caret_returns (query : string) (config : value) (w w' : world) (q : string) :
  handle_caret query config w = (Ok q, w') ->
  w' = w
  /\ (contains "^" query = false /\ q = query
      \/ contains "^" query = true
         /\ contains "^" (replace "^" EmptyString query) = false
         /\ exists output,
              q = "Context data: " +:+ output +:+ newline +:+ "Question: "
                  +:+ replace "^" EmptyString query).
Proof.
  unfold handle_caret. destruct (contains "^" query) eqn:Hq; cbn [negb].
  - intros H. unfold bind in H.
    destruct (dict_get config "output_capture_settings" (VDict []) w)
      as [[ocs | e | ] w1] eqn:H1; try discriminate.
    same_world (keeps_dict_get eq (@eq_refl world) config
                  "output_capture_settings" (VDict []) w) H1.
    destruct (dict_get ocs "captured_output_file" default_output_file w)
      as [[file | e | ] w2] eqn:H2; try discriminate.
    same_world (keeps_dict_get eq (@eq_refl world) ocs
                  "captured_output_file" default_output_file w) H2.
    destruct (os_path_exists file w) as [[found | e | ] w3] eqn:H3; try discriminate.
    same_world (keeps_os_path_exists eq (@eq_refl world) file w) H3.
    destruct found; cbn in H; [ | discriminate ].
    destruct (dict_get ocs "prompt_separator" (VStr "$") w)
      as [[sep | e | ] w4] eqn:H4; try discriminate.
    same_world (keeps_dict_get eq (@eq_refl world) ocs "prompt_separator" (VStr "$") w) H4.
    destruct (read_text file w) as [[text | e | ] w5] eqn:H5; try discriminate.
    same_world (keeps_read_text eq (@eq_refl world) file w) H5.
    destruct (str_split text sep w) as [[pieces | e | ] w6] eqn:H6; try discriminate.
    same_world (keeps_str_split eq (@eq_refl world) text sep w) H6.
    destruct (getitem_last pieces w) as [[piece | e | ] w7] eqn:H7; try discriminate.
    same_world (keeps_getitem_last eq (@eq_refl world) pieces w) H7.
    cbn in H. injection H as <- <-. split; [ reflexivity | ]. right.
    split; [ reflexivity | ]. split; [ apply CaretFacts.no_marker_left | ].
    eexists. reflexivity.
  - intros H. injection H as <- <-. split; [ reflexivity | ]. left. split; reflexivity.
Qed.

Lemma handle_caret_returns_witness :
  Scenario.captured_world = Scenario.captured_world
  /\ (contains "^" "tell me about ^" = false
      /\ "Context data: pwd" +:+ newline +:+ "/home" +:+ newline
         +:+ "Question: tell me about " = "tell me about ^"
      \/ contains "^" "tell me about ^" = true
         /\ contains "^" (replace "^" EmptyString "tell me about ^") = false
         /\ exists output,
              "Context data: pwd" +:+ newline +:+ "/home" +:+ newline
              +:+ "Question: tell me about "
              = "Context data: " +:+ output +:+ newline +:+ "Question: "
                +:+ replace "^" EmptyString "tell me about ^").
Proof.
  apply (handle_caret_returns "tell me about ^" (VDict []) Scenario.captured_world
           Scenario.captured_world).
  vm_compute. reflexivity.
Defined.

(** X11. When the separator does not occur in the captured output, the
    whole file, stripped, is the context. *)
Theorem handle_caret_separator_absent
    (query : string) (d o : list (string * value)) (w : world)
    (path sep text : string) :
  contains "^" query = true ->
  lookup_default d "output_capture_settings" (VDict []) = VDict o ->
  lookup_default o "captured_output_file" default_output_file = VStr path ->
  lookup_default o "prompt_separator" (VStr "$") = VStr sep ->
  truthy (VStr sep) = true ->
  lookup_file w path = Some text ->
  contains sep text = false ->
  handle_caret query (VDict d) w
  = (Ok ("Context data: " +:+ strip text +:+ newline
         +:+ "Question: " +:+ replace "^" EmptyString query), w).
Proof.
  intros Hq Hocs Hfile Hsep Hne Htext Habsent.
  apply (CaretFacts.handle_caret_found query d o w path sep text [text] text);
    try assumption; [ | reflexivity ].
  unfold split. destruct sep as [ | c s ]; [ discriminate | ].
  rewrite split_scan_absent by exact Habsent. reflexivity.
Qed.


Lemma handle_caret_separator_absent_witness :
  handle_caret "what is ^" (VDict []) Cases.plain_capture_world
  = (Ok ("Context data: " +:+ strip "plain output " +:+ newline
         +:+ "Question: " +:+ replace "^" EmptyString "what is ^"),
     Cases.plain_capture_world).
Proof.
  apply (handle_caret_separator_absent "what is ^" [] [] Cases.plain_capture_world
           "/tmp/minishellai_output.txt" "$" "plain output ").
  - reflexivity.
  - reflexivity.
  - reflexivity.
  - reflexivity.
  - reflexivity.
  - reflexivity.
  - reflexivity.
Defined.

(** X12. An empty prompt separator in the configuration makes
    [handle_caret] raise [ValueError] at the split; [handle_query] does
    not catch it and sends nothing. *)
Theorem handle_caret_empty_separator
    (query : string) (d o : list (string * value)) (w : world) (path text : string) :
  contains "^" query = true ->
  lookup_default d "output_capture_settings" (VDict []) = VDict o ->
  lookup_default o "captured_output_file" default_output_file = VStr path ->
  lookup_default o "prompt_separator" (VStr "$") = VStr EmptyString ->
  lookup_file w path = Some text ->
  handle_caret query (VDict d) w = (Raise ValueError, w)
  /\ forall E : env, handle_query E query (VDict d) w = (Raise ValueError, w).
Proof.
  intros Hq Hocs Hfile Hsep Htext.
  assert (handle_caret query (VDict d) w = (Raise ValueError, w)) as Hc.
  { unfold handle_caret, bind, dict_get, ret. rewrite Hq. cbn [negb].
    rewrite Hocs, Hfile, Hsep. unfold os_path_exists, read_text. cbv beta iota.
    rewrite Htext. cbn [negb]. cbv beta iota. rewrite Htext. reflexivity. }
  split; [ exact Hc | ]. intros E. unfold handle_query, bind. rewrite Hc. reflexivity.
Qed.

Lemma handle_caret_empty_separator_witness :
  handle_caret "what is ^" (VDict Cases.empty_separator_conf) Scenario.captured_world
  = (Raise ValueError, Scenario.captured_world)
  /\ forall E : env,
       handle_query E "what is ^" (VDict Cases.empty_separator_conf) Scenario.captured_world
       = (Raise ValueError, Scenario.captured_world).
Proof.
  apply (handle_caret_empty_separator "what is ^" Cases.empty_separator_conf
           [("prompt_separator", VStr EmptyString)] Scenario.captured_world
           "/tmp/minishellai_output.txt" Scenario.captured_text).
  - reflexivity.
  - reflexivity.
  - reflexivity.
  - reflexivity.
  - reflexivity.
Defined.

(** X13. With a captured-output file and a prompt separator that is
    not empty, [handle_caret] always returns for a query with a marker:
    the split never comes back empty. The context it inserts is
    stripped and holds no occurrence of the separator. *)
Theorem handle_caret_context_clean
    (query : string) (d o : list (string * value)) (w : world)
    (path sep text : string) :
  contains "^" query = true ->
  lookup_default d "output_capture_settings" (VDict []) = VDict o ->
  lookup_default o "captured_output_file" default_output_file = VStr path ->
  lookup_default o "prompt_separator" (VStr "$") = VStr sep ->
  sep <> EmptyString ->
  lookup_file w path = Some text ->
  exists output,
    handle_caret query (VDict d) w
    = (Ok ("Context data: " +:+ output +:+ newline
           +:+ "Question: " +:+ replace "^" EmptyString query), w)
    /\ contains sep output = false
    /\ strip output = output.
Proof.
  intros Hq Hocs Hfile Hsep Hne Htext.
  destruct (split sep text) as [pieces | ] eqn:Hsplit;
    [ | destruct sep; [ congruence | unfold split in Hsplit;
                        destruct (split_scan _ O text); discriminate ] ].
  destruct (split_last sep text pieces Hsplit) as (piece & Hlast & Hclean).
  exists (strip piece). split; [ | split ].
  - apply (CaretFacts.handle_caret_found query d o w path sep text pieces piece);
      assumption.
  - apply contains_strip, Hclean.
  - apply strip_strip.
Qed.

Lemma handle_caret_context_clean_witness :
  exists output,
    handle_caret "tell me about ^" (VDict []) Scenario.captured_world
    = (Ok ("Context data: " +:+ output +:+ newline
           +:+ "Question: " +:+ replace "^" EmptyString "tell me about ^"),
       Scenario.captured_world)
    /\ contains "$" output = false
    /\ strip output = output.
Proof.
  apply (handle_caret_context_clean "tell me about ^" [] [] Scenario.captured_world
           "/tmp/minishellai_output.txt" "$" Scenario.captured_text).
  - reflexivity.
  - reflexivity.
  - reflexivity.
  - reflexivity.
  - discriminate.
  - reflexivity.
Defined.

End CaretMore.

(** * More on the orchestrator *)

Module QueryMore.

Import Str Sys Minishellai Props Frame FrameFacts.

(** The request and the reading of its answer, when the backend gives no
    usable answer: the step never returns and leaves files and output as
    they were. *)
Lemma post_without_answer {B} (E : env) (url : value) (body : string) (k : value -> M B) :
  no_answer E ->
  let step :=
    bind (requests_post E url body) (fun response =>
    bind (raise_for_status response) (fun _ =>
    bind (response_json response) k)) in
  fails step /\ keeps same_output step.
Proof.
  intros Hna step.
  assert (forall w, (exists e, fst (step w) = Raise e) /\ same_output w (snd (step w))) as H.
  { intros w. unfold step, bind, requests_post.
    destruct url as [ | b | z | u | l | d ];
      try (split; [ eexists; reflexivity | apply same_output_refl ]).
    specialize (Hna u body). destruct (http_post E u body) as [[status text] | ].
    - unfold raise_for_status, response_json, json_loads.
      destruct ((400 <=? status) && (status <? 600)) eqn:Hs.
      + split; [ eexists; reflexivity | repeat split ].
      + destruct Hna as [Hna | Hna]; [ discriminate | ]. rewrite Hna.
        split; [ eexists; reflexivity | repeat split ].
    - split; [ eexists; reflexivity | repeat split ]. }
  split.
  - intros w a Hok. destruct (H w) as [[e He] _]. congruence.
  - intros w. apply H.
Qed.

(** X14. When the backend gives no usable answer (the transport fails,
    the status is an error, or the body is no JSON), [handle_query]
    never returns normally, prints nothing and writes no file, whatever
    the query, the configuration and the state of the files. *)
Theorem handle_query_without_answer (E : env) (query : string) (config : value) :
  no_answer E ->
  fails (handle_query E query config)
  /\ keeps same_output (handle_query E query config).
Proof.
  intros Hna.
  pose proof same_output_refl as Hr. pose proof same_output_trans as Ht.
  pose proof keeps_logging_output as Hlog.
  unfold handle_query. split.
  - apply fails_bind_r. intros q. apply fails_bind_r. intros _.
    apply fails_bind_r. intros bs. apply fails_bind_r. intros url.
    apply fails_try_except.
    + apply fails_bind_r. intros hc. apply fails_bind_r. intros history.
      apply fails_bind_r. intros p. apply fails_bind_r. intros _.
      apply fails_bind_r. intros body.
      apply (post_without_answer E url body _ Hna).
    + intros e. apply fails_bind_r. intros _. apply fails_raise.
  - apply keeps_bind; [ auto | | intros q ].
    { apply keeps_handle_caret; auto. }
    apply keeps_bind; [ auto | apply Hlog | intros _ ].
    apply keeps_bind; [ auto | apply keeps_dict_get; auto | intros bs ].
    apply keeps_bind; [ auto | apply keeps_dict_get; auto | intros url ].
    apply keeps_try_except; [ auto | | ].
    + apply keeps_bind; [ auto | apply keeps_dict_get; auto | intros hc ].
      apply keeps_bind; [ auto | apply keeps_read_history; auto | intros history ].
      apply keeps_bind; [ auto | | intros p ].
      { unfold get_payload.
        apply keeps_bind; [ auto | apply keeps_unpack; auto | intros items ].
        apply keeps_bind; [ auto | apply keeps_new_list | intros r ].
        apply keeps_ret; auto. }
      apply keeps_bind; [ auto | apply Hlog | intros _ ].
      apply keeps_bind; [ auto | | intros body ].
      { unfold dumps_payload.
        apply keeps_bind; [ auto | apply keeps_deref; auto | intros items ].
        apply keeps_ret; auto. }
      apply (post_without_answer E url body _ Hna).
    + intros e. apply keeps_bind; [ auto | apply Hlog | intros _ ]. apply keeps_raise; auto.
Qed.

Lemma handle_query_without_answer_witness :
  fails (handle_query Cases.env_down "hello" (VDict []))
  /\ keeps same_output (handle_query Cases.env_down "hello" (VDict [])).
Proof.
  apply (handle_query_without_answer Cases.env_down "hello" (VDict [])).
  intros url body. simpl. exact I.
Defined.

(** Symbolic evaluation that leaves lookups, the codec and the history
    store folded. *)
Ltac eval_query :=
  cbn -[lookup_default truthy Json.dumps Json.loads lookup_file writable contains
        String.append Z.leb Z.ltb read_history write_history dict_get].

(** A query without marker is left as it is. *)
Lemma handle_caret_plain (query : string) (config : value) (w : world) :
  contains "^" query = false -> handle_caret query config w = (Ok query, w).
Proof. intros Hq. unfold handle_caret. rewrite Hq. reflexivity. Qed.

(** The run of [handle_query] up to the request, when [handle_caret]
    gives the query [q]: the history [h] read and the payload built from
    [h] and [q]. What is left is to send the request and to deal with
    the answer. *)
Lemma handle_query_ready
    (E : env) (w : world) (query q : string) (d b hc : list (string * value))
    (url : string) (h : list value) :
  handle_caret query (VDict d) w = (Ok q, w) ->
  lookup_default d "backend_service" (VDict []) = VDict b ->
  lookup_default b "query_endpoint" default_endpoint = VStr url ->
  lookup_default d "history" (VDict []) = VDict hc ->
  fst (read_history (VDict hc) w) = Ok (VList h) ->
  let sent := (h ++ [message "user" (VStr q)])%list in
  let body := Json.dumps (VDict [("msg", VList sent); ("metadata", VDict [])]) in
  exists (r : loc) (w3 : world),
    handle_query E query (VDict d) w
    = try_except
        (let* response := requests_post E (VStr url) body in
         raise_for_status response ;;
         let* completion := response_json response in
         let* response_data := dict_get completion "data" VNone in
         write_history (VDict hc) r response_data ;;
         print response_data)
        is_RequestException
        (fun e => logging ERROR [Lit "Failed to get response from AI: "; Exc e] ;; exit 1)
        w3
    /\ same_output w w3
    /\ heap w3 !! r = Some sent
    /\ posts w3 = posts w.
Proof.
  intros Hq Hbs Hurl Hh Hread sent body.
  set (w0 := snd (logging INFO [Lit "Query:"; Lit newline; Lit q] w)).
  destruct (read_history (VDict hc) w0) as [r0 w2] eqn:Hr.
  pose proof (keeps_read_history same_store same_store_refl same_store_trans
                keeps_logging (VDict hc) w0) as Hkeep.
  pose proof (read_history_ext (VDict hc) w w0 eq_refl) as Hfst. rewrite Hread in Hfst.
  rewrite Hr in Hkeep, Hfst. cbn [fst snd] in Hkeep, Hfst. subst r0.
  destruct Hkeep as (Hf & Hc & Hheap & Hout & Hposts).
  exists (length (heap w2)).
  exists (World (files w2) (can_write w2) (heap w2 ++ [sent]) (stdout w2) (stderr w2)
            (log w2 ++ [(INFO, [Lit "Waiting for response from AI..."])]) (posts w2)).
  split; [ | split; [ | split ] ].
  - unfold handle_query.
    rewrite (bind_ok _ _ w w q) by exact Hq.
    rewrite (bind_ok _ _ w w0 tt) by reflexivity.
    rewrite (bind_ok _ _ w0 w0 (VDict b)) by (cbn [dict_get]; rewrite Hbs; reflexivity).
    rewrite (bind_ok _ _ w0 w0 (VStr url)) by (cbn [dict_get]; rewrite Hurl; reflexivity).
    rewrite (try_bind_ok _ _ _ _ w0 w0 (VDict hc))
      by (cbn [dict_get]; rewrite Hh; reflexivity).
    rewrite (try_bind_ok _ _ _ _ w0 w2 (VList h)) by exact Hr.
    rewrite (try_bind_ok _ _ _ _ w2 (set_heap (heap w2 ++ [sent]) w2)
               (Payload (length (heap w2)) (VDict []))) by reflexivity.
    erewrite try_bind_ok by reflexivity.
    erewrite try_bind_ok
      by (unfold dumps_payload, deref, bind; cbn;
          rewrite lookup_app_r by reflexivity; rewrite Nat.sub_diag; reflexivity).
    reflexivity.
  - repeat split; cbn; assumption.
  - cbn. rewrite lookup_app_r by reflexivity. rewrite Nat.sub_diag. reflexivity.
  - exact Hposts.
Qed.

(** The run of [handle_query] up to the answer of the backend: the
    request sent, the answer [v] parsed. What is left is to take the
    data out of [v], write the history and print. *)
Lemma handle_query_answered
    (E : env) (w : world) (query q : string) (d b hc : list (string * value))
    (url : string) (status : Z) (answer : string) (h : list value) (v : value) :
  handle_caret query (VDict d) w = (Ok q, w) ->
  lookup_default d "backend_service" (VDict []) = VDict b ->
  lookup_default b "query_endpoint" default_endpoint = VStr url ->
  lookup_default d "history" (VDict []) = VDict hc ->
  fst (read_history (VDict hc) w) = Ok (VList h) ->
  (forall body, http_post E url body = Some (Response status answer)) ->
  (400 <=? status) && (status <? 600) = false ->
  Json.loads answer = Json.Parsed v ->
  let sent := (h ++ [message "user" (VStr q)])%list in
  exists (r : loc) (w3 : world),
    handle_query E query (VDict d) w
    = try_except
        (let* response_data := dict_get v "data" VNone in
         write_history (VDict hc) r response_data ;;
         print response_data)
        is_RequestException
        (fun e => logging ERROR [Lit "Failed to get response from AI: "; Exc e] ;; exit 1)
        w3
    /\ same_output w w3
    /\ heap w3 !! r = Some sent
    /\ posts w3
       = (posts w ++ [(url, Json.dumps (VDict [("msg", VList sent); ("metadata", VDict [])]))])%list.
Proof.
  intros Hq Hbs Hurl Hh Hread Hpost Hstatus Hjson sent.
  destruct (handle_query_ready E w query q d b hc url h Hq Hbs Hurl Hh Hread)
    as (r & w3 & Heq & (Hf & Hc & Hout) & Hheap & Hposts).
  exists r.
  exists (World (files w3) (can_write w3) (heap w3) (stdout w3) (stderr w3) (log w3)
            (posts w3 ++ [(url, Json.dumps (VDict [("msg", VList sent);
                                                   ("metadata", VDict [])]))])).
  split; [ | split; [ | split ] ].
  - rewrite Heq.
    erewrite try_bind_ok by (unfold requests_post; rewrite Hpost; reflexivity).
    erewrite try_bind_ok by (unfold raise_for_status; rewrite Hstatus; reflexivity).
    erewrite try_bind_ok by (unfold response_json, json_loads; rewrite Hjson; reflexivity).
    reflexivity.
  - repeat split; cbn; assumption.
  - exact Hheap.
  - cbn. rewrite Hposts. reflexivity.
Qed.

(** A whole exchange with the history kept in a file that can be
    written: the answer is printed, and the file holds the history read,
    the query and the answer. *)
Lemma handle_query_exchange
    (E : env) (w : world) (query q : string) (d b hc c : list (string * value))
    (url path : string) (status : Z) (answer : string) (h : list value) :
  handle_caret query (VDict d) w = (Ok q, w) ->
  lookup_default d "backend_service" (VDict []) = VDict b ->
  lookup_default b "query_endpoint" default_endpoint = VStr url ->
  lookup_default d "history" (VDict []) = VDict hc ->
  fst (read_history (VDict hc) w) = Ok (VList h) ->
  history_enabled hc = true ->
  lookup_default hc "filepath" default_history_file = VStr path ->
  writable w path = true ->
  (forall body, http_post E url body = Some (Response status answer)) ->
  (400 <=? status) && (status <? 600) = false ->
  Json.loads answer = Json.Parsed (VDict c) ->
  let data := lookup_default c "data" VNone in
  let out := handle_query E query (VDict d) w in
  fst out = Ok tt
  /\ stdout (snd out) = (stdout w ++ [data])%list
  /\ files (snd out)
     = <[path := Json.dumps (VList (h ++ [message "user" (VStr q);
                                          message "assistant" data]))]>
         (<[path := EmptyString]> (files w))
  /\ posts (snd out)
     = (posts w ++ [(url, Json.dumps (VDict [("msg", VList (h ++ [message "user" (VStr q)]));
                                             ("metadata", VDict [])]))])%list.
Proof.
  intros Hq Hbs Hurl Hh Hread Hen Hpath Hcan Hpost Hstatus Hjson data out.
  destruct (handle_query_answered E w query q d b hc url status answer h (VDict c)
              Hq Hbs Hurl Hh Hread Hpost Hstatus Hjson)
    as (r & w3 & Heq & (Hf & Hc & Hout) & Hheap & Hposts).
  subst out. rewrite Heq.
  rewrite (try_bind_ok _ _ _ _ w3 w3 data) by reflexivity.
  assert (writable w3 path = true) as Hcan3
    by (rewrite (SysFacts.writable_ext w) by exact Hc; exact Hcan).
  pose proof (HistoryFacts.write_history_written hc w3 path r
                (h ++ [message "user" (VStr q)])%list data Hen Hpath Hcan3 Hheap) as Hw.
  cbv zeta in Hw. rewrite (try_bind_ok _ _ _ _ _ _ _ Hw).
  cbn. rewrite Hf, Hout, Hposts, <- app_assoc. repeat split.
Qed.

(** X15. With history disabled, a query without marker that the backend
    answers with a JSON object is sent alone, the ["data"] entry of the
    answer ([None] when there is none) is printed, and no file is
    written. *)
Theorem handle_query_prints_answer
    (E : env) (w : world) (query : string) (d b hc c : list (string * value))
    (url : string) (status : Z) (answer : string) :
  contains "^" query = false ->
  lookup_default d "backend_service" (VDict []) = VDict b ->
  lookup_default b "query_endpoint" default_endpoint = VStr url ->
  lookup_default d "history" (VDict []) = VDict hc ->
  history_enabled hc = false ->
  (forall body, http_post E url body = Some (Response status answer)) ->
  (400 <=? status) && (status <? 600) = false ->
  Json.loads answer = Json.Parsed (VDict c) ->
  let out := handle_query E query (VDict d) w in
  fst out = Ok tt
  /\ stdout (snd out) = (stdout w ++ [lookup_default c "data" VNone])%list
  /\ files (snd out) = files w
  /\ posts (snd out)
     = (posts w ++ [(url, Json.dumps (VDict [("msg", VList [message "user" (VStr query)]);
                                             ("metadata", VDict [])]))])%list.
Proof.
  intros Hq Hbs Hurl Hh Hen Hpost Hstatus Hjson out.
  assert (forall w0, read_history (VDict hc) w0 = (Ok (VList []), w0)) as Hread.
  { intros w0. unfold read_history, bind, dict_get, ret. unfold history_enabled in Hen.
    rewrite Hen. reflexivity. }
  assert (forall r v w0, write_history (VDict hc) r v w0 = (Ok tt, w0)) as Hwrite.
  { intros r v w0. unfold write_history, bind, dict_get, ret. unfold history_enabled in Hen.
    rewrite Hen. reflexivity. }
  destruct (handle_query_answered E w query query d b hc url status answer [] (VDict c)
              (handle_caret_plain query (VDict d) w Hq) Hbs Hurl Hh ltac:(rewrite Hread; reflexivity) Hpost Hstatus Hjson)
    as (r & w3 & Heq & (Hf & Hc & Hout) & Hheap & Hposts).
  subst out. rewrite Heq.
  rewrite (try_bind_ok _ _ _ _ w3 w3 (lookup_default c "data" VNone)) by reflexivity.
  rewrite (try_bind_ok _ _ _ _ w3 w3 tt) by apply Hwrite.
  cbn. rewrite Hf, Hout, Hposts. repeat split.
Qed.

Lemma handle_query_prints_answer_witness :
  let out := handle_query (Scenario.env_with None) "hello" (VDict []) Scenario.fresh_world in
  fst out = Ok tt
  /\ stdout (snd out)
     = (stdout Scenario.fresh_world ++ [lookup_default [("data", VStr "hi")] "data" VNone])%list
  /\ files (snd out) = files Scenario.fresh_world
  /\ posts (snd out)
     = (posts Scenario.fresh_world
        ++ [("http://0.0.0.0:8080/api/v1/query/",
             Json.dumps (VDict [("msg", VList [message "user" (VStr "hello")]);
                                ("metadata", VDict [])]))])%list.
Proof.
  apply (handle_query_prints_answer (Scenario.env_with None) Scenario.fresh_world "hello"
           [] [] [] [("data", VStr "hi")] "http://0.0.0.0:8080/api/v1/query/" 200
           Scenario.answer_hi).
  - reflexivity.
  - reflexivity.
  - reflexivity.
  - reflexivity.
  - reflexivity.
  - reflexivity.
  - reflexivity.
  - vm_compute. reflexivity.
Defined.

(** X16. The first exchange with history enabled: no history file yet,
    the backend answers with a JSON object. The answer is printed and
    the history file is created with two entries, the query as "user"
    and the answer as "assistant"; no other file changes. *)
Theorem handle_query_first_exchange
    (E : env) (w : world) (query : string) (d b hc c : list (string * value))
    (url path : string) (status : Z) (answer : string) :
  contains "^" query = false ->
  lookup_default d "backend_service" (VDict []) = VDict b ->
  lookup_default b "query_endpoint" default_endpoint = VStr url ->
  lookup_default d "history" (VDict []) = VDict hc ->
  history_enabled hc = true ->
  lookup_default hc "filepath" default_history_file = VStr path ->
  lookup_file w path = None ->
  writable w path = true ->
  (forall body, http_post E url body = Some (Response status answer)) ->
  (400 <=? status) && (status <? 600) = false ->
  Json.loads answer = Json.Parsed (VDict c) ->
  let data := lookup_default c "data" VNone in
  let out := handle_query E query (VDict d) w in
  fst out = Ok tt
  /\ stdout (snd out) = (stdout w ++ [data])%list
  /\ lookup_file (snd out) path
     = Some (Json.dumps (VList [message "user" (VStr query); message "assistant" data]))
  /\ (forall p, p <> path -> files (snd out) !! p = files w !! p).
Proof.
  intros Hq Hbs Hurl Hh Hen Hpath Hnone Hcan Hpost Hstatus Hjson data out.
  destruct (handle_query_exchange E w query query d b hc c url path status answer []
              (handle_caret_plain query (VDict d) w Hq) Hbs Hurl Hh
              ltac:(rewrite (QueryFacts.read_history_missing hc w path Hen Hpath Hnone);
                    reflexivity)
              Hen Hpath Hcan Hpost Hstatus Hjson)
    as (Hok & Hout & Hfiles & _).
  fold out in Hok, Hout, Hfiles. fold data in Hout, Hfiles.
  repeat split; try assumption.
  - destruct path as [ | ch p ]; [ discriminate | ].
    cbn [lookup_file]. rewrite Hfiles. apply lookup_insert_eq.
  - intros p Hp. rewrite Hfiles, !lookup_insert_ne by congruence. reflexivity.
Qed.

Lemma handle_query_first_exchange_witness :
  let data := lookup_default [("data", VStr "hi")] "data" VNone in
  let out := handle_query (Scenario.env_with None) "hello"
               (VDict [("history", VDict Cases.enabled_conf)]) Scenario.fresh_world in
  fst out = Ok tt
  /\ stdout (snd out) = (stdout Scenario.fresh_world ++ [data])%list
  /\ lookup_file (snd out) "/tmp/minishellai_history.json"
     = Some (Json.dumps (VList [message "user" (VStr "hello"); message "assistant" data]))
  /\ (forall p, p <> "/tmp/minishellai_history.json" ->
      files (snd out) !! p = files Scenario.fresh_world !! p).
Proof.
  apply (handle_query_first_exchange (Scenario.env_with None) Scenario.fresh_world "hello"
           [("history", VDict Cases.enabled_conf)] [] Cases.enabled_conf
           [("data", VStr "hi")] "http://0.0.0.0:8080/api/v1/query/"
           "/tmp/minishellai_history.json" 200 Scenario.answer_hi).
  - reflexivity.
  - reflexivity.
  - reflexivity.
  - reflexivity.
  - reflexivity.
  - reflexivity.
  - reflexivity.
  - reflexivity.
  - reflexivity.
  - reflexivity.
  - vm_compute. reflexivity.
Defined.

(** X17. A later exchange: the history file holds a list [l]. The
    request carries [l[:max_size]] and the query, and the file is
    rewritten with [l[:max_size]], the query and the answer: what the
    read cut off is gone from the file, which never holds more than
    [max_size + 2] entries after an exchange. *)
Theorem handle_query_later_exchange
    (E : env) (w : world) (query : string) (d b hc c : list (string * value))
    (url path text : string) (status : Z) (answer : string)
    (l : list value) (max_size : Z) :
  contains "^" query = false ->
  lookup_default d "backend_service" (VDict []) = VDict b ->
  lookup_default b "query_endpoint" default_endpoint = VStr url ->
  lookup_default d "history" (VDict []) = VDict hc ->
  history_enabled hc = true ->
  lookup_default hc "filepath" default_history_file = VStr path ->
  lookup_default hc "max_size" (VInt 100) = VInt max_size ->
  0 <= max_size ->
  lookup_file w path = Some text ->
  Json.loads text = Json.Parsed (VList l) ->
  writable w path = true ->
  (forall body, http_post E url body = Some (Response status answer)) ->
  (400 <=? status) && (status <? 600) = false ->
  Json.loads answer = Json.Parsed (VDict c) ->
  let data := lookup_default c "data" VNone in
  let kept := firstn (Z.to_nat max_size) l in
  let written := (kept ++ [message "user" (VStr query); message "assistant" data])%list in
  let out := handle_query E query (VDict d) w in
  fst out = Ok tt
  /\ posts (snd out)
     = (posts w ++ [(url, Json.dumps (VDict [("msg", VList (kept ++ [message "user" (VStr query)]));
                                             ("metadata", VDict [])]))])%list
  /\ lookup_file (snd out) path = Some (Json.dumps (VList written))
  /\ Z.of_nat (length written) <= max_size + 2.
Proof.
  intros Hq Hbs Hurl Hh Hen Hpath Hmax Hpos Hfile Hl Hcan Hpost Hstatus Hjson
    data kept written out.
  destruct (handle_query_exchange E w query query d b hc c url path status answer kept
              (handle_caret_plain query (VDict d) w Hq) Hbs Hurl Hh
              ltac:(rewrite (HistoryFacts.read_history_stored hc w path text l max_size)
                      by assumption;
                    rewrite HistoryFacts.slice_to_nonneg by assumption; reflexivity)
              Hen Hpath Hcan Hpost Hstatus Hjson)
    as (Hok & _ & Hfiles & Hposts).
  fold out in Hok, Hfiles, Hposts. fold data in Hfiles.
  repeat split; try assumption.
  - destruct path as [ | ch p ]; [ discriminate | ].
    cbn [lookup_file]. rewrite Hfiles. apply lookup_insert_eq.
  - subst written kept. rewrite length_app, length_take. cbn [length]. lia.
Qed.

Lemma handle_query_later_exchange_witness :
  let data := lookup_default [("data", VStr "hi")] "data" VNone in
  let kept := firstn (Z.to_nat 2) Scenario.three_messages in
  let written := (kept ++ [message "user" (VStr "hello"); message "assistant" data])%list in
  let out := handle_query (Scenario.env_with None) "hello"
               (Scenario.config_with_history 2) Scenario.stored_world in
  fst out = Ok tt
  /\ posts (snd out)
     = (posts Scenario.stored_world
        ++ [("http://0.0.0.0:8080/api/v1/query/",
             Json.dumps (VDict [("msg", VList (kept ++ [message "user" (VStr "hello")]));
                                ("metadata", VDict [])]))])%list
  /\ lookup_file (snd out) "/tmp/minishellai_history.json" = Some (Json.dumps (VList written))
  /\ Z.of_nat (length written) <= 2 + 2.
Proof.
  apply (handle_query_later_exchange (Scenario.env_with None) Scenario.stored_world "hello"
           [("history", VDict (Scenario.history_conf 2))] [] (Scenario.history_conf 2)
           [("data", VStr "hi")] "http://0.0.0.0:8080/api/v1/query/"
           "/tmp/minishellai_history.json"
           (Json.dumps (VList Scenario.three_messages)) 200 Scenario.answer_hi
           Scenario.three_messages 2).
  - reflexivity.
  - reflexivity.
  - reflexivity.
  - reflexivity.
  - reflexivity.
  - reflexivity.
  - reflexivity.
  - lia.
  - reflexivity.
  - vm_compute. reflexivity.
  - reflexivity.
  - reflexivity.
  - reflexivity.
  - vm_compute. reflexivity.
Defined.

(** X18. An answer that is a JSON document but no object (a list, a
    string, a number, [null]) ends [handle_query] with the
    [AttributeError] of [completion.get], which its [except] clause does
    not catch: the request was sent, nothing is printed and no file is
    written. *)
Theorem handle_query_answer_not_an_object
    (E : env) (w : world) (query : string) (d b hc : list (string * value))
    (url : string) (status : Z) (answer : string) (h : list value) (v : value) :
  contains "^" query = false ->
  lookup_default d "backend_service" (VDict []) = VDict b ->
  lookup_default b "query_endpoint" default_endpoint = VStr url ->
  lookup_default d "history" (VDict []) = VDict hc ->
  fst (read_history (VDict hc) w) = Ok (VList h) ->
  (forall body, http_post E url body = Some (Response status answer)) ->
  (400 <=? status) && (status <? 600) = false ->
  Json.loads answer = Json.Parsed v ->
  Cases.is_dict v = false ->
  let out := handle_query E query (VDict d) w in
  fst out = Raise AttributeError
  /\ stdout (snd out) = stdout w
  /\ files (snd out) = files w
  /\ length (posts (snd out)) = S (length (posts w)).
Proof.
  intros Hq Hbs Hurl Hh Hread Hpost Hstatus Hjson Hv out.
  destruct (handle_query_answered E w query query d b hc url status answer h v
              (handle_caret_plain query (VDict d) w Hq) Hbs Hurl Hh Hread Hpost Hstatus Hjson)
    as (r & w3 & Heq & (Hf & Hc & Hout) & Hheap & Hposts).
  subst out. rewrite Heq.
  assert (forall k : value -> M unit,
            try_except
                      (bind (dict_get v "data" VNone) k) is_RequestException
                      (fun e => logging ERROR [Lit "Failed to get response from AI: "; Exc e] ;;
                                exit 1) w3
                    = (Raise AttributeError, w3)) as Hget
    by (intros k; destruct v; try discriminate; reflexivity).
  rewrite Hget. cbn [fst snd]. rewrite Hposts, length_app. cbn [length].
  repeat split; try assumption. lia.
Qed.

Lemma handle_query_answer_not_an_object_witness :
  let out := handle_query (Cases.env_answering "[]") "hello" (VDict []) Scenario.fresh_world in
  fst out = Raise AttributeError
  /\ stdout (snd out) = stdout Scenario.fresh_world
  /\ files (snd out) = files Scenario.fresh_world
  /\ length (posts (snd out)) = S (length (posts Scenario.fresh_world)).
Proof.
  apply (handle_query_answer_not_an_object (Cases.env_answering "[]") Scenario.fresh_world
           "hello" [] [] [] "http://0.0.0.0:8080/api/v1/query/" 200 "[]" [] (VList [])).
  - reflexivity.
  - reflexivity.
  - reflexivity.
  - reflexivity.
  - reflexivity.
  - reflexivity.
  - reflexivity.
  - vm_compute. reflexivity.
  - reflexivity.
Defined.

(** X19. The alternation of roles is kept by an exchange that cuts
    nothing: when the stored list alternates from "user", ends with an
    answer and has at most [max_size] entries, the request sent
    alternates from "user" and so does the list written back, which
    ends with an answer again. *)
Theorem handle_query_keeps_alternation
    (E : env) (w : world) (query : string) (d b hc c : list (string * value))
    (url path text : string) (status : Z) (answer : string)
    (l : list value) (max_size : Z) :
  contains "^" query = false ->
  lookup_default d "backend_service" (VDict []) = VDict b ->
  lookup_default b "query_endpoint" default_endpoint = VStr url ->
  lookup_default d "history" (VDict []) = VDict hc ->
  history_enabled hc = true ->
  lookup_default hc "filepath" default_history_file = VStr path ->
  lookup_default hc "max_size" (VInt 100) = VInt max_size ->
  lookup_file w path = Some text ->
  Json.loads text = Json.Parsed (VList l) ->
  writable w path = true ->
  (forall body, http_post E url body = Some (Response status answer)) ->
  (400 <=? status) && (status <? 600) = false ->
  Json.loads answer = Json.Parsed (VDict c) ->
  alternating l = true ->
  Nat.even (length l) = true ->
  Z.of_nat (length l) <= max_size ->
  forallb wf_value l = true ->
  let out := handle_query E query (VDict d) w in
  exists sent written,
    map (fun p => sent_messages (snd p)) (posts (snd out))
    = (map (fun p => sent_messages (snd p)) (posts w) ++ [Some sent])%list
    /\ alternating sent = true
    /\ lookup_file (snd out) path = Some (Json.dumps (VList written))
    /\ alternating written = true
    /\ Nat.even (length written) = true.
Proof.
  intros Hq Hbs Hurl Hh Hen Hpath Hmax Hfile Hl Hcan Hpost Hstatus Hjson
    Halt Heven Hsize Hwf out.
  destruct (handle_query_exchange E w query query d b hc c url path status answer l
              (handle_caret_plain query (VDict d) w Hq) Hbs Hurl Hh
              ltac:(rewrite (HistoryFacts.read_history_stored hc w path text l max_size)
                      by assumption;
                    rewrite HistoryFacts.slice_to_nonneg by lia;
                    rewrite firstn_all2 by lia; reflexivity)
              Hen Hpath Hcan Hpost Hstatus Hjson)
    as (_ & _ & Hfiles & Hposts).
  fold out in Hfiles, Hposts.
  exists (l ++ [message "user" (VStr query)])%list,
         (l ++ [message "user" (VStr query);
                message "assistant" (lookup_default c "data" VNone)])%list.
  assert (alternating (l ++ [message "user" (VStr query)]) = true) as Hsent.
  { unfold alternating in *. rewrite QueryFacts.alternates_snoc, Heven, Halt. reflexivity. }
  split; [ | split; [ exact Hsent | split; [ | split ] ] ].
  - rewrite Hposts, map_app. cbn [map snd]. do 3 f_equal.
    unfold sent_messages. rewrite JsonFacts.loads_dumps; [ reflexivity | ].
    cbn [wf_value map fst snd distinct existsb forallb]. rewrite forallb_app, Hwf. reflexivity.
  - destruct path as [ | ch p ]; [ discriminate | ].
    cbn [lookup_file]. rewrite Hfiles. apply lookup_insert_eq.
  - change (l ++ [message "user" (VStr query);
                  message "assistant" (lookup_default c "data" VNone)])%list
      with (l ++ [message "user" (VStr query)]
              ++ [message "assistant" (lookup_default c "data" VNone)])%list.
    rewrite app_assoc. unfold alternating in *.
    rewrite QueryFacts.alternates_snoc, Hsent, length_app, Nat.add_comm.
    cbn [length Nat.add]. rewrite Nat.even_succ, <- Nat.negb_even, Heven. reflexivity.
  - rewrite length_app, Nat.add_comm. cbn [length Nat.add].
    rewrite Nat.even_succ, Nat.odd_succ. exact Heven.
Qed.

Lemma handle_query_keeps_alternation_witness :
  let out := handle_query (Scenario.env_with None) "hello"
               (Scenario.config_with_history 10) Cases.exchanged_world in
  exists sent written,
    map (fun p => sent_messages (snd p)) (posts (snd out))
    = (map (fun p => sent_messages (snd p)) (posts Cases.exchanged_world) ++ [Some sent])%list
    /\ alternating sent = true
    /\ lookup_file (snd out) "/tmp/minishellai_history.json"
       = Some (Json.dumps (VList written))
    /\ alternating written = true
    /\ Nat.even (length written) = true.
Proof.
  apply (handle_query_keeps_alternation (Scenario.env_with None) Cases.exchanged_world "hello"
           [("history", VDict (Scenario.history_conf 10))] [] (Scenario.history_conf 10)
           [("data", VStr "hi")] "http://0.0.0.0:8080/api/v1/query/"
           "/tmp/minishellai_history.json"
           (Json.dumps (VList Cases.two_messages)) 200 Scenario.answer_hi
           Cases.two_messages 10).
  - reflexivity.
  - reflexivity.
  - reflexivity.
  - reflexivity.
  - reflexivity.
  - reflexivity.
  - reflexivity.
  - reflexivity.
  - vm_compute. reflexivity.
  - reflexivity.
  - reflexivity.
  - reflexivity.
  - vm_compute. reflexivity.
  - reflexivity.
  - reflexivity.
  - simpl. lia.
  - reflexivity.
Defined.

(** X20. A backend that gives no usable answer makes a query that
    reached it end the process with status 1: the request was sent, the
    failure is the last error logged, nothing is printed and no file is
    written. *)
Theorem handle_query_backend_failure
    (E : env) (w : world) (query : string) (d b hc : list (string * value))
    (url : string) (h : list value) :
  contains "^" query = false ->
  lookup_default d "backend_service" (VDict []) = VDict b ->
  lookup_default b "query_endpoint" default_endpoint = VStr url ->
  lookup_default d "history" (VDict []) = VDict hc ->
  fst (read_history (VDict hc) w) = Ok (VList h) ->
  no_answer E ->
  let out := handle_query E query (VDict d) w in
  fst out = Raise (SystemExit 1)
  /\ (exists earlier,
        logged_errors (snd out)
        = (earlier ++ [[Lit "Failed to get response from AI: "; Exc RequestException]])%list)
  /\ posts (snd out)
     = (posts w ++ [(url, Json.dumps (VDict [("msg", VList (h ++ [message "user" (VStr query)]));
                                             ("metadata", VDict [])]))])%list
  /\ stdout (snd out) = stdout w
  /\ files (snd out) = files w.
Proof.
  intros Hq Hbs Hurl Hh Hread Hna out.
  destruct (handle_query_ready E w query query d b hc url h
              (handle_caret_plain query (VDict d) w Hq) Hbs Hurl Hh Hread)
    as (r & w3 & Heq & (Hf & Hc & Hout) & Hheap & Hposts).
  subst out. rewrite Heq.
  set (body := Json.dumps (VDict [("msg", VList (h ++ [message "user" (VStr query)]));
                                  ("metadata", VDict [])])).
  specialize (Hna url body).
  unfold try_except, bind, requests_post, raise_for_status, response_json, json_loads.
  destruct (http_post E url body) as [[status text] | ].
  - destruct ((400 <=? status) && (status <? 600)) eqn:Hs.
    + cbn. rewrite Hposts, Hout, Hf. repeat split.
      exists (logged_errors w3). unfold logged_errors.
      rewrite List.filter_app, map_app. reflexivity.
    + destruct Hna as [Hna | Hna]; [ discriminate | ]. rewrite Hna.
      cbn. rewrite Hposts, Hout, Hf. repeat split.
      exists (logged_errors w3). unfold logged_errors.
      rewrite List.filter_app, map_app. reflexivity.
  - cbn. rewrite Hposts, Hout, Hf. repeat split.
    exists (logged_errors w3). unfold logged_errors.
    rewrite List.filter_app, map_app. reflexivity.
Qed.

Lemma handle_query_backend_failure_witness :
  let out := handle_query Cases.env_down "hello" (VDict []) Scenario.fresh_world in
  fst out = Raise (SystemExit 1)
  /\ (exists earlier,
        logged_errors (snd out)
        = (earlier ++ [[Lit "Failed to get response from AI: "; Exc RequestException]])%list)
  /\ posts (snd out)
     = (posts Scenario.fresh_world
        ++ [("http://0.0.0.0:8080/api/v1/query/",
             Json.dumps (VDict [("msg", VList ([] ++ [message "user" (VStr "hello")]));
                                ("metadata", VDict [])]))])%list
  /\ stdout (snd out) = stdout Scenario.fresh_world
  /\ files (snd out) = files Scenario.fresh_world.
Proof.
  apply (handle_query_backend_failure Cases.env_down Scenario.fresh_world "hello"
           [] [] [] "http://0.0.0.0:8080/api/v1/query/" []).
  - reflexivity.
  - reflexivity.
  - reflexivity.
  - reflexivity.
  - reflexivity.
  - intros url body. simpl. exact I.
Defined.

(** X30. What reaches the backend and the history file for a query
    with a marker is the rewritten query: the message sent as "user",
    and stored with the answer, holds the context taken from the
    captured output, not the text the user typed. *)
Theorem handle_query_sends_context
    (E : env) (w : world) (query : string) (d o b hc c : list (string * value))
    (url cpath sep text hpath : string) (pieces : list string) (piece : string)
    (status : Z) (answer : string) (h : list value) :
  contains "^" query = true ->
  lookup_default d "output_capture_settings" (VDict []) = VDict o ->
  lookup_default o "captured_output_file" default_output_file = VStr cpath ->
  lookup_default o "prompt_separator" (VStr "$") = VStr sep ->
  lookup_file w cpath = Some text ->
  split sep text = Some pieces ->
  last pieces = Some piece ->
  lookup_default d "backend_service" (VDict []) = VDict b ->
  lookup_default b "query_endpoint" default_endpoint = VStr url ->
  lookup_default d "history" (VDict []) = VDict hc ->
  fst (read_history (VDict hc) w) = Ok (VList h) ->
  history_enabled hc = true ->
  lookup_default hc "filepath" default_history_file = VStr hpath ->
  writable w hpath = true ->
  (forall body, http_post E url body = Some (Response status answer)) ->
  (400 <=? status) && (status <? 600) = false ->
  Json.loads answer = Json.Parsed (VDict c) ->
  let asked := "Context data: " +:+ strip piece +:+ newline
               +:+ "Question: " +:+ replace "^" EmptyString query in
  let data := lookup_default c "data" VNone in
  let out := handle_query E query (VDict d) w in
  fst out = Ok tt
  /\ posts (snd out)
     = (posts w ++ [(url, Json.dumps (VDict [("msg", VList (h ++ [message "user" (VStr asked)]));
                                             ("metadata", VDict [])]))])%list
  /\ lookup_file (snd out) hpath
     = Some (Json.dumps (VList (h ++ [message "user" (VStr asked);
                                      message "assistant" data])))
  /\ stdout (snd out) = (stdout w ++ [data])%list.
Proof.
  intros Hq Hocs Hfile Hsep Htext Hsplit Hlast Hbs Hurl Hh Hread Hen Hpath Hcan
    Hpost Hstatus Hjson asked data out.
  destruct (handle_query_exchange E w query asked d b hc c url hpath status answer h
              (CaretFacts.handle_caret_found query d o w cpath sep text pieces piece
                 Hq Hocs Hfile Hsep Htext Hsplit Hlast)
              Hbs Hurl Hh Hread Hen Hpath Hcan Hpost Hstatus Hjson)
    as (Hok & Hout & Hfiles & Hposts).
  fold out in Hok, Hout, Hfiles, Hposts. fold data in Hout, Hfiles.
  repeat split; try assumption.
  destruct hpath as [ | ch p ]; [ discriminate | ].
  cbn [lookup_file]. rewrite Hfiles. apply lookup_insert_eq.
Qed.

Lemma handle_query_sends_context_witness :
  let asked := "Context data: " +:+ strip (" pwd" +:+ newline +:+ "/home" +:+ newline)
               +:+ newline +:+ "Question: " +:+ replace "^" EmptyString "where am I ^" in
  let data := lookup_default [("data", VStr "hi")] "data" VNone in
  let out := handle_query (Scenario.env_with None) "where am I ^"
               (VDict [("history", VDict Cases.enabled_conf)]) Scenario.captured_world in
  fst out = Ok tt
  /\ posts (snd out)
     = (posts Scenario.captured_world
        ++ [("http://0.0.0.0:8080/api/v1/query/",
             Json.dumps (VDict [("msg", VList ([] ++ [message "user" (VStr asked)]));
                                ("metadata", VDict [])]))])%list
  /\ lookup_file (snd out) "/tmp/minishellai_history.json"
     = Some (Json.dumps (VList ([] ++ [message "user" (VStr asked);
                                       message "assistant" data])))
  /\ stdout (snd out) = (stdout Scenario.captured_world ++ [data])%list.
Proof.
  apply (handle_query_sends_context (Scenario.env_with None) Scenario.captured_world
           "where am I ^" [("history", VDict Cases.enabled_conf)] [] [] Cases.enabled_conf
           [("data", VStr "hi")] "http://0.0.0.0:8080/api/v1/query/"
           "/tmp/minishellai_output.txt" "$" Scenario.captured_text
           "/tmp/minishellai_history.json"
           [EmptyString;
            " ls" +:+ newline +:+ "file1" +:+ newline +:+ "file2" +:+ newline;
            " pwd" +:+ newline +:+ "/home" +:+ newline]
           (" pwd" +:+ newline +:+ "/home" +:+ newline)
           200 Scenario.answer_hi []).
  - reflexivity.
  - reflexivity.
  - reflexivity.
  - reflexivity.
  - reflexivity.
  - reflexivity.
  - reflexivity.
  - reflexivity.
  - reflexivity.
  - reflexivity.
  - reflexivity.
  - reflexivity.
  - reflexivity.
  - reflexivity.
  - reflexivity.
  - reflexivity.
  - vm_compute. reflexivity.
Defined.

End QueryMore.

(** * More on the command line *)

Module MainMore.

Import Str Sys Minishellai Props Frame FrameFacts StrMore.


(** Evaluation of [main] that leaves the configuration and the calls
    it ends with folded. *)
Ltac eval_main :=
  cbn -[truthy lookup_default String.eqb strip config_path lookup_file read_yaml_config
        start_script_session handle_query join usage String.append].

(** X21. With no argument and nothing usable on standard input (none,
    or white space only), the program prints the usage line on the
    standard error and exits with status 1 before it reads the
    configuration: nothing else changes. *)
Theorem main_usage_error (E : env) (w : world) :
  query_given E [] = false ->
  main E [] w
  = (Raise (SystemExit 1),
     World (files w) (can_write w) (heap w) (stdout w) (stderr w ++ [usage E])
       (log w) (posts w)).
Proof.
  unfold query_given, main, read_stdin, bind, ret. intros Hq.
  destruct (stdin E) as [data | ]; [ | reflexivity ].
  eval_main. rewrite Hq. reflexivity.
Qed.

Lemma main_usage_error_witness :
  main (Scenario.env_with (Some "  ")) [] Scenario.fresh_world
  = (Raise (SystemExit 1),
     World (files Scenario.fresh_world) (can_write Scenario.fresh_world)
       (heap Scenario.fresh_world) (stdout Scenario.fresh_world)
       (stderr Scenario.fresh_world ++ [usage (Scenario.env_with (Some "  "))])
       (log Scenario.fresh_world) (posts Scenario.fresh_world)).
Proof.
  apply (main_usage_error (Scenario.env_with (Some "  ")) Scenario.fresh_world).
  reflexivity.
Defined.





(** X24. In query mode with text on standard input and arguments, the
    query is the stripped input, a line break, and the arguments
    concatenated with nothing between them; it reaches [handle_query]
    with the configuration read, and nothing but the log and the
    standard error has changed by then. *)
Theorem main_joins_input_and_arguments
    (E : env) (w w1 : world) (data a : string) (rest : list string)
    (d o : list (string * value)) :
  stdin E = Some data ->
  truthy (VStr (strip data)) = true ->
  String.eqb a "record" = false ->
  join EmptyString (a :: rest) <> EmptyString ->
  read_yaml_config E (config_path E) w = (Ok (VDict d), w1) ->
  lookup_default d "output_capture_settings" (VDict []) = VDict o ->
  truthy (lookup_default o "enforce_script_session" (VBool false)) = false ->
  exists w2,
    main E (a :: rest) w
    = handle_query E (strip data +:+ newline +:+ join EmptyString (a :: rest)) (VDict d) w2
    /\ same_store w w2.
Proof.
  intros Hin Hd Ha Hj Hyaml Hocs Henf.
  pose proof (keeps_read_yaml_config same_store same_store_refl same_store_trans
                keeps_logging keeps_print_stderr E (config_path E) w) as Hkeep.
  rewrite Hyaml in Hkeep. cbn [snd] in Hkeep.
  unfold main, read_stdin, bind, ret, dict_get. rewrite Hin.
  eval_main. rewrite Hd. eval_main. rewrite Hyaml. eval_main.
  destruct (truthy (VDict d)); eval_main; rewrite Hocs; unfold ret; eval_main.
  all: rewrite Henf, Ha; eval_main.
  all: destruct (join EmptyString (a :: rest)) as [ | ch q ] eqn:Hjoin; [ congruence | ].
  all: rewrite strip_strip; eexists; split; [ reflexivity | ].
  - exact Hkeep.
  - destruct Hkeep as (? & ? & ? & ? & ?). repeat split; assumption.
Qed.

Lemma main_joins_input_and_arguments_witness :
  exists w2,
    main (Scenario.env_with (Some " see below ")) ["what"; "is"; "this"] Scenario.fresh_world
    = handle_query (Scenario.env_with (Some " see below "))
        (strip " see below " +:+ newline +:+ join EmptyString ["what"; "is"; "this"])
        (VDict []) w2
    /\ same_store Scenario.fresh_world w2.
Proof.
  apply (main_joins_input_and_arguments (Scenario.env_with (Some " see below "))
           Scenario.fresh_world
           (snd (read_yaml_config (Scenario.env_with (Some " see below ")) "config.yaml"
                   Scenario.fresh_world))
           " see below " "what" ["is"; "this"] [] []).
  - reflexivity.
  - reflexivity.
  - reflexivity.
  - discriminate.
  - reflexivity.
  - reflexivity.
  - reflexivity.
Defined.

(** X25. Arguments that are all empty strings, with nothing usable on
    standard input, pass the first usage test (there are arguments) and
    fail the second: the configuration is read, then the usage line is
    printed and the program exits with status 1 without a request. *)
Theorem main_blank_arguments
    (E : env) (w w1 : world) (a : string) (rest : list string)
    (d o : list (string * value)) :
  query_given E [] = false ->
  join EmptyString (a :: rest) = EmptyString ->
  read_yaml_config E (config_path E) w = (Ok (VDict d), w1) ->
  lookup_default d "output_capture_settings" (VDict []) = VDict o ->
  truthy (lookup_default o "enforce_script_session" (VBool false)) = false ->
  let out := main E (a :: rest) w in
  fst out = Raise (SystemExit 1)
  /\ stderr (snd out) = (stderr w1 ++ [usage E])%list
  /\ posts (snd out) = posts w
  /\ stdout (snd out) = stdout w
  /\ files (snd out) = files w.
Proof.
  intros Hq Hj Hyaml Hocs Henf out.
  pose proof (join_empty a rest Hj) as ->.
  pose proof (keeps_read_yaml_config same_store same_store_refl same_store_trans
                keeps_logging keeps_print_stderr E (config_path E) w) as Hkeep.
  rewrite Hyaml in Hkeep. cbn [snd] in Hkeep. destruct Hkeep as (Hf & _ & _ & Hout & Hposts).
  assert (exists w2, main E (EmptyString :: rest) w = (Raise (SystemExit 1), w2)
                     /\ stderr w2 = (stderr w1 ++ [usage E])%list /\ posts w2 = posts w1
                     /\ stdout w2 = stdout w1 /\ files w2 = files w1)
    as (w2 & Hmain & He2 & Hp2 & Ho2 & Hf2).
  { unfold query_given in Hq. unfold main, read_stdin, bind, ret, dict_get.
    destruct (stdin E) as [data | ].
    all: eval_main; rewrite ?Hq; eval_main; rewrite Hyaml; eval_main.
    all: destruct (truthy (VDict d)); eval_main; rewrite Hocs; unfold ret; eval_main.
    all: rewrite Henf; eval_main; rewrite Hj; eval_main.
    all: eexists; split; [ reflexivity | repeat split ]. }
  subst out. rewrite Hmain. cbn [fst snd]. repeat split; congruence.
Qed.

Lemma main_blank_arguments_witness :
  let out := main (Scenario.env_with None) [EmptyString; EmptyString] Scenario.fresh_world in
  fst out = Raise (SystemExit 1)
  /\ stderr (snd out)
     = (stderr (snd (read_yaml_config (Scenario.env_with None) "config.yaml"
                       Scenario.fresh_world))
        ++ [usage (Scenario.env_with None)])%list
  /\ posts (snd out) = posts Scenario.fresh_world
  /\ stdout (snd out) = stdout Scenario.fresh_world
  /\ files (snd out) = files Scenario.fresh_world.
Proof.
  apply (main_blank_arguments (Scenario.env_with None) Scenario.fresh_world
           (snd (read_yaml_config (Scenario.env_with None) "config.yaml"
                   Scenario.fresh_world))
           EmptyString [EmptyString] [] []).
  - reflexivity.
  - reflexivity.
  - reflexivity.
  - reflexivity.
  - reflexivity.
Defined.

(** X26. The session guard on an invocation with arguments: when the
    configuration enforces a recording session, the first argument is
    not "record" and the captured-output file does not exist, the
    program prints the hint to record first and exits with status 1; no
    request is sent, nothing is printed on the standard output and no
    file changes. *)
Theorem session_guard_refuses_arguments
    (E : env) (w : world) (a : string) (rest : list string) (text : string)
    (d o : list (string * value)) (path : string) :
  String.eqb a "record" = false ->
  lookup_file w (config_path E) = Some text ->
  yaml_safe_load E text = Ok (VDict d) ->
  lookup_default d "output_capture_settings" (VDict []) = VDict o ->
  truthy (lookup_default o "enforce_script_session" (VBool false)) = true ->
  lookup_default o "captured_output_file" default_output_file = VStr path ->
  lookup_file w path = None ->
  let out := main E (a :: rest) w in
  exit_status (fst out) = Some 1
  /\ stderr (snd out)
     = (stderr w ++ ["Please call `" +:+ argv0 E
                     +:+ " record` first to initialize script session."])%list
  /\ posts (snd out) = posts w
  /\ stdout (snd out) = stdout w
  /\ files (snd out) = files w.
Proof.
  intros Ha Hconf Hyaml Hocs Henf Hfile Hnone out. subst out.
  rewrite (QueryFacts.main_refused E w a rest text d o path) by assumption.
  repeat split.
Qed.

Lemma session_guard_refuses_arguments_witness :
  let out := main (Scenario.env_with None) ["hello"] Scenario.enforcing_world in
  exit_status (fst out) = Some 1
  /\ stderr (snd out)
     = (stderr Scenario.enforcing_world
        ++ ["Please call `" +:+ argv0 (Scenario.env_with None)
            +:+ " record` first to initialize script session."])%list
  /\ posts (snd out) = posts Scenario.enforcing_world
  /\ stdout (snd out) = stdout Scenario.enforcing_world
  /\ files (snd out) = files Scenario.enforcing_world.
Proof.
  apply (session_guard_refuses_arguments (Scenario.env_with None) Scenario.enforcing_world
           "hello" [] Scenario.enforcing_text
           [("output_capture_settings", VDict [("enforce_script_session", VBool true)])]
           [("enforce_script_session", VBool true)] "/tmp/minishellai_output.txt").
  - reflexivity.
  - reflexivity.
  - reflexivity.
  - reflexivity.
  - reflexivity.
  - reflexivity.
  - reflexivity.
Defined.

(** X27. What [read_stdin] returns is already stripped, so the second
    [strip] that the main block applies to it changes nothing; the call
    itself changes nothing. *)
Theorem read_stdin_is_stripped (E : env) (w w' : world) (data : string) :
  read_stdin E w = (Ok (Some data), w') ->
  strip data = data /\ w' = w.
Proof.
  unfold read_stdin, ret. destruct (stdin E) as [text | ]; [ | discriminate ].
  intros H. injection H as <- <-. split; [ apply strip_strip | reflexivity ].
Qed.

Lemma read_stdin_is_stripped_witness :
  strip "hello" = "hello" /\ Scenario.fresh_world = Scenario.fresh_world.
Proof.
  apply (read_stdin_is_stripped (Scenario.env_with (Some " hello ")) Scenario.fresh_world
           Scenario.fresh_world "hello").
  reflexivity.
Defined.

(** X28. A configuration file whose document is no mapping (a list, a
    text, a number, or the empty document) ends the program with the
    [AttributeError] of the first [config.get], whether or not the
    document counts as empty: no request is sent, nothing is printed
    and no file changes. *)
Theorem main_config_not_a_mapping
    (E : env) (w : world) (args : list string) (text : string) (v : value) :
  query_given E args = true ->
  lookup_file w (config_path E) = Some text ->
  yaml_safe_load E text = Ok v ->
  Cases.is_dict v = false ->
  let out := main E args w in
  fst out = Raise AttributeError
  /\ posts (snd out) = posts w
  /\ stdout (snd out) = stdout w
  /\ stderr (snd out) = stderr w
  /\ files (snd out) = files w.
Proof.
  intros Hq Hconf Hyaml Hv out. subst out.
  unfold main, read_stdin, read_yaml_config, bind, ret, lift, dict_get.
  unfold query_given in Hq.
  destruct (stdin E) as [data | ]; [ destruct (truthy (VStr (strip data))) eqn:Hd | ];
    destruct args as [ | a rest ]; try discriminate;
    cbn -[truthy lookup_default String.eqb strip config_path lookup_file]; rewrite ?Hd;
    cbn -[truthy lookup_default String.eqb strip config_path lookup_file].
  all: unfold os_path_exists, read_text; cbv beta; rewrite Hconf.
  all: cbn -[truthy lookup_default String.eqb strip config_path lookup_file].
  all: rewrite Hconf, Hyaml.
  all: destruct (truthy v); destruct v; try discriminate; repeat split.
Qed.

Lemma main_config_not_a_mapping_witness :
  let out := main (Cases.env_loading (VList [VStr "a"])) ["hello"] Scenario.empty_config_world in
  fst out = Raise AttributeError
  /\ posts (snd out) = posts Scenario.empty_config_world
  /\ stdout (snd out) = stdout Scenario.empty_config_world
  /\ stderr (snd out) = stderr Scenario.empty_config_world
  /\ files (snd out) = files Scenario.empty_config_world.
Proof.
  apply (main_config_not_a_mapping (Cases.env_loading (VList [VStr "a"]))
           Scenario.empty_config_world ["hello"] EmptyString (VList [VStr "a"])).
  - reflexivity.
  - reflexivity.
  - reflexivity.
  - reflexivity.
Defined.

(** X29. An exception of the YAML loader on the configuration file is
    caught nowhere: it ends the program before any request, with
    nothing printed and no file changed. *)
Theorem main_config_load_error
    (E : env) (w : world) (args : list string) (text : string) (e : exn) :
  query_given E args = true ->
  lookup_file w (config_path E) = Some text ->
  yaml_safe_load E text = Raise e ->
  let out := main E args w in
  fst out = Raise e
  /\ posts (snd out) = posts w
  /\ stdout (snd out) = stdout w
  /\ stderr (snd out) = stderr w
  /\ files (snd out) = files w.
Proof.
  intros Hq Hconf Hyaml out. subst out.
  unfold main, read_stdin, read_yaml_config, bind, ret, lift, dict_get.
  unfold query_given in Hq.
  destruct (stdin E) as [data | ]; [ destruct (truthy (VStr (strip data))) eqn:Hd | ];
    destruct args as [ | a rest ]; try discriminate;
    cbn -[truthy lookup_default String.eqb strip config_path lookup_file]; rewrite ?Hd;
    cbn -[truthy lookup_default String.eqb strip config_path lookup_file].
  all: unfold os_path_exists, read_text; cbv beta; rewrite Hconf.
  all: cbn -[truthy lookup_default String.eqb strip config_path lookup_file].
  all: rewrite Hconf, Hyaml.
  all: repeat split.
Qed.

Lemma main_config_load_error_witness :
  let out := main Cases.env_bad_yaml ["hello"] Scenario.empty_config_world in
  fst out = Raise YAMLError
  /\ posts (snd out) = posts Scenario.empty_config_world
  /\ stdout (snd out) = stdout Scenario.empty_config_world
  /\ stderr (snd out) = stderr Scenario.empty_config_world
  /\ files (snd out) = files Scenario.empty_config_world.
Proof.
  apply (main_config_load_error Cases.env_bad_yaml Scenario.empty_config_world
           ["hello"] EmptyString YAMLError).
  - reflexivity.
  - reflexivity.
  - reflexivity.
Defined.

End MainMore.
